(** * Verification of the source-code element extractor (extract.ts)

    A shallow embedding of [packages/core/src/tools/extract.ts]: language
    detection, the six line-based extractors with their regular-expression
    tables, the four output formats and the [execute] orchestrator.

    Modelling conventions
    - A JavaScript string is a [list ascii]: a sequence of code units, here
      restricted to the Latin-1 range (code units 0..255).  String literals
      are written ["..."] and coerced through [list_ascii_of_string].
    - A JavaScript regular expression is a value of [regex]; [exec] follows
      the backtracking semantics of ECMAScript (leftmost start index,
      priority order between alternatives, greedy and lazy quantifiers,
      numbered capture groups).
    - [undefined] is [None].
    - Code of other modules and of the platform (path helpers,
      configuration, workspace check) is a field of [Config], a total
      function; the asynchronous file reader is the one effect of
      [execute], and its promise may be rejected. *)

From Stdlib Require Import Ascii String.
From Stdlib Require Import List Arith Bool Lia Sorted.
From Stdlib Require DecimalString.
Import ListNotations.
Open Scope string_scope.
Open Scope nat_scope.
Open Scope list_scope.

Set Implicit Arguments.

(* ================================================================= *)
(** ** JavaScript strings *)

Module JS.

Definition jsstring := list ascii.

Definition js (s : string) : jsstring := list_ascii_of_string s.
Coercion js : string >-> jsstring.

Definition code (c : ascii) : nat := nat_of_ascii c.

(** [===] on strings. *)
Fixpoint streq (a b : jsstring) : bool :=
  match a, b with
  | [], [] => true
  | x :: a', y :: b' => Ascii.eqb x y && streq a' b'
  | _, _ => false
  end.

(** WhiteSpace and LineTerminator code units below 256: TAB, LF, VT, FF,
    CR, SP and NBSP.  This is the set stripped by [trim] and matched by
    the regular-expression class [\s]. *)
Definition is_ws (c : ascii) : bool :=
  let n := code c in
  (9 <=? n) && (n <=? 13) || (n =? 32) || (n =? 160).

(** LineTerminator code units below 256: LF and CR ([.] does not match
    them). *)
Definition is_line_terminator (c : ascii) : bool :=
  let n := code c in (n =? 10) || (n =? 13).

Fixpoint trimStart (s : jsstring) : jsstring :=
  match s with
  | c :: s' => if is_ws c then trimStart s' else s
  | [] => []
  end.

Definition trimEnd (s : jsstring) : jsstring := rev (trimStart (rev s)).

(** [String.prototype.trim]. *)
Definition trim (s : jsstring) : jsstring := trimEnd (trimStart s).

(** [s.startsWith(p)]. *)
Fixpoint startsWith (s p : jsstring) : bool :=
  match p, s with
  | [], _ => true
  | x :: p', y :: s' => Ascii.eqb x y && startsWith s' p'
  | _ :: _, [] => false
  end.

(** [s.includes(p)]. *)
Fixpoint includes (s p : jsstring) : bool :=
  startsWith s p ||
  match s with
  | [] => false
  | _ :: s' => includes s' p
  end.

(** [s.split('\n')]: the pieces between line feeds; never empty. *)
Fixpoint split_lines_aux (cur : jsstring) (s : jsstring) : list jsstring :=
  match s with
  | [] => [rev cur]
  | c :: s' =>
      if Ascii.eqb c "010"%char
      then rev cur :: split_lines_aux [] s'
      else split_lines_aux (c :: cur) s'
  end.

Definition split_lines (s : jsstring) : list jsstring := split_lines_aux [] s.

(** [lines.join('\n')], the inverse used in statements. *)
Fixpoint join_lines (ls : list jsstring) : jsstring :=
  match ls with
  | [] => []
  | [l] => l
  | l :: ls' => l ++ "010"%char :: join_lines ls'
  end.

(** [String.prototype.toLowerCase] on Latin-1 code units: A-Z and the
    accented capitals U+00C0..U+00DE except the multiplication sign. *)
Definition lower_char (c : ascii) : ascii :=
  let n := code c in
  if (65 <=? n) && (n <=? 90) then ascii_of_nat (n + 32)
  else if (192 <=? n) && (n <=? 222) && negb (n =? 215) then ascii_of_nat (n + 32)
  else c.

Definition toLowerCase (s : jsstring) : jsstring := map lower_char s.

(** Number-to-string conversion of a non-negative integer (template
    literals and [JSON.stringify] of [line]). *)
Definition number_to_string (n : nat) : jsstring :=
  js (DecimalString.NilZero.string_of_uint (Nat.to_uint n)).

(** Truthiness of a possibly-undefined string: [undefined] and [''] are
    falsy. *)
Definition truthy (v : option jsstring) : bool :=
  match v with
  | Some (_ :: _) => true
  | _ => false
  end.

(** [a || b] on possibly-undefined strings. *)
Definition or_else (a b : option jsstring) : option jsstring :=
  if truthy a then a else b.

End JS.
Import JS.

(* ================================================================= *)
(** ** Regular expressions *)

Module Regex.

(** Members of a character class. *)
Inductive citem : Type :=
| CChar (c : ascii)               (* a literal member *)
| CRange (lo hi : ascii)          (* lo-hi *)
| CWord                           (* \w *)
| CSpace.                         (* \s *)

Definition is_word (c : ascii) : bool :=
  let n := code c in
  (97 <=? n) && (n <=? 122) || (65 <=? n) && (n <=? 90) ||
  (48 <=? n) && (n <=? 57) || (n =? 95).

Definition citem_mem (c : ascii) (i : citem) : bool :=
  match i with
  | CChar d => Ascii.eqb c d
  | CRange lo hi => (code lo <=? code c) && (code c <=? code hi)
  | CWord => is_word c
  | CSpace => is_ws c
  end.

Definition class_mem (items : list citem) (c : ascii) : bool :=
  existsb (citem_mem c) items.

(** The pattern syntax used by the extractor's tables. *)
Inductive regex : Type :=
| Empty                                   (* the empty pattern *)
| Lit (c : ascii)                         (* a literal character *)
| Dot                                     (* .  (no s flag) *)
| Set_ (items : list citem)               (* [...] , \s , \w *)
| NotSet (items : list citem)             (* [^...] *)
| Seq (r1 r2 : regex)                     (* r1r2 *)
| Alt (r1 r2 : regex)                     (* r1|r2 *)
| Star (r : regex)                        (* r*  *)
| StarLazy (r : regex)                    (* r*? *)
| Opt (r : regex)                         (* r?  *)
| Group (n : nat) (r : regex)             (* the n-th capturing (...) *)
| Bol                                     (* ^  (no m flag) *)
| WordB.                                  (* \b *)

(** Matcher state: the code units before the current index (most recent
    first), the code units from the current index on, and the captures
    made so far. *)
Record mstate : Type := MState {
  before : list ascii;
  rest : list ascii;
  caps : list (nat * jsstring)
}.

Definition cont := mstate -> option mstate.
Definition matcher := cont -> mstate -> option mstate.

Definition orelse (a : option mstate) (b : unit -> option mstate) : option mstate :=
  match a with
  | Some y => Some y
  | None => b tt
  end.

(** Consume one code unit satisfying [p]. *)
Definition char_matcher (p : ascii -> bool) : matcher :=
  fun k x =>
    match rest x with
    | c :: r => if p c then k (MState (c :: before x) r (caps x)) else None
    | [] => None
    end.

(** Capture groups contained in a pattern (reset at each iteration of an
    enclosing quantifier). *)
Fixpoint groups_of (r : regex) : list nat :=
  match r with
  | Seq a b | Alt a b => groups_of a ++ groups_of b
  | Star a | StarLazy a | Opt a => groups_of a
  | Group n a => n :: groups_of a
  | _ => []
  end.

Definition clear_caps (gs : list nat) (x : mstate) : mstate :=
  MState (before x) (rest x)
         (filter (fun p => negb (existsb (Nat.eqb (fst p)) gs)) (caps x)).

Definition set_cap (n : nat) (v : jsstring) (x : mstate) : mstate :=
  MState (before x) (rest x)
         ((n, v) :: filter (fun p => negb (Nat.eqb (fst p) n)) (caps x)).

(** The text consumed between state [x] and a later state [y]. *)
Definition consumed (x y : mstate) : jsstring :=
  firstn (length (rest x) - length (rest y)) (rest x).

(** RepeatMatcher for [{0,}]: an iteration that consumes nothing is
    rejected, so [fuel] larger than the remaining input is never
    exhausted. *)
Fixpoint repeat_matcher (body : matcher) (gs : list nat) (greedy : bool)
         (fuel : nat) (k : cont) (x : mstate) : option mstate :=
  match fuel with
  | 0 => k x
  | S fuel' =>
      let again (_ : unit) :=
        body (fun y =>
                if length (rest y) <? length (rest x)
                then repeat_matcher body gs greedy fuel' k y
                else None)
             (clear_caps gs x) in
      if greedy then orelse (again tt) (fun _ => k x)
      else orelse (k x) again
  end.

Definition word_at (o : list ascii) : bool :=
  match o with
  | c :: _ => is_word c
  | [] => false
  end.

(** The matcher of a pattern, in continuation-passing style. *)
Fixpoint m (r : regex) : matcher :=
  match r with
  | Empty => fun k x => k x
  | Lit c => char_matcher (Ascii.eqb c)
  | Dot => char_matcher (fun c => negb (is_line_terminator c))
  | Set_ items => char_matcher (class_mem items)
  | NotSet items => char_matcher (fun c => negb (class_mem items c))
  | Seq r1 r2 => fun k x => m r1 (m r2 k) x
  | Alt r1 r2 => fun k x => orelse (m r1 k x) (fun _ => m r2 k x)
  | Star r1 =>
      fun k x => repeat_matcher (m r1) (groups_of r1) true (S (length (rest x))) k x
  | StarLazy r1 =>
      fun k x => repeat_matcher (m r1) (groups_of r1) false (S (length (rest x))) k x
  | Opt r1 =>
      fun k x =>
        orelse (m r1 (fun y => if length (rest y) <? length (rest x) then k y else None)
                  (clear_caps (groups_of r1) x))
               (fun _ => k x)
  | Group n r1 => fun k x => m r1 (fun y => k (set_cap n (consumed x y) y)) x
  | Bol => fun k x => match before x with [] => k x | _ => None end
  | WordB => fun k x => if xorb (word_at (before x)) (word_at (rest x)) then k x else None
  end.

(** The array returned by a successful [str.match(re)] (no g flag):
    [index], the whole match [m[0]] and the capture groups [m[1]], [m[2]],
    ...; a group that did not participate, or an index past the last
    group, is [undefined]. *)
Record match_result : Type := MatchResult {
  index : nat;
  whole : jsstring;
  groups : list (nat * jsstring)
}.

Definition group (mr : match_result) (n : nat) : option jsstring :=
  match find (fun p => Nat.eqb (fst p) n) (groups mr) with
  | Some p => Some (snd p)
  | None => None
  end.

(** Try the start indices from the current one to the end of the input. *)
Fixpoint search (r : regex) (bef : list ascii) (s : list ascii) : option match_result :=
  let x := MState bef s [] in
  match m r (fun y => Some y) x with
  | Some y => Some (MatchResult (length bef) (consumed x y) (caps y))
  | None =>
      match s with
      | [] => None
      | c :: s' => search r (c :: bef) s'
      end
  end.

(** [str.match(re)] for a pattern without the g flag. *)
Definition exec (r : regex) (s : jsstring) : option match_result :=
  search r [] s.

(** *** Pattern combinators *)

(** A literal string. *)
Fixpoint lit (s : jsstring) : regex :=
  match s with
  | [] => Empty
  | [c] => Lit c
  | c :: s' => Seq (Lit c) (lit s')
  end.

(** Concatenation of the pieces of a pattern. *)
Fixpoint cat (rs : list regex) : regex :=
  match rs with
  | [] => Empty
  | [r] => r
  | r :: rs' => Seq r (cat rs')
  end.

(** [r+]: one mandatory iteration followed by [r*]. *)
Definition Plus (r : regex) : regex := Seq r (Star r).

Definition ws : regex := Set_ [CSpace].                         (* \s *)
Definition word : regex := Set_ [CWord].                        (* \w *)

End Regex.
Import Regex.

(* ================================================================= *)
(** ** Extracted elements *)

(** The string literals stored in the [type] field of an element. *)
Inductive ElementType : Type :=
| SingleLineComment | MultiLineComment
| FunctionElement | ClassElement | ImportElement | VariableElement | TypeElement.

Definition type_name (t : ElementType) : jsstring :=
  match t with
  | SingleLineComment => "single-line-comment"
  | MultiLineComment => "multi-line-comment"
  | FunctionElement => "function"
  | ClassElement => "class"
  | ImportElement => "import"
  | VariableElement => "variable"
  | TypeElement => "type"
  end.

Module Element.
Record t : Type := Build {
  type : ElementType;
  name : jsstring;
  line : nat;
  content : jsstring
}.
End Element.
Definition ExtractedElement : Type := Element.t.

(* ================================================================= *)
(** ** Language detection *)

(** [detectLanguage], over the [path.extname] of the platform. *)
Definition detectLanguage (extname : jsstring -> jsstring) (filePath : jsstring)
  : option jsstring :=
  let ext := toLowerCase (extname filePath) in
  if streq ext ".js" || streq ext ".jsx" then Some (js "javascript")
  else if streq ext ".ts" || streq ext ".tsx" then Some (js "typescript")
  else if streq ext ".py" then Some (js "python")
  else if streq ext ".java" then Some (js "java")
  else if streq ext ".go" then Some (js "go")
  else None.

(* ================================================================= *)
(** ** Pattern tables

    Each pattern is preceded by its source text.  In these comments DQ
    stands for the double-quote character and a blank separates a star from
    a parenthesis next to it. *)

Definition dquote : ascii := "034"%char.
Definition squote : ascii := "039"%char.

(** The class holding the single and the double quote. *)
Definition quote : regex := Set_ [CChar squote; CChar dquote].

(** [[a-zA-Z_$][a-zA-Z0-9_$]*] *)
Definition ident_dollar : regex :=
  Seq (Set_ [CRange "a" "z"; CRange "A" "Z"; CChar "_"; CChar "$"])
      (Star (Set_ [CRange "a" "z"; CRange "A" "Z"; CRange "0" "9"; CChar "_"; CChar "$"])).

(** [[a-zA-Z_][a-zA-Z0-9_]*] *)
Definition ident : regex :=
  Seq (Set_ [CRange "a" "z"; CRange "A" "Z"; CChar "_"])
      (Star (Set_ [CRange "a" "z"; CRange "A" "Z"; CRange "0" "9"; CChar "_"])).

(** A parenthesised argument list: an opening parenthesis, any run of
    characters other than the closing one, and the closing parenthesis. *)
Definition arglist : regex := cat [Lit "("; Star (NotSet [CChar ")"]); Lit ")"].

(** Three single quotes or three double quotes. *)
Definition triple_quote : regex :=
  Alt (lit [squote; squote; squote]) (lit [dquote; dquote; dquote]).

Record comment_patterns : Type := CommentPatterns {
  singleLineComment : regex;
  multiLineCommentStart : regex;
  multiLineCommentEnd : regex
}.

Definition c_style_comments : comment_patterns :=
  CommentPatterns
    (cat [lit "//"; Group 1 (Star Dot)])            (* /\/\/(.* )/   *)
    (cat [lit "/*"; Group 1 (Star Dot)])            (* /\/\*(.* )/   *)
    (cat [Group 1 (StarLazy Dot); lit "*/"]).       (* /(.*?)\*\//  *)

Definition python_comments : comment_patterns :=
  CommentPatterns
    (cat [Lit "#"; Group 1 (Star Dot)])                      (* /#(.* )/  *)
    (cat [Group 1 triple_quote; Group 2 (Star Dot)])         (* /('''|DQDQDQ)(.* )/  *)
    (cat [Group 1 (StarLazy Dot); Group 2 triple_quote]).    (* /(.*?)('''|DQDQDQ)/ *)

(** The [switch (language)] of [extractComments]; [None] is the
    [default: return []] branch. *)
Definition commentPatterns (language : jsstring) : option comment_patterns :=
  if streq language "javascript" || streq language "typescript" then Some c_style_comments
  else if streq language "python" then Some python_comments
  else if streq language "java" then Some c_style_comments
  else if streq language "go" then Some c_style_comments
  else None.

Definition functionPatterns (language : jsstring) : option (list regex) :=
  if streq language "javascript" || streq language "typescript" then
    Some [
      (* /function\s+([a-zA-Z_$][a-zA-Z0-9_$]* )\s*\([^)]*\)\s*\{/ *)
      cat [lit "function"; Plus ws; Group 1 ident_dollar; Star ws; arglist; Star ws; Lit "{"];
      (* /([a-zA-Z_$][a-zA-Z0-9_$]* )\s*=\s*function\s*\([^)]*\)\s*\{/ *)
      cat [Group 1 ident_dollar; Star ws; Lit "="; Star ws; lit "function"; Star ws;
           arglist; Star ws; Lit "{"];
      (* /([a-zA-Z_$][a-zA-Z0-9_$]* )\s*=\s*\([^)]*\)\s*=>/ *)
      cat [Group 1 ident_dollar; Star ws; Lit "="; Star ws; arglist; Star ws; lit "=>"];
      (* /([a-zA-Z_$][a-zA-Z0-9_$]* )\s*\([^)]*\)\s*\{/ *)
      cat [Group 1 ident_dollar; Star ws; arglist; Star ws; Lit "{"];
      (* /\b([a-zA-Z_$][a-zA-Z0-9_$]* )\s*:\s*function\s*\([^)]*\)\s*\{/ *)
      cat [WordB; Group 1 ident_dollar; Star ws; Lit ":"; Star ws; lit "function"; Star ws;
           arglist; Star ws; Lit "{"]
    ]
  else if streq language "python" then
    Some [
      (* /def\s+([a-zA-Z_][a-zA-Z0-9_]* )\s*\([^)]*\)\s*:/ *)
      cat [lit "def"; Plus ws; Group 1 ident; Star ws; arglist; Star ws; Lit ":"]
    ]
  else if streq language "java" then
    Some [
      (* /(public|private|protected)?\s*(static)?\s*\w+\s+([a-zA-Z_$][a-zA-Z0-9_$]* )\s*\([^)]*\)\s*\{/ *)
      cat [Opt (Group 1 (Alt (lit "public") (Alt (lit "private") (lit "protected"))));
           Star ws; Opt (Group 2 (lit "static")); Star ws; Plus word; Plus ws;
           Group 3 ident_dollar; Star ws; arglist; Star ws; Lit "{"]
    ]
  else if streq language "go" then
    Some [
      (* /func\s+([a-zA-Z_][a-zA-Z0-9_]* )\s*\([^)]*\)\s*\w*/ *)
      cat [lit "func"; Plus ws; Group 1 ident; Star ws; arglist; Star ws; Star word]
    ]
  else None.

Definition classPatterns (language : jsstring) : option (list regex) :=
  if streq language "javascript" || streq language "typescript" then
    (* /class\s+([a-zA-Z_$][a-zA-Z0-9_$]* )/ *)
    Some [cat [lit "class"; Plus ws; Group 1 ident_dollar]]
  else if streq language "python" then
    (* /class\s+([a-zA-Z_][a-zA-Z0-9_]* )\s*\(?.*\)?\s*:/ *)
    Some [cat [lit "class"; Plus ws; Group 1 ident; Star ws; Opt (Lit "("); Star Dot;
               Opt (Lit ")"); Star ws; Lit ":"]]
  else if streq language "java" then
    (* /(public|private)?\s*class\s+([a-zA-Z_$][a-zA-Z0-9_$]* )/ *)
    Some [cat [Opt (Group 1 (Alt (lit "public") (lit "private"))); Star ws; lit "class";
               Plus ws; Group 2 ident_dollar]]
  else if streq language "go" then
    (* /type\s+([a-zA-Z_][a-zA-Z0-9_]* )\s+struct\s*\{/ *)
    Some [cat [lit "type"; Plus ws; Group 1 ident; Plus ws; lit "struct"; Star ws; Lit "{"]]
  else None.

Definition importPatterns (language : jsstring) : option (list regex) :=
  if streq language "javascript" || streq language "typescript" then
    Some [
      (* /import\s+.*from\s+['DQ](.* )['DQ]/ *)
      cat [lit "import"; Plus ws; Star Dot; lit "from"; Plus ws; quote; Group 1 (Star Dot); quote];
      (* /import\s+['DQ](.* )['DQ]/ *)
      cat [lit "import"; Plus ws; quote; Group 1 (Star Dot); quote];
      (* /export\s+(default\s+)?(class|function|const|let|var)\s+([a-zA-Z_$][a-zA-Z0-9_$]* )/ *)
      cat [lit "export"; Plus ws; Opt (Group 1 (Seq (lit "default") (Plus ws)));
           Group 2 (Alt (lit "class") (Alt (lit "function") (Alt (lit "const")
                      (Alt (lit "let") (lit "var")))));
           Plus ws; Group 3 ident_dollar];
      (* /export\s+{.*}/ *)
      cat [lit "export"; Plus ws; Lit "{"; Star Dot; Lit "}"];
      (* /require\(['DQ](.* )['DQ]\)/ *)
      cat [lit "require("; quote; Group 1 (Star Dot); quote; Lit ")"]
    ]
  else if streq language "python" then
    Some [
      (* /import\s+([a-zA-Z_][a-zA-Z0-9_.]* )/ *)
      cat [lit "import"; Plus ws;
           Group 1 (Seq (Set_ [CRange "a" "z"; CRange "A" "Z"; CChar "_"])
                        (Star (Set_ [CRange "a" "z"; CRange "A" "Z"; CRange "0" "9";
                                     CChar "_"; CChar "."])))];
      (* /from\s+([a-zA-Z_][a-zA-Z0-9_.]* )\s+import\s+.*/ *)
      cat [lit "from"; Plus ws;
           Group 1 (Seq (Set_ [CRange "a" "z"; CRange "A" "Z"; CChar "_"])
                        (Star (Set_ [CRange "a" "z"; CRange "A" "Z"; CRange "0" "9";
                                     CChar "_"; CChar "."])));
           Plus ws; lit "import"; Plus ws; Star Dot]
    ]
  else if streq language "java" then
    (* /import\s+([a-zA-Z0-9_.*]+)/ *)
    Some [cat [lit "import"; Plus ws;
               Group 1 (Plus (Set_ [CRange "a" "z"; CRange "A" "Z"; CRange "0" "9";
                                    CChar "_"; CChar "."; CChar "*"]))]]
  else if streq language "go" then
    Some [
      (* /import\s+['DQ](.* )['DQ]/ *)
      cat [lit "import"; Plus ws; quote; Group 1 (Star Dot); quote];
      (* /import\s+\([^)]*\)/s  -- the s flag only changes [.], which this
         pattern does not use *)
      cat [lit "import"; Plus ws; arglist]
    ]
  else None.

Definition variablePatterns (language : jsstring) : option (list regex) :=
  if streq language "javascript" || streq language "typescript" then
    (* /(const|let|var)\s+([a-zA-Z_$][a-zA-Z0-9_$]* )/ *)
    Some [cat [Group 1 (Alt (lit "const") (Alt (lit "let") (lit "var"))); Plus ws;
               Group 2 ident_dollar]]
  else if streq language "python" then
    (* /^([a-zA-Z_][a-zA-Z0-9_]* )\s*=/ *)
    Some [cat [Bol; Group 1 ident; Star ws; Lit "="]]
  else if streq language "java" then
    (* /(final)?\s*(public|private|protected)?\s*\w+\s+([a-zA-Z_$][a-zA-Z0-9_$]* )\s*(=|;)/ *)
    Some [cat [Opt (Group 1 (lit "final")); Star ws;
               Opt (Group 2 (Alt (lit "public") (Alt (lit "private") (lit "protected"))));
               Star ws; Plus word; Plus ws; Group 3 ident_dollar; Star ws;
               Group 4 (Alt (Lit "=") (Lit ";"))]]
  else if streq language "go" then
    Some [
      (* /(var|const)\s+([a-zA-Z_][a-zA-Z0-9_]* )/ *)
      cat [Group 1 (Alt (lit "var") (lit "const")); Plus ws; Group 2 ident];
      (* /([a-zA-Z_][a-zA-Z0-9_]* )\s*:=/ *)
      cat [Group 1 ident; Star ws; lit ":="]
    ]
  else None.

Definition typePatterns (language : jsstring) : option (list regex) :=
  if streq language "javascript" then
    Some [
      (* /@typedef\s+\{[^}]+\}\s+([a-zA-Z_$][a-zA-Z0-9_$]* )/ *)
      cat [lit "@typedef"; Plus ws; Lit "{"; Plus (NotSet [CChar "}"]); Lit "}"; Plus ws;
           Group 1 ident_dollar];
      (* /@param\s+\{[^}]+\}\s+([a-zA-Z_$][a-zA-Z0-9_$]* )/ *)
      cat [lit "@param"; Plus ws; Lit "{"; Plus (NotSet [CChar "}"]); Lit "}"; Plus ws;
           Group 1 ident_dollar]
    ]
  else if streq language "typescript" then
    Some [
      (* /interface\s+([a-zA-Z_$][a-zA-Z0-9_$]* )/ *)
      cat [lit "interface"; Plus ws; Group 1 ident_dollar];
      (* /type\s+([a-zA-Z_$][a-zA-Z0-9_$]* )\s*=/ *)
      cat [lit "type"; Plus ws; Group 1 ident_dollar; Star ws; Lit "="];
      (* /enum\s+([a-zA-Z_$][a-zA-Z0-9_$]* )/ *)
      cat [lit "enum"; Plus ws; Group 1 ident_dollar]
    ]
  else if streq language "python" then
    Some [
      (* /class\s+([a-zA-Z_][a-zA-Z0-9_]* )\s*\(?.*\)?\s*:/ *)
      cat [lit "class"; Plus ws; Group 1 ident; Star ws; Opt (Lit "("); Star Dot;
           Opt (Lit ")"); Star ws; Lit ":"];
      (* /from\s+typing\s+import\s+.*/ *)
      cat [lit "from"; Plus ws; lit "typing"; Plus ws; lit "import"; Plus ws; Star Dot];
      (* /import\s+typing/ *)
      cat [lit "import"; Plus ws; lit "typing"]
    ]
  else if streq language "java" then
    Some [
      (* /interface\s+([a-zA-Z_$][a-zA-Z0-9_$]* )/ *)
      cat [lit "interface"; Plus ws; Group 1 ident_dollar];
      (* /enum\s+([a-zA-Z_$][a-zA-Z0-9_$]* )/ *)
      cat [lit "enum"; Plus ws; Group 1 ident_dollar]
    ]
  else if streq language "go" then
    (* /type\s+([a-zA-Z_][a-zA-Z0-9_]* )\s+(interface|struct)/ *)
    Some [cat [lit "type"; Plus ws; Group 1 ident; Plus ws;
               Group 2 (Alt (lit "interface") (lit "struct"))]]
  else None.

(* ================================================================= *)
(** ** The extractors *)

(** The template literal [`Comment at line ${n}`]. *)
Definition comment_name (n : nat) : jsstring :=
  js "Comment at line " ++ number_to_string n.

(** A capture that the code reads as a string ([m[1].trim()], [m[1] || '']):
    the captured text, or the empty text for a group that is not set. *)
Definition group_text (mr : match_result) (n : nat) : jsstring :=
  match group mr n with
  | Some g => g
  | None => []
  end.

(** The mutable variables of the loop of [extractComments]. *)
Record comment_state : Type := CommentState {
  comments : list ExtractedElement;
  inMultiLineComment : bool;
  multiLineContent : jsstring;
  multiLineStartLine : nat
}.

(** One iteration of the loop of [extractComments] on [line], whose
    1-based number is [lineNumber]. *)
Definition comment_step (p : comment_patterns) (st : comment_state)
           (line : jsstring) (lineNumber : nat) : comment_state :=
  if inMultiLineComment st then
    let content' := multiLineContent st ++ "010"%char :: line in
    match exec (multiLineCommentEnd p) line with
    | Some _ =>
        CommentState
          (comments st ++
             [Element.Build MultiLineComment (comment_name (multiLineStartLine st))
                            (multiLineStartLine st) content'])
          false [] (multiLineStartLine st)
    | None => CommentState (comments st) true content' (multiLineStartLine st)
    end
  else
    (* Check for single line comments *)
    let comments1 :=
      match exec (singleLineComment p) line with
      | Some singleLineMatch =>
          comments st ++
            [Element.Build SingleLineComment (comment_name lineNumber) lineNumber
                           (trim (group_text singleLineMatch 1))]
      | None => comments st
      end in
    (* Check for multi-line comment start *)
    match exec (multiLineCommentStart p) line with
    | Some multiLineStartMatch =>
        let content' :=
          match or_else (group multiLineStartMatch 1) (Some []) with
          | Some c => c
          | None => []
          end in
        (* Check if it ends on the same line *)
        match exec (multiLineCommentEnd p) line with
        | Some _ =>
            CommentState
              (comments1 ++
                 [Element.Build MultiLineComment (comment_name lineNumber) lineNumber content'])
              false [] lineNumber
        | None => CommentState comments1 true content' lineNumber
        end
    | None =>
        CommentState comments1 false (multiLineContent st) (multiLineStartLine st)
    end.

(** [for (let i = 0; i < lines.length; i++)] with [lineNumber = i + 1]. *)
Fixpoint comment_loop (p : comment_patterns) (st : comment_state)
         (lines : list jsstring) (i : nat) : comment_state :=
  match lines with
  | [] => st
  | line :: lines' => comment_loop p (comment_step p st line (i + 1)) lines' (i + 1)
  end.

Definition extractComments (content language : jsstring) : list ExtractedElement :=
  match commentPatterns language with
  | None => []
  | Some p =>
      comments (comment_loop p (CommentState [] false [] 0) (split_lines content) 0)
  end.

(** [for (const pattern of patterns) { const match = line.match(pattern);
    if (match) { ...; break; } }]: the match of the first pattern that
    matches [line], if any. *)
Fixpoint first_match (patterns : list regex) (line : jsstring) : option match_result :=
  match patterns with
  | [] => None
  | pattern :: patterns' =>
      match exec pattern line with
      | Some mt => Some mt
      | None => first_match patterns' line
      end
  end.

(** The line loop shared by the five stateless extractors: [per_line]
    gives the elements pushed while visiting one line. *)
Fixpoint line_loop (per_line : jsstring -> nat -> list ExtractedElement)
         (lines : list jsstring) (i : nat) : list ExtractedElement :=
  match lines with
  | [] => []
  | line :: lines' => per_line line (i + 1) ++ line_loop per_line lines' (i + 1)
  end.

(** [if (name) { out.push({ type, name, line, content: line.trim() }) }] *)
Definition push_if_named (t : ElementType) (nm : option jsstring)
           (line : jsstring) (lineNumber : nat) : list ExtractedElement :=
  match nm with
  | Some (c :: nm') => [Element.Build t (c :: nm') lineNumber (trim line)]
  | _ => []
  end.

Definition is_js_or_ts (language : jsstring) : bool :=
  streq language "javascript" || streq language "typescript".

(** The name selection of [extractFunctions]. *)
Definition functionName (language : jsstring) (mt : match_result) : option jsstring :=
  if is_js_or_ts language then
    if truthy (group mt 1) &&
       negb (match group mt 1 with Some g => streq g "function" | None => false end)
    then group mt 1
    else if truthy (group mt 2) then group mt 2
    else if truthy (group mt 3) then group mt 3
    else Some []
  else if streq language "python" || streq language "go" then group mt 1
  else if streq language "java" then group mt 3
  else Some [].

Definition function_line (language : jsstring) (patterns : list regex)
           (line : jsstring) (lineNumber : nat) : list ExtractedElement :=
  match first_match patterns line with
  | Some mt => push_if_named FunctionElement (functionName language mt) line lineNumber
  | None => []
  end.

Definition extractFunctions (content language : jsstring) : list ExtractedElement :=
  match functionPatterns language with
  | None => []
  | Some patterns => line_loop (function_line language patterns) (split_lines content) 0
  end.

(** The name selection of [extractClasses]. *)
Definition className (language : jsstring) (mt : match_result) : option jsstring :=
  if is_js_or_ts language || streq language "python" || streq language "java"
  then or_else (group mt 1) (group mt 2)
  else if streq language "go" then group mt 1
  else Some [].

Definition class_line (language : jsstring) (patterns : list regex)
           (line : jsstring) (lineNumber : nat) : list ExtractedElement :=
  match first_match patterns line with
  | Some mt => push_if_named ClassElement (className language mt) line lineNumber
  | None => []
  end.

Definition extractClasses (content language : jsstring) : list ExtractedElement :=
  match classPatterns language with
  | None => []
  | Some patterns => line_loop (class_line language patterns) (split_lines content) 0
  end.

(** The name selection of [extractImports], with its fall-back to the
    whole trimmed line. *)
Definition importName (mt : match_result) (line : jsstring) : jsstring :=
  let importName :=
    if truthy (group mt 1) then group_text mt 1
    else if truthy (group mt 3) then group_text mt 3
    else [] in
  match importName with
  | [] => trim line
  | _ => importName
  end.

Definition import_line (patterns : list regex)
           (line : jsstring) (lineNumber : nat) : list ExtractedElement :=
  match first_match patterns line with
  | Some mt => [Element.Build ImportElement (importName mt line) lineNumber (trim line)]
  | None => []
  end.

Definition extractImports (content language : jsstring) : list ExtractedElement :=
  match importPatterns language with
  | None => []
  | Some patterns => line_loop (import_line patterns) (split_lines content) 0
  end.

(** The name selection of [extractVariables]. *)
Definition variableName (language : jsstring) (mt : match_result) : option jsstring :=
  if is_js_or_ts language then group mt 2
  else if streq language "python" || streq language "go"
  then or_else (group mt 2) (group mt 1)
  else if streq language "java" then group mt 3
  else Some [].

(** The lines that [extractVariables] skips before testing any pattern. *)
Definition skipped_by_variables (line : jsstring) : bool :=
  startsWith (trim line) "import" ||
  startsWith (trim line) "function" ||
  startsWith (trim line) "class" ||
  startsWith (trim line) "export".

Definition variable_line (language : jsstring) (patterns : list regex)
           (line : jsstring) (lineNumber : nat) : list ExtractedElement :=
  if skipped_by_variables line then []
  else
    match first_match patterns line with
    | Some mt => push_if_named VariableElement (variableName language mt) line lineNumber
    | None => []
    end.

Definition extractVariables (content language : jsstring) : list ExtractedElement :=
  match variablePatterns language with
  | None => []
  | Some patterns => line_loop (variable_line language patterns) (split_lines content) 0
  end.

(** The name selection of [extractTypes], with its fall-back to the whole
    trimmed line. *)
Definition typeName (mt : match_result) (line : jsstring) : jsstring :=
  if truthy (group mt 1) then group_text mt 1 else trim line.

Definition type_line (patterns : list regex)
           (line : jsstring) (lineNumber : nat) : list ExtractedElement :=
  match first_match patterns line with
  | Some mt => push_if_named TypeElement (Some (typeName mt line)) line lineNumber
  | None => []
  end.

Definition extractTypes (content language : jsstring) : list ExtractedElement :=
  match typePatterns language with
  | None => []
  | Some patterns => line_loop (type_line patterns) (split_lines content) 0
  end.

(* ================================================================= *)
(** ** Tool parameters, results and collaborators *)

Module Params.
(** [ExtractToolParams]; an absent optional property is [None]. *)
Record t : Type := Build {
  type : jsstring;
  file : option jsstring;
  files : option (list jsstring);
  format : option jsstring;
  language : option jsstring;
  includeDocstrings : option bool;
  includeSignatures : option bool
}.
End Params.
Definition ExtractToolParams : Type := Params.t.

(** The members of [ToolErrorType] (tool-error.ts) that this file names;
    [OtherError] stands for the remaining members, which only reach this
    file through the file reader. *)
Inductive ToolErrorType : Type :=
| INVALID_TOOL_PARAMS
| PATH_NOT_IN_WORKSPACE
| UNKNOWN
| OtherError (tag : jsstring).

(** [PartListUnion]: a string, or a part list that is not a string. *)
Inductive PartListUnion : Type :=
| TextPart (s : jsstring)
| OtherPart.

Record ToolError : Type := MkToolError {
  message : jsstring;
  error_type : option ToolErrorType
}.

Record ToolResult : Type := MkToolResult {
  llmContent : PartListUnion;
  returnDisplay : jsstring;
  error : option ToolError
}.

(** The result of [processSingleFileContent] (fileUtils.ts). *)
Record ProcessedFileReadResult : Type := MkRead {
  read_llmContent : PartListUnion;
  read_returnDisplay : option jsstring;
  read_error : option jsstring;
  read_errorType : option ToolErrorType
}.

(** Outcome of awaiting the reader's promise: resolved with a result, or
    rejected with an error whose message text is given. *)
Inductive read_outcome : Type :=
| Resolved (r : ProcessedFileReadResult)
| Rejected (errorMessage : jsstring).

(** Functions of other modules and of the platform that the tool calls. *)
Record Config : Type := MkConfig {
  getTargetDir : jsstring;
  isPathWithinWorkspace : jsstring -> bool;   (* getWorkspaceContext().isPathWithinWorkspace *)
  path_resolve : jsstring -> jsstring -> jsstring;      (* path.resolve *)
  path_extname : jsstring -> jsstring;                  (* path.extname *)
  makeRelative : jsstring -> jsstring -> jsstring       (* utils/paths.ts *)
}.

(** Computations that may await [processSingleFileContent(filePath,
    targetDir, fs)]: the only effect of [execute]. *)
Inductive io (A : Type) : Type :=
| Ret (a : A)
| ReadFile (filePath targetDir : jsstring) (k : read_outcome -> io A).
Arguments Ret {A} a.
Arguments ReadFile {A} filePath targetDir k.

Fixpoint bind {A B : Type} (c : io A) (f : A -> io B) : io B :=
  match c with
  | Ret a => f a
  | ReadFile p d k => ReadFile p d (fun o => bind (k o) f)
  end.

(** Run a computation against a file system given as a function from
    (absolute path, target directory) to the outcome of the read; returns
    the value and the paths read, in order. *)
Fixpoint run {A : Type} (fs : jsstring -> jsstring -> read_outcome) (c : io A)
  : A * list jsstring :=
  match c with
  | Ret a => (a, [])
  | ReadFile p d k => let (a, log) := run fs (k (fs p d)) in (a, p :: log)
  end.

Record FileResult : Type := MkFileResult {
  filePath : jsstring;
  elements : list ExtractedElement
}.

(* ================================================================= *)
(** ** Output formats *)

Definition nl : jsstring := ["010"%char].

Section Formatting.

Variable config : Config.

Definition relativePath (result : FileResult) : jsstring :=
  makeRelative config (filePath result) (getTargetDir config).

Definition formatAsList (results : list FileResult) : jsstring :=
  trim
    (fold_left
       (fun output result =>
          let output := output ++ js "--- " ++ relativePath result ++ js " ---" ++ nl in
          let output :=
            if length (elements result) =? 0 then output ++ js "No elements found" ++ nl
            else
              fold_left
                (fun output element =>
                   let output :=
                     output ++ type_name (Element.type element) ++ js ": " ++
                     Element.name element ++ js " (line " ++
                     number_to_string (Element.line element) ++ js ")" ++ nl in
                   match Element.content element with
                   | [] => output
                   | _ => output ++ js "  " ++ Element.content element ++ nl
                   end)
                (elements result) output in
          output ++ nl)
       results []).

Definition ElementType_eqb (a b : ElementType) : bool :=
  match a, b with
  | SingleLineComment, SingleLineComment
  | MultiLineComment, MultiLineComment
  | FunctionElement, FunctionElement
  | ClassElement, ClassElement
  | ImportElement, ImportElement
  | VariableElement, VariableElement
  | TypeElement, TypeElement => true
  | _, _ => false
  end.

(** [elementsByType[element.type].push(element)], creating the entry at
    the end of the object's keys when the type is seen for the first
    time. *)
Fixpoint push_by_type (elementsByType : list (ElementType * list ExtractedElement))
         (element : ExtractedElement) : list (ElementType * list ExtractedElement) :=
  match elementsByType with
  | [] => [(Element.type element, [element])]
  | (t, es) :: rest =>
      if ElementType_eqb t (Element.type element)
      then (t, es ++ [element]) :: rest
      else (t, es) :: push_by_type rest element
  end.

Definition formatAsTree (results : list FileResult) : jsstring :=
  trim
    (fold_left
       (fun output result =>
          let output := output ++ relativePath result ++ nl in
          let output :=
            if length (elements result) =? 0 then output ++ js "  (No elements found)" ++ nl
            else
              let elementsByType := fold_left push_by_type (elements result) [] in
              fold_left
                (fun output entry =>
                   let output :=
                     output ++ js "  " ++ type_name (fst entry) ++ js " (" ++
                     number_to_string (length (snd entry)) ++ js ")" ++ nl in
                   fold_left
                     (fun output element =>
                        output ++ js "    " ++ Element.name element ++ js " (line " ++
                        number_to_string (Element.line element) ++ js ")" ++ nl)
                     (snd entry) output)
                elementsByType output in
          output ++ nl)
       results []).

(** The loop of [formatAsSummary]: the pair of [totalElements] and
    [output]. *)
Definition summary_loop (results : list FileResult) : nat * jsstring :=
  fold_left
    (fun (acc : nat * jsstring) result =>
       let (totalElements, output) := acc in
       (totalElements + length (elements result),
        output ++ relativePath result ++ js ": " ++
        number_to_string (length (elements result)) ++ js " elements" ++ nl))
    results (0, []).

Definition formatAsSummary (results : list FileResult) : jsstring :=
  let (totalElements, output) := summary_loop results in
  let output :=
    js "Total elements extracted: " ++ number_to_string totalElements ++ nl ++ nl ++ output in
  trim output.

End Formatting.

(** *** [JSON.stringify(results, null, 2)] *)

Definition hex_digit (n : nat) : ascii :=
  if n <? 10 then ascii_of_nat (48 + n) else ascii_of_nat (87 + n).

(** QuoteJSONString on one code unit. *)
Definition json_escape (c : ascii) : jsstring :=
  let n := code c in
  if n =? 8 then js "\b"
  else if n =? 9 then js "\t"
  else if n =? 10 then js "\n"
  else if n =? 12 then js "\f"
  else if n =? 13 then js "\r"
  else if n =? 34 then ["\"%char; dquote]
  else if n =? 92 then js "\\"
  else if n <? 32 then js "\u00" ++ [hex_digit (n / 16); hex_digit (n mod 16)]
  else [c].

Definition json_string (s : jsstring) : jsstring :=
  dquote :: flat_map json_escape s ++ [dquote].

(** Items of an array or object, one per line at the given indentation. *)
Fixpoint json_items (indent : jsstring) (items : list jsstring) : jsstring :=
  match items with
  | [] => []
  | [i] => indent ++ i
  | i :: rest => indent ++ i ++ js "," ++ nl ++ json_items indent rest
  end.

Definition json_block (opening closing : jsstring) (outer : jsstring)
           (items : list jsstring) : jsstring :=
  match items with
  | [] => opening ++ closing
  | _ => opening ++ nl ++ json_items (outer ++ js "  ") items ++ nl ++ outer ++ closing
  end.

Definition json_property (key : jsstring) (value : jsstring) : jsstring :=
  json_string key ++ js ": " ++ value.

Definition json_element (outer : jsstring) (e : ExtractedElement) : jsstring :=
  json_block "{" "}" outer
    [json_property "type" (json_string (type_name (Element.type e)));
     json_property "name" (json_string (Element.name e));
     json_property "line" (number_to_string (Element.line e));
     json_property "content" (json_string (Element.content e))].

Definition json_file_result (outer : jsstring) (r : FileResult) : jsstring :=
  json_block "{" "}" outer
    [json_property "filePath" (json_string (filePath r));
     json_property "elements"
       (json_block "[" "]" (outer ++ js "  ")
          (map (json_element (outer ++ js "    ")) (elements r)))].

Definition json_stringify (results : list FileResult) : jsstring :=
  json_block "[" "]" [] (map (json_file_result (js "  ")) results).

(* ================================================================= *)
(** ** The orchestrator *)

Section Orchestrator.

Variable config : Config.

(** [this.params.files || (this.params.file ? [this.params.file] : [])]:
    an array, even an empty one, is truthy. *)
Definition requested_files (params : ExtractToolParams) : list jsstring :=
  match Params.files params with
  | Some fs => fs
  | None =>
      match Params.file params with
      | Some (c :: f) => [c :: f]
      | _ => []
      end
  end.

Definition no_files_result : ToolResult :=
  MkToolResult (TextPart "No files specified for extraction")
               "No files specified"
               (Some (MkToolError "No files specified for extraction"
                                  (Some INVALID_TOOL_PARAMS))).

Definition not_in_workspace_message (file : jsstring) : jsstring :=
  js "File path " ++ [dquote] ++ file ++ [dquote] ++ js " is not within workspace".

(** The loop that validates and resolves the file paths: the error result
    of the first path outside the workspace, or [resolvedFiles]. *)
Fixpoint resolve_files (files : list jsstring) (resolvedFiles : list jsstring)
  : ToolResult + list jsstring :=
  match files with
  | [] => inr resolvedFiles
  | file :: files' =>
      let absolutePath := path_resolve config (getTargetDir config) file in
      if negb (isPathWithinWorkspace config absolutePath) then
        inl (MkToolResult (TextPart (not_in_workspace_message file))
                          "File not in workspace"
                          (Some (MkToolError (not_in_workspace_message file)
                                             (Some PATH_NOT_IN_WORKSPACE))))
      else resolve_files files' (resolvedFiles ++ [absolutePath])
  end.

(** [this.params.language || detectLanguage(filePath) || 'javascript'] *)
Definition language_for (params : ExtractToolParams) (filePath : jsstring) : jsstring :=
  match or_else (or_else (Params.language params)
                         (detectLanguage (path_extname config) filePath))
                (Some (js "javascript")) with
  | Some l => l
  | None => []
  end.

(** [switch (this.params.type)] *)
Definition extract_by_type (type content language : jsstring) : list ExtractedElement :=
  if streq type "comments" then extractComments content language
  else if streq type "functions" then extractFunctions content language
  else if streq type "classes" then extractClasses content language
  else if streq type "imports" then extractImports content language
  else if streq type "variables" then extractVariables content language
  else if streq type "types" then extractTypes content language
  else [].

(** The result returned from the [catch] clause. *)
Definition caught (errorMessage : jsstring) : ToolResult :=
  let rawError := js "Error during extraction: " ++ errorMessage in
  MkToolResult (TextPart rawError) "Error during extraction"
               (Some (MkToolError rawError (Some UNKNOWN))).

(** The loop that reads each resolved file and extracts from it: an early
    [return] of an error result, or [results]. *)
Fixpoint process_files (params : ExtractToolParams) (resolvedFiles : list jsstring)
         (results : list FileResult) : io (ToolResult + list FileResult) :=
  match resolvedFiles with
  | [] => Ret (inr results)
  | filePath :: resolvedFiles' =>
      ReadFile filePath (getTargetDir config)
        (fun outcome =>
           match outcome with
           | Rejected errorMessage => Ret (inl (caught errorMessage))
           | Resolved result =>
               if truthy (read_error result) then
                 Ret (inl (MkToolResult
                             (read_llmContent result)
                             (match or_else (read_returnDisplay result)
                                            (Some (js "Error reading file")) with
                              | Some d => d
                              | None => []
                              end)
                             (Some (MkToolError
                                      (match read_error result with Some e => e | None => [] end)
                                      (read_errorType result)))))
               else
                 let content :=
                   match read_llmContent result with
                   | TextPart s => s
                   | OtherPart => []
                   end in
                 let language := language_for params filePath in
                 let elements := extract_by_type (Params.type params) content language in
                 process_files params resolvedFiles' (results ++ [MkFileResult filePath elements])
           end)
  end.

(** [this.params.format || 'list'] and the [switch (format)]. *)
Definition format_output (params : ExtractToolParams) (results : list FileResult) : jsstring :=
  let format :=
    match or_else (Params.format params) (Some (js "list")) with
    | Some f => f
    | None => []
    end in
  if streq format "json" then json_stringify results
  else if streq format "tree" then formatAsTree config results
  else if streq format "summary" then formatAsSummary config results
  else formatAsList config results.

(** [ExtractToolInvocation.execute] *)
Definition execute (params : ExtractToolParams) : io ToolResult :=
  let files := requested_files params in
  if length files =? 0 then Ret no_files_result
  else
    match resolve_files files [] with
    | inl errorResult => Ret errorResult
    | inr resolvedFiles =>
        bind (process_files params resolvedFiles [])
             (fun r =>
                match r with
                | inl errorResult => Ret errorResult
                | inr results =>
                    Ret (MkToolResult
                           (TextPart (format_output params results))
                           (js "Extracted " ++ Params.type params ++ js " from " ++
                            number_to_string (length resolvedFiles) ++ js " file(s)")
                           None)
                end)
    end.

(** [ExtractTool.validateToolParamValues]: the error text, or [None] for
    [null]. *)
Definition validateToolParamValues (params : ExtractToolParams) : option jsstring :=
  if negb (truthy (Params.file params)) &&
     match Params.files params with
     | None => true
     | Some fs => length fs =? 0
     end
  then Some (js "Either 'file' or 'files' parameter must be specified")
  else None.

End Orchestrator.

(** [path.extname] of the POSIX flavour of the platform: the text from the
    last dot of the last path segment, or nothing when that segment has no
    dot, starts with its only dot, or is the segment [..]. *)
Module Posix.

Record scan : Type := Scan {
  startDot : option nat;
  startPart : nat;
  end_ : option nat;
  matchedSlash : bool;
  preDotState : nat;      (* 0: initial, 1: dots only, 2: the source's -1 *)
  stopped : bool
}.

(** One step of the backward loop, at index [i] holding [c]. *)
Definition step (s : scan) (i : nat) (c : ascii) : scan :=
  if stopped s then s
  else if Ascii.eqb c "/"
  then (if negb (matchedSlash s)
        then Scan (startDot s) (i + 1) (end_ s) (matchedSlash s) (preDotState s) true
        else s)
  else
    let s1 := match end_ s with
              | None => Scan (startDot s) (startPart s) (Some (i + 1)) false (preDotState s) false
              | Some _ => s
              end in
    if Ascii.eqb c "."
    then match startDot s1 with
         | None => Scan (Some i) (startPart s1) (end_ s1) (matchedSlash s1) (preDotState s1) false
         | Some _ =>
             if negb (preDotState s1 =? 1)
             then Scan (startDot s1) (startPart s1) (end_ s1) (matchedSlash s1) 1 false
             else s1
         end
    else match startDot s1 with
         | Some _ => Scan (startDot s1) (startPart s1) (end_ s1) (matchedSlash s1) 2 false
         | None => s1
         end.

(** [for (let i = path.length - 1; i >= 0; --i)], over the reversed path. *)
Fixpoint loop (s : scan) (rev_path : list ascii) (n : nat) : scan :=
  match rev_path, n with
  | c :: r, S i => loop (step s i c) r i
  | _, _ => s
  end.

Definition extname (path : jsstring) : jsstring :=
  let s := loop (Scan None 0 None true 0 false) (rev path) (length path) in
  match startDot s, end_ s with
  | Some sd, Some e =>
      if (preDotState s =? 0) ||
         ((preDotState s =? 1) && (sd =? e - 1) && (sd =? startPart s + 1))
      then []
      else firstn (e - sd) (skipn sd path)
  | _, _ => []
  end.

End Posix.

(* ================================================================= *)
(** ** Vocabulary of the statements *)

(** The elements of [es] whose [line] field is [n]. *)
Definition at_line (n : nat) (es : list ExtractedElement) : list ExtractedElement :=
  filter (fun e => Element.line e =? n) es.

(** The line numbers of a result are in ascending (non-decreasing) order. *)
Definition ascending (es : list ExtractedElement) : Prop :=
  StronglySorted le (map Element.line es).

(** [p] is the first pattern of the table [patterns], in declared order,
    that matches [line], and [mt] is its match. *)
Definition first_matching (patterns : list regex) (line : jsstring)
           (p : regex) (mt : match_result) : Prop :=
  exists before_p after_p,
    patterns = before_p ++ p :: after_p /\
    Forall (fun q => exec q line = None) before_p /\
    exec p line = Some mt.

(** The text after the first occurrence of [s] in [l]. *)
Fixpoint after_first (s l : jsstring) : jsstring :=
  if startsWith l s then skipn (length s) l
  else match l with
       | [] => []
       | _ :: l' => after_first s l'
       end.

(** The longest prefix of [l] made of code units satisfying [p]. *)
Fixpoint take_while (p : ascii -> bool) (l : jsstring) : jsstring :=
  match l with
  | c :: l' => if p c then c :: take_while p l' else []
  | [] => []
  end.

(** What a greedy run of [.] captures at the start of [l]: the text up to
    the first line terminator. *)
Definition to_line_terminator (l : jsstring) : jsstring :=
  take_while (fun c => negb (is_line_terminator c)) l.

(** The extensions that [detectLanguage] knows. *)
Definition known_extensions : list jsstring :=
  [js ".js"; js ".jsx"; js ".ts"; js ".tsx"; js ".py"; js ".java"; js ".go"].

(** A decimal digit. *)
Definition is_digit (c : ascii) : bool := (48 <=? code c) && (code c <=? 57).

(** Two parameter records that differ at most in [includeDocstrings] and
    [includeSignatures]. *)
Definition same_request (p q : ExtractToolParams) : Prop :=
  Params.type p = Params.type q /\
  Params.file p = Params.file q /\
  Params.files p = Params.files q /\
  Params.format p = Params.format q /\
  Params.language p = Params.language q.

(** A request that names no file: [files] is an empty list, or [files] is
    absent and so is [file] (or it is the empty string). *)
Definition no_file_requested (p : ExtractToolParams) : Prop :=
  Params.files p = Some [] \/
  (Params.files p = None /\ truthy (Params.file p) = false).

(** The per-file line of the summary format. *)
Definition summary_line (config : Config) (r : FileResult) : jsstring :=
  relativePath config r ++ js ": " ++ number_to_string (length (elements r)) ++
  js " elements" ++ nl.

(** The sum of the per-file element counts. *)
Definition total_count (results : list FileResult) : nat :=
  list_sum (map (fun r => length (elements r)) results).

(** The first line of a text. *)
Definition first_line (s : jsstring) : jsstring := hd [] (split_lines s).

(** *** Comment layouts

    A text seen as a sequence of items, each holding whole lines, for
    the languages whose comments are written with [//] and [/* */]. *)
Inductive item : Type :=
| Code (l : jsstring)                      (* a line without comment *)
| Single (l : jsstring)                    (* a line with a single-line comment *)
| Block1 (l : jsstring)                    (* a block opened and closed on one line *)
| BlockN (first : jsstring) (middle : list jsstring) (last : jsstring).
                                           (* a block over several lines *)

Definition item_lines (it : item) : list jsstring :=
  match it with
  | Code l | Single l | Block1 l => [l]
  | BlockN first middle last => first :: middle ++ [last]
  end.

Definition layout_lines (layout : list item) : list jsstring :=
  flat_map item_lines layout.

Definition well_formed_item (it : item) : Prop :=
  match it with
  | Code l => includes l "//" = false /\ includes l "/*" = false
  | Single l => includes l "//" = true /\ includes l "/*" = false
  | Block1 l => includes l "/*" = true /\ includes l "*/" = true /\ includes l "//" = false
  | BlockN first middle last =>
      includes first "/*" = true /\ includes first "*/" = false /\
      includes first "//" = false /\
      Forall (fun l => includes l "*/" = false) middle /\
      includes last "*/" = true
  end.

Definition singles (layout : list item) : nat :=
  length (filter (fun it => match it with Single _ => true | _ => false end) layout).

Definition blocks (layout : list item) : nat :=
  length (filter (fun it => match it with Block1 _ | BlockN _ _ _ => true | _ => false end)
                 layout).

(** The element expected from an item whose first line has number [n]. *)
Definition expected_of_item (it : item) (n : nat) : list ExtractedElement :=
  match it with
  | Code _ => []
  | Single l =>
      [Element.Build SingleLineComment (comment_name n) n
                     (trim (to_line_terminator (after_first "//" l)))]
  | Block1 l =>
      [Element.Build MultiLineComment (comment_name n) n
                     (to_line_terminator (after_first "/*" l))]
  | BlockN first middle last =>
      [Element.Build MultiLineComment (comment_name n) n
         (fold_left (fun acc l => acc ++ "010"%char :: l) (middle ++ [last])
                    (to_line_terminator (after_first "/*" first)))]
  end.

(** The elements expected from a layout whose first line has number
    [n]. *)
Fixpoint expected (layout : list item) (n : nat) : list ExtractedElement :=
  match layout with
  | [] => []
  | it :: layout' =>
      expected_of_item it n ++ expected layout' (n + length (item_lines it))
  end.

(** *** What a pattern can match

    [matches r bef w aft]: the pattern [r] can match the text [w] when [w]
    is preceded by [bef] (most recent code unit first) and followed by
    [aft]. *)
Inductive matches : regex -> list ascii -> list ascii -> list ascii -> Prop :=
| M_Empty bef aft : matches Empty bef [] aft
| M_Lit c bef aft : matches (Lit c) bef [c] aft
| M_Dot c bef aft : is_line_terminator c = false -> matches Dot bef [c] aft
| M_Set items c bef aft : class_mem items c = true -> matches (Set_ items) bef [c] aft
| M_NotSet items c bef aft : class_mem items c = false -> matches (NotSet items) bef [c] aft
| M_Seq r1 r2 bef w1 w2 aft :
    matches r1 bef w1 (w2 ++ aft) -> matches r2 (rev w1 ++ bef) w2 aft ->
    matches (Seq r1 r2) bef (w1 ++ w2) aft
| M_AltL r1 r2 bef w aft : matches r1 bef w aft -> matches (Alt r1 r2) bef w aft
| M_AltR r1 r2 bef w aft : matches r2 bef w aft -> matches (Alt r1 r2) bef w aft
| M_Star0 r bef aft : matches (Star r) bef [] aft
| M_StarS r bef w1 w2 aft :
    matches r bef w1 (w2 ++ aft) -> matches (Star r) (rev w1 ++ bef) w2 aft ->
    matches (Star r) bef (w1 ++ w2) aft
| M_StarLazy0 r bef aft : matches (StarLazy r) bef [] aft
| M_StarLazyS r bef w1 w2 aft :
    matches r bef w1 (w2 ++ aft) -> matches (StarLazy r) (rev w1 ++ bef) w2 aft ->
    matches (StarLazy r) bef (w1 ++ w2) aft
| M_Opt0 r bef aft : matches (Opt r) bef [] aft
| M_Opt1 r bef w aft : matches r bef w aft -> matches (Opt r) bef w aft
| M_Group n r bef w aft : matches r bef w aft -> matches (Group n r) bef w aft
| M_Bol aft : matches Bol [] [] aft
| M_WordB bef aft : xorb (word_at bef) (word_at aft) = true -> matches WordB bef [] aft.

(** The literal code unit with which every match of a pattern starts, when
    the pattern starts with a literal. *)
Fixpoint first_literal (r : regex) : option ascii :=
  match r with
  | Lit c => Some c
  | Seq r1 _ => first_literal r1
  | Group _ r1 => first_literal r1
  | _ => None
  end.

(** A line of a Go import block that the import patterns cannot match: it
    holds no [import] followed by white space. *)
Definition no_import_keyword (l : jsstring) : Prop :=
  forall c, is_ws c = true -> includes l (js "import" ++ [c]) = false.

(** Invariant of the loop of [extractComments] after the line numbered
    [i]: the elements pushed so far are in ascending order and none lies
    after line [i]; while a block is open, none lies after the line where
    the block started. *)
Definition comment_inv (st : comment_state) (i : nat) : Prop :=
  ascending (comments st) /\
  if inMultiLineComment st
  then Forall (fun e => Element.line e <= multiLineStartLine st) (comments st) /\
       multiLineStartLine st <= i
  else Forall (fun e => Element.line e <= i) (comments st).

(** The result [es] of a pattern-table extractor on [content]: no two
    elements come from the same line, and each element is what [emit]
    makes of the match of the first pattern of [patterns] that matches its
    line. *)
Definition from_first_match (patterns : list regex)
           (emit : match_result -> jsstring -> nat -> list ExtractedElement)
           (content : jsstring) (es : list ExtractedElement) : Prop :=
  (forall n, length (at_line n es) <= 1) /\
  forall e, In e es ->
    exists l p mt,
      nth_error (split_lines content) (Element.line e - 1) = Some l /\
      first_matching patterns l p mt /\
      emit mt l (Element.line e) = [e].

(** [y] is reached from [x] by consuming [w]. *)
Definition advances (x : mstate) (w : list ascii) (y : mstate) : Prop :=
  rest x = w ++ rest y /\ before y = rev w ++ before x.

(** Soundness of a matcher [body] for the pattern [r]: whatever it accepts
    is a match of [r]. *)
Definition sound_for (r : regex) (body : matcher) : Prop :=
  forall k x z, body k x = Some z ->
    exists w y, advances x w y /\ matches r (before x) w (rest y) /\ k y = Some z.

(** Tests that some code unit of every match of a pattern must pass (one
    test per mandatory one-character piece of the pattern). *)
Fixpoint required (r : regex) : list (ascii -> bool) :=
  match r with
  | Lit c => [Ascii.eqb c]
  | Dot => [fun c => negb (is_line_terminator c)]
  | Set_ items => [class_mem items]
  | NotSet items => [fun c => negb (class_mem items c)]
  | Seq r1 r2 => required r1 ++ required r2
  | Group _ r1 => required r1
  | _ => []
  end.

(** The single-line comment that a line holding [marker] contributes when
    its number is [n]. *)
Definition single_of (marker l : jsstring) (n : nat) : list ExtractedElement :=
  if includes l marker
  then [Element.Build SingleLineComment (comment_name n) n
                      (trim (to_line_terminator (after_first marker l)))]
  else [].

(** The single-line comments of consecutive lines, the first of which has
    number [n]. *)
Fixpoint expected_singles (marker : jsstring) (lines : list jsstring) (n : nat)
  : list ExtractedElement :=
  match lines with
  | [] => []
  | l :: lines' => single_of marker l n ++ expected_singles marker lines' (n + 1)
  end.

(** A line of python that holds no triple quote. *)
Definition no_triple_quote (l : jsstring) : Prop :=
  includes l [squote; squote; squote] = false /\
  includes l [dquote; dquote; dquote] = false.

(** *** Sample inputs

    The texts of the unit tests of the extractor (extract.test.ts), and
    the collaborators used to run [execute] on examples.  [quoted s] is
    [s] between double quotes. *)
Definition quoted (s : jsstring) : jsstring := dquote :: s ++ [dquote].

Definition test_comments : jsstring :=
  join_lines
    [js "// This is a single line comment";
     js "function helloWorld() {";
     js "  /*";
     js "   * This is a multi-line comment";
     js "   * It spans multiple lines";
     js "   */";
     js "  console.log(" ++ quoted "Hello, World!" ++ js ");";
     js "  ";
     js "  // Another single line comment";
     js "  return true;";
     js "}";
     js "";
     js "/*";
     js " * This is another multi-line comment";
     js " * At the end of the file";
     js " */"].

Definition test_functions : jsstring :=
  join_lines
    [js "function helloWorld() {";
     js "  console.log(" ++ quoted "Hello, World!" ++ js ");";
     js "}";
     js "";
     js "const add = function(a, b) {";
     js "  return a + b;";
     js "};";
     js "";
     js "const multiply = (a, b) => {";
     js "  return a * b;";
     js "};";
     js "";
     js "class Calculator {";
     js "  subtract(a, b) {";
     js "    return a - b;";
     js "  }";
     js "}"].

Definition test_classes : jsstring :=
  join_lines
    [js "class Animal {";
     js "  constructor(name) {";
     js "    this.name = name;";
     js "  }";
     js "}";
     js "";
     js "class Dog extends Animal {";
     js "  bark() {";
     js "    return " ++ quoted "Woof!" ++ js ";";
     js "  }";
     js "}";
     js "";
     js "const Cat = class {";
     js "  meow() {";
     js "    return " ++ quoted "Meow!" ++ js ";";
     js "  }";
     js "}"].

Definition test_imports : jsstring :=
  join_lines
    [js "import React from 'react';";
     js "import { useState, useEffect } from 'react';";
     js "import './App.css';";
     js "const fs = require('fs');";
     js "export default function App() {";
     js "  return <div>Hello</div>;";
     js "}";
     js "export { Component };"].

Definition test_variables : jsstring :=
  join_lines
    [js "const name = " ++ quoted "John" ++ js ";";
     js "let age = 30;";
     js "var isStudent = true;";
     js "const numbers = [1, 2, 3];";
     js "let person = {";
     js "  name: " ++ quoted "Jane" ++ js ",";
     js "  age: 25";
     js "};"].

Definition test_types : jsstring :=
  join_lines
    [js "interface User {";
     js "  name: string;";
     js "  age: number;";
     js "}";
     js "";
     js "type ID = string | number;";
     js "";
     js "enum Status {";
     js "  Active,";
     js "  Inactive";
     js "}"].

(** A Go file with an import block over several lines. *)
Definition go_before : list jsstring := [js "package main"; js ""].
Definition go_opening : jsstring := js "import (".
Definition go_interior : list jsstring :=
  ["009"%char :: quoted "fmt"; "009"%char :: quoted "os"].
Definition go_closing : jsstring := js ")".
Definition go_after : list jsstring := [js ""; js "func main() {}"].
Definition go_file : jsstring :=
  join_lines (go_before ++ go_opening :: go_interior ++ go_closing :: go_after).

(** A text in four items: a single-line comment, a line of code, a
    one-line block and a three-line block. *)
Definition sample_layout : list item :=
  [Single "let x = 1; // one"; Code "x += 1;"; Block1 "/* two */ x += 2;";
   BlockN "/* three" [js " * more"] " */"].
Definition sample_text : jsstring := join_lines (layout_lines sample_layout).

(** A python text without triple quotes. *)
Definition sample_python : jsstring :=
  join_lines [js "# setup"; js "x = 1  # one"; js "print(x)"].

(** The first three capture groups of a match. *)
Definition groups_1_to_3 (o : option match_result) : option (list (option jsstring)) :=
  match o with
  | Some mt => Some [group mt 1; group mt 2; group mt 3]
  | None => None
  end.

(** A workspace rooted at [/ws], with POSIX paths. *)
Definition sample_config : Config :=
  MkConfig "/ws"
           (fun p => startsWith p "/ws/")
           (fun dir file => dir ++ js "/" ++ file)
           Posix.extname
           (fun p dir => skipn (length dir + 1) p).

Definition sample_params (flag : option bool) : ExtractToolParams :=
  Params.Build "comments" (Some (js "a.js")) None (Some (js "summary")) None flag flag.

Definition no_file_params : ExtractToolParams :=
  Params.Build "comments" None None None None None None.

(** *** Vocabulary of the further properties *)

(** The languages that have pattern tables. *)
Definition supported_languages : list jsstring :=
  [js "javascript"; js "typescript"; js "python"; js "java"; js "go"].

(** Every code unit. *)
Definition all_ascii : list ascii := map ascii_of_nat (seq 0 256).

(** The members of a class are all visible (none is white space). *)
Definition visible_class (p : ascii -> bool) : bool :=
  forallb (fun c => implb (p c) (negb (is_ws c))) all_ascii.

(** A sufficient test for: every match of the pattern holds a visible
    code unit. *)
Fixpoint needs_visible (r : regex) : bool :=
  match r with
  | Lit c => negb (is_ws c)
  | Set_ items => visible_class (class_mem items)
  | NotSet items => visible_class (fun c => negb (class_mem items c))
  | Seq r1 r2 => needs_visible r1 || needs_visible r2
  | Alt r1 r2 => needs_visible r1 && needs_visible r2
  | Group _ r1 => needs_visible r1
  | _ => false
  end.

(** A line made of white space only (or empty). *)
Definition blank (l : jsstring) : bool := forallb is_ws l.

(** A text that neither starts nor ends with white space. *)
Definition no_outer_ws (s : jsstring) : Prop :=
  (forall c t, s = c :: t -> is_ws c = false) /\
  (forall c t, s = t ++ [c] -> is_ws c = false).

(** The element [e] moved [k] lines down. *)
Definition shift (k : nat) (e : ExtractedElement) : ExtractedElement :=
  Element.Build (Element.type e) (Element.name e) (Element.line e + k) (Element.content e).

(** The element [e] has the type [t]. *)
Definition type_is (t : ElementType) (e : ExtractedElement) : bool :=
  ElementType_eqb t (Element.type e).

(** The distinct types of a list, in the order of their first
    occurrence. *)
Fixpoint first_seen (ts : list ElementType) : list ElementType :=
  match ts with
  | [] => []
  | t :: ts' => t :: filter (fun u => negb (ElementType_eqb t u)) (first_seen ts')
  end.

(** The elements partitioned by type: one entry per type, in the order in
    which the types are first seen, each holding the elements of that type
    in their original order. *)
Definition grouped (es : list ExtractedElement) : list (ElementType * list ExtractedElement) :=
  map (fun t => (t, filter (type_is t) es)) (first_seen (map Element.type es)).

(** The absolute paths of the requested files, in order. *)
Definition resolved_paths (config : Config) (files : list jsstring) : list jsstring :=
  map (path_resolve config (getTargetDir config)) files.

(** Every requested file lies within the workspace. *)
Definition all_in_workspace (config : Config) (files : list jsstring) : Prop :=
  Forall (fun file => isPathWithinWorkspace config
                        (path_resolve config (getTargetDir config) file) = true) files.

(** The read of [path] resolves to a result without error. *)
Definition read_succeeds (config : Config) (fs : jsstring -> jsstring -> read_outcome)
           (path : jsstring) : Prop :=
  exists r, fs path (getTargetDir config) = Resolved r /\ truthy (read_error r) = false.

(** The text that a successful read hands to the extractor. *)
Definition text_read (config : Config) (fs : jsstring -> jsstring -> read_outcome)
           (path : jsstring) : jsstring :=
  match fs path (getTargetDir config) with
  | Resolved r => match read_llmContent r with TextPart s => s | OtherPart => [] end
  | Rejected _ => []
  end.

(** The per-file result expected for [path]. *)
Definition file_result (config : Config) (params : ExtractToolParams)
           (fs : jsstring -> jsstring -> read_outcome) (path : jsstring) : FileResult :=
  MkFileResult path
    (extract_by_type (Params.type params) (text_read config fs path)
                     (language_for config params path)).

(** The result object of a successful extraction over [paths]. *)
Definition success_result (config : Config) (params : ExtractToolParams)
           (fs : jsstring -> jsstring -> read_outcome) (paths : list jsstring) : ToolResult :=
  MkToolResult
    (TextPart (format_output config params (map (file_result config params fs) paths)))
    (js "Extracted " ++ Params.type params ++ js " from " ++
     number_to_string (length paths) ++ js " file(s)")
    None.

(** The result object for a requested file outside the workspace. *)
Definition outside_result (file : jsstring) : ToolResult :=
  MkToolResult (TextPart (not_in_workspace_message file)) "File not in workspace"
               (Some (MkToolError (not_in_workspace_message file)
                                  (Some PATH_NOT_IN_WORKSPACE))).

(** The result object for a read that reports the error [r]. *)
Definition read_error_result (r : ProcessedFileReadResult) : ToolResult :=
  MkToolResult (read_llmContent r)
               (match read_returnDisplay r with
                | Some (c :: d) => c :: d
                | _ => js "Error reading file"
                end)
               (Some (MkToolError (match read_error r with Some e => e | None => [] end)
                                  (read_errorType r))).

(** A file system for the examples: [/ws/a.js] and [/ws/b.py] exist,
    every other read reports "not found". *)
Definition sample_fs (path targetDir : jsstring) : read_outcome :=
  if streq path "/ws/a.js"
  then Resolved (MkRead (TextPart (join_lines [js "// one"; js "let x = 1; /* two */"]))
                        None None None)
  else if streq path "/ws/b.py"
  then Resolved (MkRead (TextPart (js "# three")) None None None)
  else Resolved (MkRead (TextPart (js "missing")) (Some (js "Not found"))
                        (Some (js "File not found")) (Some (OtherError "FILE_NOT_FOUND"))).

(** A file system whose every read is rejected. *)
Definition broken_fs (path targetDir : jsstring) : read_outcome := Rejected "EIO".

Definition files_params (files : list jsstring) : ExtractToolParams :=
  Params.Build "comments" None (Some files) (Some (js "summary")) None None None.

(** What every element [e] of a pattern-table extractor of type [t] looks
    like, for the text [content]: it has the type of the extractor and a
    non-empty name, its line number is that of a line [l] of the text, and
    its content is [l] trimmed, which is not empty and has no white space
    at either end. *)
Definition table_element (t : ElementType) (content : jsstring) (e : ExtractedElement)
  : Prop :=
  Element.type e = t /\
  Element.name e <> [] /\
  1 <= Element.line e <= length (split_lines content) /\
  exists l, nth_error (split_lines content) (Element.line e - 1) = Some l /\
            Element.content e = trim l /\
            Element.content e <> [] /\
            no_outer_ws (Element.content e).

(** What every element [e] of [extractComments] looks like: its line
    number is that of a line of the text, its name is made from that
    number, and it is either a single-line comment whose content has no
    white space at either end, or a multi-line comment. *)
Definition comment_element (content : jsstring) (e : ExtractedElement) : Prop :=
  1 <= Element.line e <= length (split_lines content) /\
  Element.name e = comment_name (Element.line e) /\
  ((Element.type e = SingleLineComment /\ no_outer_ws (Element.content e)) \/
   Element.type e = MultiLineComment).

(** A workspace rooted at [/ws] that refuses the paths that hold [..]. *)
Definition guarded_config : Config :=
  MkConfig "/ws"
           (fun p => startsWith p "/ws/" && negb (includes p ".."))
           (fun dir file => dir ++ js "/" ++ file)
           Posix.extname
           (fun p dir => skipn (length dir + 1) p).

(** The sample text followed by a block that is opened and never closed. *)
Definition unterminated_text : jsstring :=
  join_lines (layout_lines sample_layout ++ [js "x -= 1; // four /* open"; js "never closed"]).

(** A request that passes validation and names no file. *)
Definition empty_files_params : ExtractToolParams :=
  Params.Build "comments" (Some (js "a.js")) (Some []) None None None None.

Definition odd_params : ExtractToolParams :=
  Params.Build "macros" (Some (js "a.js")) None (Some (js "yaml")) None None None.

(** A text of blank lines, and a text whose second line is a declaration
    that [extractVariables] passes over. *)
Definition blank_text : jsstring := join_lines [js ""; js "   "; ["009"%char]].
Definition exported_text : jsstring :=
  join_lines [js "let a = 1;"; js "  export const b = 2;"].

(** *** What a match captures *)







(* ================================================================= *)
(** ** Basic facts about strings *)

Lemma streq_true_iff (a b : jsstring) : streq a b = true <-> a = b.
Proof.
  revert b; induction a as [|x a IH]; intros [|y b]; simpl; split; intro H;
    try reflexivity; try discriminate.
  - apply andb_true_iff in H as [Hxy Hab].
    apply Ascii.eqb_eq in Hxy. apply IH in Hab. congruence.
  - injection H as -> ->. rewrite Ascii.eqb_refl. simpl. apply IH. reflexivity.
Qed.

Lemma streq_refl (a : jsstring) : streq a a = true.
Proof. apply streq_true_iff. reflexivity. Qed.

Lemma streq_false_iff (a b : jsstring) : streq a b = false <-> a <> b.
Proof.
  split.
  - intros H E. apply streq_true_iff in E. congruence.
  - intro H. destruct (streq a b) eqn:E; [|reflexivity].
    apply streq_true_iff in E. contradiction.
Qed.

(* ================================================================= *)
(** ** Reserved parameters (C9) *)

Section Reserved.

Variable config : Config.

(** The reading loop does not consult the two reserved parameters. *)
Lemma process_files_ignores_flags t f fs fm l d s d' s' (resolvedFiles : list jsstring) :
  process_files config (Params.Build t f fs fm l d s) resolvedFiles =
  process_files config (Params.Build t f fs fm l d' s') resolvedFiles.
Proof.
  induction resolvedFiles as [|filePath resolvedFiles IH]; [reflexivity|].
  cbn [process_files]. rewrite IH. reflexivity.
Qed.

(** C9. [includeDocstrings] and [includeSignatures] are accepted and
    ignored: two requests that agree on every other parameter run the same
    computation (the same reads, in the same order), and against any file
    system they return the same result -- the same extracted elements in
    the same formatted output -- after the same reads. *)
Theorem reserved_flags_have_no_effect (p q : ExtractToolParams) :
  same_request p q ->
  execute config p = execute config q /\
  (forall fs, run fs (execute config p) = run fs (execute config q)) /\
  (forall resolvedFiles results,
      process_files config p resolvedFiles results =
      process_files config q resolvedFiles results) /\
  (forall results, format_output config p results = format_output config q results).
Proof.
  destruct p as [t f fs fm l d s], q as [t' f' fs' fm' l' d' s'].
  unfold same_request; simpl.
  intros (-> & -> & -> & -> & ->).
  assert (E : execute config (Params.Build t' f' fs' fm' l' d s) =
              execute config (Params.Build t' f' fs' fm' l' d' s')).
  { unfold execute. cbn [requested_files Params.files Params.file Params.type].
    destruct (length _ =? 0); [reflexivity|].
    destruct (resolve_files _ _ _) as [r|resolvedFiles]; [reflexivity|].
    rewrite (process_files_ignores_flags t' f' fs' fm' l' d s d' s'). reflexivity. }
  repeat split.
  - exact E.
  - intro fs. rewrite E. reflexivity.
  - intros resolvedFiles results.
    rewrite (process_files_ignores_flags t' f' fs' fm' l' d s d' s'). reflexivity.
Qed.

End Reserved.

(* ================================================================= *)
(** ** Requests without files (C6) *)

Section NoFiles.

Variable config : Config.

Lemma requested_files_none (p : ExtractToolParams) :
  no_file_requested p -> requested_files p = [].
Proof.
  unfold requested_files. intros [-> | [-> Hfile]]; [reflexivity|].
  destruct (Params.file p) as [[|c f]|]; simpl in Hfile; congruence.
Qed.

(** C6. A request that names no file ([files] empty, or [files] and
    [file] both absent) returns -- as a value, without awaiting any read
    -- the result object whose error has the type [INVALID_TOOL_PARAMS] and
    the message "No files specified for extraction"; run against any file
    system, the log of reads is empty.  When [file] is absent, the
    parameter validation of the tool rejects the request as well. *)
Theorem no_files_is_a_parameter_error (p : ExtractToolParams) :
  no_file_requested p ->
  execute config p = Ret no_files_result /\
  error no_files_result =
    Some (MkToolError "No files specified for extraction" (Some INVALID_TOOL_PARAMS)) /\
  (forall fs, run fs (execute config p) = (no_files_result, [])) /\
  (truthy (Params.file p) = false ->
   validateToolParamValues p =
     Some (js "Either 'file' or 'files' parameter must be specified")).
Proof.
  intro H.
  assert (E : execute config p = Ret no_files_result).
  { unfold execute. rewrite (requested_files_none H). reflexivity. }
  refine (conj E (conj eq_refl (conj _ _))).
  - intro fs. rewrite E. reflexivity.
  - intro Hfile. unfold validateToolParamValues. rewrite Hfile.
    destruct H as [-> | [-> _]]; reflexivity.
Qed.

End NoFiles.

(* ================================================================= *)
(** ** Language detection (C5) *)

Section Detection.

Variable extname : jsstring -> jsstring.

Lemma detectLanguage_table (filePath : jsstring) :
  let ext := toLowerCase (extname filePath) in
  (ext = js ".js" \/ ext = js ".jsx" ->
   detectLanguage extname filePath = Some (js "javascript")) /\
  (ext = js ".ts" \/ ext = js ".tsx" ->
   detectLanguage extname filePath = Some (js "typescript")) /\
  (ext = js ".py" -> detectLanguage extname filePath = Some (js "python")) /\
  (ext = js ".java" -> detectLanguage extname filePath = Some (js "java")) /\
  (ext = js ".go" -> detectLanguage extname filePath = Some (js "go")) /\
  (~ In ext known_extensions -> detectLanguage extname filePath = None).
Proof.
  intro ext. unfold detectLanguage. fold ext.
  repeat split.
  - intros [-> | ->]; reflexivity.
  - intros [-> | ->]; reflexivity.
  - intros ->; reflexivity.
  - intros ->; reflexivity.
  - intros ->; reflexivity.
  - intro Hn. unfold known_extensions in Hn. simpl in Hn.
    repeat match goal with
           | |- context [streq ext ?s] =>
               let E := fresh "E" in
               destruct (streq ext s) eqn:E;
               [apply streq_true_iff in E; exfalso; apply Hn; rewrite E; tauto|]
           end.
    reflexivity.
Qed.

End Detection.

Section Fallback.

Variable config : Config.

(** C5. Detection depends only on the lower-cased extension of the path
    (so two paths whose extensions differ only in letter case are
    detected alike); it maps [.js]/[.jsx] to javascript, [.ts]/[.tsx] to
    typescript, [.py] to python, [.java] to java, [.go] to go and every
    other extension to "unknown" ([None]); and a request without
    [language] for a file of unknown extension is served with the
    javascript patterns. *)
Theorem language_detection_and_fallback (filePath : jsstring) :
  let extname := path_extname config in
  let ext := toLowerCase (extname filePath) in
  (forall other, toLowerCase (extname other) = ext ->
                 detectLanguage extname other = detectLanguage extname filePath) /\
  (ext = js ".js" \/ ext = js ".jsx" ->
   detectLanguage extname filePath = Some (js "javascript")) /\
  (ext = js ".ts" \/ ext = js ".tsx" ->
   detectLanguage extname filePath = Some (js "typescript")) /\
  (ext = js ".py" -> detectLanguage extname filePath = Some (js "python")) /\
  (ext = js ".java" -> detectLanguage extname filePath = Some (js "java")) /\
  (ext = js ".go" -> detectLanguage extname filePath = Some (js "go")) /\
  (~ In ext known_extensions -> detectLanguage extname filePath = None) /\
  (forall params,
      Params.language params = None ->
      detectLanguage extname filePath = None ->
      language_for config params filePath = js "javascript" /\
      forall type content,
        extract_by_type type content (language_for config params filePath) =
        extract_by_type type content (js "javascript")).
Proof.
  intros extname ext. split.
  - intros other H. unfold detectLanguage. fold ext. rewrite H. reflexivity.
  - pose proof (detectLanguage_table extname filePath) as T. cbv zeta in T. fold ext in T.
    destruct T as (T1 & T2 & T3 & T4 & T5 & T6).
    repeat (split; [assumption|]).
    intros params Hl Hd.
    assert (E : language_for config params filePath = js "javascript").
    { unfold language_for. fold extname. rewrite Hl, Hd. reflexivity. }
    split; [exact E|]. intros. rewrite E. reflexivity.
Qed.

End Fallback.

(* ================================================================= *)
(** ** Trimming and splitting *)

Lemma trimStart_app (u v : jsstring) :
  trimStart (u ++ v) = if forallb is_ws u then trimStart v else trimStart u ++ v.
Proof.
  induction u as [|c u IH]; simpl; [reflexivity|].
  destruct (is_ws c); simpl; [exact IH|reflexivity].
Qed.

Lemma trimStart_all_ws (u : jsstring) : forallb is_ws u = true -> trimStart u = [].
Proof.
  induction u as [|c u IH]; simpl; [reflexivity|].
  destruct (is_ws c); simpl; [exact IH|discriminate].
Qed.

Lemma trimStart_suffix (u : jsstring) : exists v, u = v ++ trimStart u.
Proof.
  induction u as [|c u [v IH]]; simpl.
  - exists []. reflexivity.
  - destruct (is_ws c).
    + exists (c :: v). simpl. f_equal. exact IH.
    + exists []. reflexivity.
Qed.

Lemma trimStart_not_ws (c : ascii) (u : jsstring) :
  is_ws c = false -> trimStart (c :: u) = c :: u.
Proof. intro H. simpl. rewrite H. reflexivity. Qed.

Lemma trimEnd_prefix (w : jsstring) : exists v, w = trimEnd w ++ v.
Proof.
  unfold trimEnd. destruct (trimStart_suffix (rev w)) as [v E].
  exists (rev v). rewrite <- rev_app_distr, <- E, rev_involutive. reflexivity.
Qed.

(** Trimming a text that starts and ends with visible code units, followed
    by anything, only trims the end of what follows. *)
Lemma trim_visible_app (c : ascii) (x : jsstring) (d : ascii) (w : jsstring) :
  is_ws c = false -> is_ws d = false ->
  trim ((c :: x) ++ d :: w) = (c :: x) ++ d :: trimEnd w.
Proof.
  intros Hc Hd. unfold trim.
  change ((c :: x) ++ d :: w) with (c :: (x ++ d :: w)).
  rewrite trimStart_not_ws by exact Hc. unfold trimEnd.
  change (c :: x ++ d :: w) with ((c :: x) ++ [d] ++ w).
  rewrite !rev_app_distr, <- app_assoc, trimStart_app.
  destruct (forallb is_ws (rev w)) eqn:E.
  - rewrite trimStart_all_ws with (u := rev w) by exact E.
    change (rev [d] ++ rev (c :: x)) with (d :: rev (c :: x)).
    rewrite trimStart_not_ws by exact Hd.
    change (d :: rev (c :: x)) with ([d] ++ rev (c :: x)).
    rewrite rev_app_distr, rev_involutive. reflexivity.
  - rewrite !rev_app_distr, rev_involutive. simpl. rewrite <- app_assoc. reflexivity.
Qed.

Lemma split_lines_aux_app (a cur rest : jsstring) :
  Forall (fun c => Ascii.eqb c "010"%char = false) a ->
  split_lines_aux cur (a ++ rest) = split_lines_aux (rev a ++ cur) rest.
Proof.
  revert cur. induction a as [|c a IH]; intros cur H; simpl; [reflexivity|].
  inversion H as [|? ? Hc Ha]; subst. rewrite Hc. rewrite IH by assumption.
  rewrite <- app_assoc. reflexivity.
Qed.

(** The first line of a text that starts with a line-feed-free text [a]
    followed by nothing or by a line feed is [a]. *)
Lemma first_line_prefix (a rest : jsstring) :
  Forall (fun c => Ascii.eqb c "010"%char = false) a ->
  (rest = [] \/ exists r, rest = "010"%char :: r) ->
  first_line (a ++ rest) = a.
Proof.
  intros Ha Hr. unfold first_line, split_lines.
  rewrite split_lines_aux_app by assumption. rewrite app_nil_r.
  destruct Hr as [-> | [r ->]]; simpl; apply rev_involutive.
Qed.

Lemma is_digit_visible (c : ascii) :
  is_digit c = true -> is_ws c = false /\ Ascii.eqb c "010"%char = false.
Proof.
  unfold is_digit, is_ws. intro H. apply andb_true_iff in H as [H1 H2].
  apply Nat.leb_le in H1, H2. split.
  - repeat (apply orb_false_iff; split);
      try (apply andb_false_iff; right; apply Nat.leb_gt; lia);
      apply Nat.eqb_neq; lia.
  - apply Ascii.eqb_neq. intros ->. vm_compute in H1. lia.
Qed.

Lemma decimal_digits (d : Decimal.uint) :
  Forall (fun c => is_digit c = true)
         (js (DecimalString.NilEmpty.string_of_uint d)).
Proof.
  induction d; simpl; constructor; try assumption; reflexivity.
Qed.

(** A number is printed as a non-empty run of decimal digits. *)
Lemma number_to_string_digits (n : nat) :
  Forall (fun c => is_digit c = true) (number_to_string n) /\
  number_to_string n <> [].
Proof.
  unfold number_to_string, DecimalString.NilZero.string_of_uint.
  destruct (Nat.to_uint n) eqn:E;
    try (split; [apply decimal_digits | simpl; discriminate]).
  split; [repeat constructor | discriminate].
Qed.

(* ================================================================= *)
(** ** The summary format (C8) *)

Section Summary.

Variable config : Config.

Lemma summary_loop_from (results : list FileResult) (n : nat) (out : jsstring) :
  fold_left
    (fun (acc : nat * jsstring) result =>
       let (totalElements, output) := acc in
       (totalElements + length (elements result),
        output ++ relativePath config result ++ js ": " ++
        number_to_string (length (elements result)) ++ js " elements" ++ nl))
    results (n, out)
  = (n + total_count results, out ++ concat (map (summary_line config) results)).
Proof.
  revert n out. induction results as [|r results IH]; intros n out; simpl.
  - rewrite Nat.add_0_r, app_nil_r. reflexivity.
  - rewrite IH. unfold total_count, summary_line. simpl.
    rewrite Nat.add_assoc, <- !app_assoc. reflexivity.
Qed.

Lemma summary_loop_total (results : list FileResult) :
  summary_loop config results =
  (total_count results, concat (map (summary_line config) results)).
Proof. unfold summary_loop. rewrite summary_loop_from. reflexivity. Qed.

(** C8. The summary is the trimmed text made of the line "Total elements
    extracted: <total>", an empty line and one line "<relative path>:
    <count> elements" per file, in order; its first line reports a total
    equal to the sum of the per-file counts printed on those lines. *)
Theorem summary_total_is_sum_of_counts (results : list FileResult) :
  formatAsSummary config results =
    trim (js "Total elements extracted: " ++ number_to_string (total_count results) ++
          nl ++ nl ++ concat (map (summary_line config) results)) /\
  first_line (formatAsSummary config results) =
    js "Total elements extracted: " ++ number_to_string (total_count results).
Proof.
  assert (E : formatAsSummary config results =
    trim (js "Total elements extracted: " ++ number_to_string (total_count results) ++
          nl ++ nl ++ concat (map (summary_line config) results))).
  { unfold formatAsSummary. rewrite summary_loop_total. reflexivity. }
  split; [exact E|]. rewrite E.
  destruct (number_to_string_digits (total_count results)) as [Hd Hne].
  destruct (exists_last Hne) as (ds & d & Hds). rewrite Hds in *.
  apply Forall_app in Hd as [Hds' Hd']. inversion Hd' as [|? ? Hdigit _]; subst.
  destruct (is_digit_visible _ Hdigit) as [Hws Hlf].
  set (w := nl ++ nl ++ concat (map (summary_line config) results)).
  replace (js "Total elements extracted: " ++ (ds ++ [d]) ++ w)
    with (("T"%char :: js "otal elements extracted: " ++ ds) ++ d :: w)
    by (simpl; rewrite <- !app_assoc; reflexivity).
  rewrite trim_visible_app by (reflexivity || assumption).
  replace (("T"%char :: js "otal elements extracted: " ++ ds) ++ d :: trimEnd w)
    with ((js "Total elements extracted: " ++ ds ++ [d]) ++ trimEnd w)
    by (simpl; rewrite <- !app_assoc; reflexivity).
  apply first_line_prefix.
  - apply Forall_app; split; [repeat constructor|].
    apply Forall_app; split.
    + eapply Forall_impl; [|exact Hds']. intros c Hc. apply is_digit_visible. exact Hc.
    + constructor; [exact Hlf|constructor].
  - destruct (trimEnd_prefix w) as [v Hv].
    destruct (trimEnd w) as [|c t]; [left; reflexivity|right].
    unfold w in Hv. simpl in Hv. injection Hv as Hc _. exists t. congruence.
Qed.

End Summary.

(* ================================================================= *)
(** ** The line loop of the stateless extractors *)

Section LineLoop.

Variable per_line : jsstring -> nat -> list ExtractedElement.

(** Every element pushed while visiting a line carries its number. *)
Hypothesis per_line_number :
  forall l n e, In e (per_line l n) -> Element.line e = n.

Lemma line_loop_origin (lines : list jsstring) (i : nat) (e : ExtractedElement) :
  In e (line_loop per_line lines i) ->
  exists k l, nth_error lines k = Some l /\ Element.line e = i + k + 1 /\
              In e (per_line l (i + k + 1)).
Proof.
  revert i. induction lines as [|l lines IH]; intros i H; simpl in H; [contradiction|].
  apply in_app_or in H as [H | H].
  - exists 0, l. rewrite Nat.add_0_r. repeat split; auto.
    apply per_line_number in H. exact H.
  - apply IH in H as (k & l' & Hk & Hl & Hin).
    exists (S k), l'. simpl. replace (i + S k + 1) with (i + 1 + k + 1) by lia. auto.
Qed.


Lemma line_loop_after (lines : list jsstring) (i : nat) (e : ExtractedElement) :
  In e (line_loop per_line lines i) -> i < Element.line e.
Proof.
  intro H. apply line_loop_origin in H as (k & l & _ & -> & _). lia.
Qed.

Lemma strongly_sorted_app (l1 l2 : list nat) :
  StronglySorted le l1 -> StronglySorted le l2 ->
  (forall a b, In a l1 -> In b l2 -> a <= b) ->
  StronglySorted le (l1 ++ l2).
Proof.
  intros H1 H2 H. induction H1 as [|a l1 Hs IH Ha]; simpl; [exact H2|].
  constructor.
  - apply IH. intros x y Hx Hy. apply H; [right|]; assumption.
  - apply Forall_app; split; [exact Ha|].
    apply Forall_forall. intros y Hy. apply H; [left; reflexivity|exact Hy].
Qed.

Lemma constant_sorted (n : nat) (l : list nat) :
  (forall a, In a l -> a = n) -> StronglySorted le l.
Proof.
  intro H. induction l as [|a l IH]; constructor.
  - apply IH. intros b Hb. apply H. right. exact Hb.
  - apply Forall_forall. intros b Hb.
    rewrite (H a) by (left; reflexivity). rewrite (H b) by (right; exact Hb). lia.
Qed.

Lemma line_loop_ascending (lines : list jsstring) (i : nat) :
  ascending (line_loop per_line lines i).
Proof.
  unfold ascending. revert i. induction lines as [|l lines IH]; intro i; simpl.
  - constructor.
  - rewrite map_app. apply strongly_sorted_app.
    + apply constant_sorted with (n := i + 1). intros a Ha.
      apply in_map_iff in Ha as (e & <- & He). apply per_line_number in He. exact He.
    + apply IH.
    + intros a b Ha Hb.
      apply in_map_iff in Ha as (e & <- & He). apply per_line_number in He.
      apply in_map_iff in Hb as (e' & <- & He'). apply line_loop_after in He'. lia.
Qed.

(** At most one element is pushed while visiting a line. *)
Hypothesis per_line_single : forall l n, length (per_line l n) <= 1.

Lemma at_line_none (n : nat) (es : list ExtractedElement) :
  (forall e, In e es -> Element.line e <> n) -> at_line n es = [].
Proof.
  intro H. unfold at_line. induction es as [|e es IH]; simpl; [reflexivity|].
  destruct (Element.line e =? n) eqn:E.
  - apply Nat.eqb_eq in E. exfalso. apply (H e); [left; reflexivity|exact E].
  - apply IH. intros e' He'. apply H. right. exact He'.
Qed.

Lemma at_line_app (n : nat) (a b : list ExtractedElement) :
  at_line n (a ++ b) = at_line n a ++ at_line n b.
Proof. apply filter_app. Qed.

Lemma at_line_length (n : nat) (es : list ExtractedElement) :
  length (at_line n es) <= length es.
Proof. apply filter_length_le. Qed.

Lemma line_loop_at_most_one (lines : list jsstring) (i n : nat) :
  length (at_line n (line_loop per_line lines i)) <= 1.
Proof.
  revert i. induction lines as [|l lines IH]; intro i; simpl; [lia|].
  rewrite at_line_app, length_app.
  destruct (Nat.eq_dec n (i + 1)) as [-> | Hn].
  - rewrite (@at_line_none (i + 1) (line_loop per_line lines (i + 1))).
    + simpl. rewrite Nat.add_0_r.
      etransitivity; [apply at_line_length|apply per_line_single].
    + intros e He. apply line_loop_after in He. lia.
  - rewrite (@at_line_none n (per_line l (i + 1))).
    + simpl. apply IH.
    + intros e He. apply per_line_number in He. lia.
Qed.

End LineLoop.

(* ================================================================= *)
(** ** First match wins *)

Lemma first_match_first_matching (patterns : list regex) (line : jsstring)
      (mt : match_result) :
  first_match patterns line = Some mt <-> exists p, first_matching patterns line p mt.
Proof.
  split.
  - induction patterns as [|q patterns IH]; simpl; [discriminate|].
    destruct (exec q line) as [mq|] eqn:E.
    + intros [= <-]. exists q, [], patterns. repeat split; auto.
    + intro H. destruct (IH H) as (p & b & a & -> & Hb & Hp).
      exists p, (q :: b), a. repeat split; auto.
  - intros (p & b & a & -> & Hb & Hp).
    induction Hb as [|q b Hq Hb IH]; simpl.
    + rewrite Hp. reflexivity.
    + rewrite Hq. exact IH.
Qed.

Lemma push_if_named_number t nm l n e :
  In e (push_if_named t nm l n) -> Element.line e = n.
Proof.
  destruct nm as [[|c nm]|]; simpl; try contradiction.
  intros [<- | []]. reflexivity.
Qed.

Lemma push_if_named_single t nm l n : length (push_if_named t nm l n) <= 1.
Proof. destruct nm as [[|c nm]|]; simpl; lia. Qed.

Lemma function_line_number language ps l n e :
  In e (function_line language ps l n) -> Element.line e = n.
Proof.
  unfold function_line. destruct (first_match ps l); [|contradiction].
  apply push_if_named_number.
Qed.

Lemma class_line_number language ps l n e :
  In e (class_line language ps l n) -> Element.line e = n.
Proof.
  unfold class_line. destruct (first_match ps l); [|contradiction].
  apply push_if_named_number.
Qed.

Lemma import_line_number ps l n e :
  In e (import_line ps l n) -> Element.line e = n.
Proof.
  unfold import_line. destruct (first_match ps l); [|contradiction].
  intros [<- | []]. reflexivity.
Qed.

Lemma variable_line_number language ps l n e :
  In e (variable_line language ps l n) -> Element.line e = n.
Proof.
  unfold variable_line. destruct (skipped_by_variables l); [contradiction|].
  destruct (first_match ps l); [|contradiction].
  apply push_if_named_number.
Qed.

Lemma type_line_number ps l n e :
  In e (type_line ps l n) -> Element.line e = n.
Proof.
  unfold type_line. destruct (first_match ps l); [|contradiction].
  apply push_if_named_number.
Qed.

(* ================================================================= *)
(** ** Ordering of the results (C7) *)

Lemma ascending_snoc (es : list ExtractedElement) (e : ExtractedElement) :
  ascending es -> Forall (fun x => Element.line x <= Element.line e) es ->
  ascending (es ++ [e]).
Proof.
  unfold ascending. intros Hs Hle. rewrite map_app. apply strongly_sorted_app.
  - exact Hs.
  - repeat constructor.
  - intros a b Ha [<- | []]. apply in_map_iff in Ha as (x & <- & Hx).
    rewrite Forall_forall in Hle. apply Hle. exact Hx.
Qed.

Lemma Forall_le_weaken (es : list ExtractedElement) (a b : nat) :
  a <= b -> Forall (fun e => Element.line e <= a) es ->
  Forall (fun e => Element.line e <= b) es.
Proof.
  intros Hab H. eapply Forall_impl; [|exact H]. simpl. intros e He. lia.
Qed.

Lemma Forall_le_snoc (es : list ExtractedElement) (e : ExtractedElement) (b : nat) :
  Forall (fun x => Element.line x <= b) es -> Element.line e <= b ->
  Forall (fun x => Element.line x <= b) (es ++ [e]).
Proof. intros H He. apply Forall_app; split; [exact H|repeat constructor; exact He]. Qed.

Lemma comment_step_inv (p : comment_patterns) (st : comment_state)
      (line : jsstring) (i : nat) :
  comment_inv st i -> comment_inv (comment_step p st line (i + 1)) (i + 1).
Proof.
  unfold comment_inv, comment_step. intros [Hs Hb].
  destruct (inMultiLineComment st) eqn:Hin.
  - destruct Hb as [Hb Hstart].
    destruct (exec (multiLineCommentEnd p) line); simpl.
    + split.
      * apply ascending_snoc; [exact Hs|exact Hb].
      * apply Forall_le_snoc; [|simpl; lia].
        apply Forall_le_weaken with (a := multiLineStartLine st); [lia|exact Hb].
    + repeat split; [exact Hs|exact Hb|lia].
  - set (comments1 := match exec (singleLineComment p) line with
                      | Some _ => _
                      | None => comments st
                      end).
    assert (H1 : ascending comments1 /\
                 Forall (fun e => Element.line e <= i + 1) comments1).
    { unfold comments1. destruct (exec (singleLineComment p) line).
      - split.
        + apply ascending_snoc; [exact Hs|]. simpl.
          apply Forall_le_weaken with (a := i); [lia|exact Hb].
        + apply Forall_le_snoc; [|simpl; lia].
          apply Forall_le_weaken with (a := i); [lia|exact Hb].
      - split; [exact Hs|]. apply Forall_le_weaken with (a := i); [lia|exact Hb]. }
    destruct H1 as [Hs1 Hb1].
    destruct (exec (multiLineCommentStart p) line); simpl.
    + destruct (exec (multiLineCommentEnd p) line); simpl.
      * split; [apply ascending_snoc; [exact Hs1|exact Hb1]|].
        apply Forall_le_snoc; [exact Hb1|simpl; lia].
      * repeat split; [exact Hs1|exact Hb1|lia].
    + split; [exact Hs1|exact Hb1].
Qed.

Lemma comment_loop_inv (p : comment_patterns) (lines : list jsstring)
      (st : comment_state) (i : nat) :
  comment_inv st i -> comment_inv (comment_loop p st lines i) (i + length lines).
Proof.
  revert st i. induction lines as [|l lines IH]; intros st i H; simpl.
  - rewrite Nat.add_0_r. exact H.
  - replace (i + S (length lines)) with (i + 1 + length lines) by lia.
    apply IH. apply comment_step_inv. exact H.
Qed.

Lemma extractComments_ascending (content language : jsstring) :
  ascending (extractComments content language).
Proof.
  unfold extractComments. destruct (commentPatterns language) as [p|].
  - apply (@comment_loop_inv p (split_lines content) (CommentState [] false [] 0) 0).
    split; [constructor|constructor].
  - constructor.
Qed.

(** C7. For every extractor, language and text, the line numbers of the
    returned elements never decrease along the result, a multi-line
    comment counting with the line where its block starts. *)
Theorem results_in_ascending_line_order (content language : jsstring) :
  ascending (extractComments content language) /\
  ascending (extractFunctions content language) /\
  ascending (extractClasses content language) /\
  ascending (extractImports content language) /\
  ascending (extractVariables content language) /\
  ascending (extractTypes content language).
Proof.
  split; [apply extractComments_ascending|].
  unfold extractFunctions, extractClasses, extractImports, extractVariables, extractTypes.
  repeat split.
  - destruct (functionPatterns language); [|constructor].
    apply line_loop_ascending, function_line_number.
  - destruct (classPatterns language); [|constructor].
    apply line_loop_ascending, class_line_number.
  - destruct (importPatterns language); [|constructor].
    apply line_loop_ascending, import_line_number.
  - destruct (variablePatterns language); [|constructor].
    apply line_loop_ascending, variable_line_number.
  - destruct (typePatterns language); [|constructor].
    apply line_loop_ascending, type_line_number.
Qed.

(* ================================================================= *)
(** ** One element per line, from the first matching pattern (C2) *)

Lemma table_from_first_match (patterns : list regex)
      (emit : match_result -> jsstring -> nat -> list ExtractedElement)
      (skip : jsstring -> bool) (content : jsstring) :
  (forall mt l n e, In e (emit mt l n) -> Element.line e = n) ->
  (forall mt l n, length (emit mt l n) <= 1) ->
  from_first_match patterns emit content
    (line_loop (fun l n => if skip l then []
                           else match first_match patterns l with
                                | Some mt => emit mt l n
                                | None => []
                                end)
               (split_lines content) 0).
Proof.
  intros Hnum Hone.
  set (per_line := fun l n => if skip l then []
                              else match first_match patterns l with
                                   | Some mt => emit mt l n
                                   | None => []
                                   end).
  assert (Pnum : forall l n e, In e (per_line l n) -> Element.line e = n).
  { unfold per_line. intros l n e. destruct (skip l); [contradiction|].
    destruct (first_match patterns l); [apply Hnum|contradiction]. }
  assert (Pone : forall l n, length (per_line l n) <= 1).
  { unfold per_line. intros l n. destruct (skip l); [simpl; lia|].
    destruct (first_match patterns l); [apply Hone|simpl; lia]. }
  split.
  - intro n. apply line_loop_at_most_one; assumption.
  - intros e He. apply line_loop_origin in He as (k & l & Hk & Hl & Hin); [|exact Pnum].
    simpl in Hl. rewrite Hl. replace (k + 1 - 1) with k by lia.
    unfold per_line in Hin. destruct (skip l); [contradiction|].
    destruct (first_match patterns l) as [mt|] eqn:Hfm; [|contradiction].
    apply first_match_first_matching in Hfm as [p Hp].
    exists l, p, mt. repeat split; [exact Hk|exact Hp|].
    simpl in Hin. specialize (Hone mt l (k + 1)).
    destruct (emit mt l (k + 1)) as [|e0 [|e1 es]]; simpl in *;
      [contradiction| |lia].
    destruct Hin as [-> | []]. reflexivity.
Qed.

Lemma comment_step_at_most_two (p : comment_patterns) (st : comment_state)
      (line : jsstring) (n : nat) :
  length (comments (comment_step p st line n)) <= length (comments st) + 2.
Proof.
  unfold comment_step.
  destruct (inMultiLineComment st).
  - destruct (exec (multiLineCommentEnd p) line); simpl;
      rewrite ?length_app; simpl; lia.
  - destruct (exec (singleLineComment p) line);
      destruct (exec (multiLineCommentStart p) line);
      try destruct (exec (multiLineCommentEnd p) line); simpl;
      rewrite ?length_app; simpl; rewrite ?length_app; simpl; lia.
Qed.

(** C2, amended. In the five extractors driven by a pattern table
    (functions, classes, imports, variables, types), for every language
    and text, no two elements come from the same line and each element is
    derived from the match of the first pattern, in declared order, that
    matches its line.  [extractComments] is built differently: visiting a
    line pushes at most two elements. *)
Theorem first_pattern_wins (content language : jsstring) :
  (forall ps, functionPatterns language = Some ps ->
     from_first_match ps
       (fun mt => push_if_named FunctionElement (functionName language mt))
       content (extractFunctions content language)) /\
  (forall ps, classPatterns language = Some ps ->
     from_first_match ps
       (fun mt => push_if_named ClassElement (className language mt))
       content (extractClasses content language)) /\
  (forall ps, importPatterns language = Some ps ->
     from_first_match ps
       (fun mt l n => [Element.Build ImportElement (importName mt l) n (trim l)])
       content (extractImports content language)) /\
  (forall ps, variablePatterns language = Some ps ->
     from_first_match ps
       (fun mt => push_if_named VariableElement (variableName language mt))
       content (extractVariables content language)) /\
  (forall ps, typePatterns language = Some ps ->
     from_first_match ps
       (fun mt l => push_if_named TypeElement (Some (typeName mt l)) l)
       content (extractTypes content language)) /\
  (forall p st line n,
     length (comments (comment_step p st line n)) <= length (comments st) + 2).
Proof.
  refine (conj _ (conj _ (conj _ (conj _ (conj _ _))))).
  - intros ps H. unfold extractFunctions. rewrite H.
    apply (@table_from_first_match ps
             (fun mt => push_if_named FunctionElement (functionName language mt))
             (fun _ => false) content).
    + intros mt l n e. apply push_if_named_number.
    + intros mt l n. apply push_if_named_single.
  - intros ps H. unfold extractClasses. rewrite H.
    apply (@table_from_first_match ps
             (fun mt => push_if_named ClassElement (className language mt))
             (fun _ => false) content).
    + intros mt l n e. apply push_if_named_number.
    + intros mt l n. apply push_if_named_single.
  - intros ps H. unfold extractImports. rewrite H.
    apply (@table_from_first_match ps
             (fun mt l n => [Element.Build ImportElement (importName mt l) n (trim l)])
             (fun _ => false) content).
    + intros mt l n e [<- | []]. reflexivity.
    + intros mt l n. simpl. lia.
  - intros ps H. unfold extractVariables. rewrite H.
    apply (@table_from_first_match ps
             (fun mt => push_if_named VariableElement (variableName language mt))
             skipped_by_variables content).
    + intros mt l n e. apply push_if_named_number.
    + intros mt l n. apply push_if_named_single.
  - intros ps H. unfold extractTypes. rewrite H.
    apply (@table_from_first_match ps
             (fun mt l => push_if_named TypeElement (Some (typeName mt l)) l)
             (fun _ => false) content).
    + intros mt l n e. apply push_if_named_number.
    + intros mt l n. apply push_if_named_single.
  - intros. apply comment_step_at_most_two.
Qed.

(* ================================================================= *)
(** ** Soundness of the matcher

    Whatever the backtracking matcher accepts is a match in the sense of
    [matches]. *)

Lemma advances_refl (x : mstate) : advances x [] x.
Proof. split; reflexivity. Qed.

Lemma advances_trans (x y z : mstate) (w1 w2 : list ascii) :
  advances x w1 y -> advances y w2 z -> advances x (w1 ++ w2) z.
Proof.
  intros [H1 H2] [H3 H4]. split.
  - rewrite H1, H3, app_assoc. reflexivity.
  - rewrite H4, H2, rev_app_distr, app_assoc. reflexivity.
Qed.

Lemma char_matcher_inv (p : ascii -> bool) (k : cont) (x z : mstate) :
  char_matcher p k x = Some z ->
  exists c r, rest x = c :: r /\ p c = true /\
              k (MState (c :: before x) r (caps x)) = Some z.
Proof.
  unfold char_matcher. destruct (rest x) as [|c r]; [discriminate|].
  destruct (p c) eqn:E; [|discriminate]. intro H. exists c, r. auto.
Qed.

Lemma orelse_inv (a : option mstate) (b : unit -> option mstate) (z : mstate) :
  orelse a b = Some z -> a = Some z \/ (a = None /\ b tt = Some z).
Proof. destruct a; simpl; intro H; [left|right]; auto. Qed.

Lemma clear_caps_advances gs x w y :
  advances (clear_caps gs x) w y -> advances x w y.
Proof. intro H. exact H. Qed.

Lemma repeat_matcher_sound (r : regex) (greedy : bool) (gs : list nat) :
  sound_for r (m r) ->
  forall fuel k x z,
    repeat_matcher (m r) gs greedy fuel k x = Some z ->
    exists w y, advances x w y /\
                matches (if greedy then Star r else StarLazy r) (before x) w (rest y) /\
                k y = Some z.
Proof.
  intros Hr. induction fuel as [|fuel IH]; intros k x z H; simpl in H.
  - exists [], x. split; [apply advances_refl|]. split; [|exact H].
    destruct greedy; constructor.
  - assert (Hagain :
      m r (fun y => if length (rest y) <? length (rest x)
                    then repeat_matcher (m r) gs greedy fuel k y else None)
          (clear_caps gs x) = Some z ->
      exists w y, advances x w y /\
                  matches (if greedy then Star r else StarLazy r) (before x) w (rest y) /\
                  k y = Some z).
    { intro Ha. apply Hr in Ha as (w1 & y1 & Hadv1 & Hm1 & Hk1).
      destruct (length (rest y1) <? length (rest x)); [|discriminate].
      apply IH in Hk1 as (w2 & y2 & Hadv2 & Hm2 & Hk2).
      exists (w1 ++ w2), y2. split.
      - apply advances_trans with (y := y1); [apply Hadv1|exact Hadv2].
      - split; [|exact Hk2].
        destruct Hadv1 as [E1 E1'], Hadv2 as [E2 E2']. simpl in *.
        rewrite E2 in Hm1. rewrite E1' in Hm2.
        destruct greedy; econstructor; eassumption. }
    assert (Hstop : k x = Some z ->
      exists w y, advances x w y /\
                  matches (if greedy then Star r else StarLazy r) (before x) w (rest y) /\
                  k y = Some z).
    { intro Hk. exists [], x. split; [apply advances_refl|]. split; [|exact Hk].
      destruct greedy; constructor. }
    destruct greedy; apply orelse_inv in H as [H | [_ H]]; auto.
Qed.

Lemma m_sound (r : regex) : sound_for r (m r).
Proof.
  induction r as [| c | | items | items | r1 IH1 r2 IH2 | r1 IH1 r2 IH2
                 | r1 IH1 | r1 IH1 | r1 IH1 | n r1 IH1 | | ];
    intros k x z H; simpl in H.
  - exists [], x. split; [apply advances_refl|]. split; [constructor|exact H].
  - apply char_matcher_inv in H as (c' & t & Hx & Hp & Hk).
    apply Ascii.eqb_eq in Hp. subst c'.
    exists [c], (MState (c :: before x) t (caps x)). split; [split; simpl; auto|].
    split; [constructor|exact Hk].
  - apply char_matcher_inv in H as (c' & t & Hx & Hp & Hk).
    exists [c'], (MState (c' :: before x) t (caps x)). split; [split; simpl; auto|].
    split; [constructor; apply negb_true_iff; exact Hp|exact Hk].
  - apply char_matcher_inv in H as (c' & t & Hx & Hp & Hk).
    exists [c'], (MState (c' :: before x) t (caps x)). split; [split; simpl; auto|].
    split; [constructor; exact Hp|exact Hk].
  - apply char_matcher_inv in H as (c' & t & Hx & Hp & Hk).
    exists [c'], (MState (c' :: before x) t (caps x)). split; [split; simpl; auto|].
    split; [constructor; apply negb_true_iff; exact Hp|exact Hk].
  - apply IH1 in H as (w1 & y1 & Hadv1 & Hm1 & Hk1).
    apply IH2 in Hk1 as (w2 & y2 & Hadv2 & Hm2 & Hk2).
    exists (w1 ++ w2), y2. split; [apply advances_trans with (y := y1); assumption|].
    split; [|exact Hk2].
    destruct Hadv1 as [E1 E1'], Hadv2 as [E2 E2'].
    rewrite E2 in Hm1. rewrite E1' in Hm2. econstructor; eassumption.
  - apply orelse_inv in H as [H | [_ H]].
    + apply IH1 in H as (w & y & Hadv & Hm & Hk).
      exists w, y. split; [exact Hadv|]. split; [apply M_AltL; exact Hm|exact Hk].
    + apply IH2 in H as (w & y & Hadv & Hm & Hk).
      exists w, y. split; [exact Hadv|]. split; [apply M_AltR; exact Hm|exact Hk].
  - change (repeat_matcher (m r1) (groups_of r1) true (S (length (rest x))) k x = Some z) in H.
    apply (@repeat_matcher_sound r1 true (groups_of r1) IH1) in H. exact H.
  - change (repeat_matcher (m r1) (groups_of r1) false (S (length (rest x))) k x = Some z) in H.
    apply (@repeat_matcher_sound r1 false (groups_of r1) IH1) in H. exact H.
  - apply orelse_inv in H as [H | [_ H]].
    + apply IH1 in H as (w & y & Hadv & Hm & Hk).
      destruct (length (rest y) <? length (rest x)); [|discriminate].
      exists w, y. split; [exact Hadv|]. split; [apply M_Opt1; exact Hm|exact Hk].
    + exists [], x. split; [apply advances_refl|]. split; [constructor|exact H].
  - apply IH1 in H as (w & y & Hadv & Hm & Hk).
    exists w, (set_cap n (consumed x y) y). split; [exact Hadv|].
    split; [constructor; exact Hm|exact Hk].
  - destruct (before x) eqn:E; [|discriminate].
    exists [], x. split; [apply advances_refl|]. split; [|exact H].
    constructor.
  - destruct (xorb (word_at (before x)) (word_at (rest x))) eqn:E; [|discriminate].
    exists [], x. split; [apply advances_refl|]. split; [|exact H].
    constructor. exact E.
Qed.

Lemma consumed_advances (x y : mstate) (w : list ascii) :
  advances x w y -> consumed x y = w.
Proof.
  intros [H _]. unfold consumed. rewrite H, length_app.
  replace (length w + length (rest y) - length (rest y)) with (length w) by lia.
  rewrite firstn_app, firstn_all, Nat.sub_diag. simpl. apply app_nil_r.
Qed.

Lemma search_sound (r : regex) (s bef : list ascii) (mt : match_result) :
  search r bef s = Some mt ->
  exists pre w post,
    s = pre ++ w ++ post /\ matches r (rev pre ++ bef) w post /\
    whole mt = w /\ index mt = length bef + length pre.
Proof.
  revert bef. induction s as [|c s IH]; intros bef H; simpl in H.
  - destruct (m r (fun y => Some y) (MState bef [] [])) as [y|] eqn:E; [|discriminate].
    injection H as <-.
    apply m_sound in E as (w & y' & Hadv & Hm & Hk). injection Hk as ->.
    exists [], w, (rest y). simpl. destruct Hadv as [E1 E2]. simpl in *.
    repeat split; auto.
    apply (@consumed_advances (MState bef [] []) y w). split; assumption.
  - destruct (m r (fun y => Some y) (MState bef (c :: s) [])) as [y|] eqn:E.
    + injection H as <-.
      apply m_sound in E as (w & y' & Hadv & Hm & Hk). injection Hk as ->.
      exists [], w, (rest y). simpl. destruct Hadv as [E1 E2]. simpl in *.
      repeat split; auto.
      apply (@consumed_advances (MState bef (c :: s) []) y w). split; assumption.
    + apply IH in H as (pre & w & post & Hs & Hm & Hw & Hi).
      exists (c :: pre), w, post. simpl. rewrite <- app_assoc. simpl.
      repeat split; auto; [congruence|]. simpl in Hi. lia.
Qed.

(** A successful [str.match(re)] returns a part of [str] that the pattern
    can match in its context. *)
Lemma exec_sound (r : regex) (s : jsstring) (mt : match_result) :
  exec r s = Some mt ->
  exists pre w post,
    s = pre ++ w ++ post /\ matches r (rev pre) w post /\
    whole mt = w /\ index mt = length pre.
Proof.
  intro H. apply search_sound in H as (pre & w & post & Hs & Hm & Hw & Hi).
  exists pre, w, post. rewrite app_nil_r in Hm. auto.
Qed.

Lemma matches_first_literal (r : regex) (bef w aft : list ascii) (c : ascii) :
  matches r bef w aft -> first_literal r = Some c -> exists w', w = c :: w'.
Proof.
  intro H. induction H; simpl; intro F; try discriminate.
  - injection F as ->. exists []. reflexivity.
  - destruct (IHmatches1 F) as [w' ->]. exists (w' ++ w2). reflexivity.
  - apply IHmatches. exact F.
Qed.

(* ================================================================= *)
(** ** Names taken from capture groups, and the fall-back (C3) *)

Lemma trimStart_keeps (c : ascii) (l : jsstring) :
  In c l -> is_ws c = false -> In c (trimStart l).
Proof.
  intros Hin Hc. induction l as [|d l IH]; simpl; [contradiction|].
  destruct (is_ws d) eqn:E; [|exact Hin].
  destruct Hin as [-> | Hin]; [congruence|]. apply IH. exact Hin.
Qed.

Lemma trim_keeps (c : ascii) (l : jsstring) :
  In c l -> is_ws c = false -> In c (trim l).
Proof.
  intros Hin Hc. unfold trim, trimEnd.
  apply in_rev. rewrite rev_involutive. apply trimStart_keeps; [|exact Hc].
  apply in_rev. rewrite rev_involutive. apply trimStart_keeps; assumption.
Qed.

(** A line matched by a pattern that starts with a visible literal does
    not trim to the empty text. *)
Lemma matched_line_not_blank (r : regex) (l : jsstring) (mt : match_result) (c : ascii) :
  exec r l = Some mt -> first_literal r = Some c -> is_ws c = false -> trim l <> [].
Proof.
  intros He Hf Hc. apply exec_sound in He as (pre & w & post & Hl & Hm & _ & _).
  destruct (matches_first_literal Hm Hf) as [w' ->].
  assert (Hin : In c (trim l)).
  { apply trim_keeps; [|exact Hc]. rewrite Hl. apply in_or_app. right. left. reflexivity. }
  intro E. rewrite E in Hin. exact Hin.
Qed.

Lemma typePatterns_start_visible (language : jsstring) (ps : list regex) (p : regex) :
  typePatterns language = Some ps -> In p ps ->
  exists c, first_literal p = Some c /\ is_ws c = false.
Proof.
  unfold typePatterns.
  repeat match goal with
         | |- context [streq language ?s] => destruct (streq language s)
         end;
    intros [= <-] Hin; simpl in Hin;
    repeat match goal with
           | H : _ \/ _ |- _ => destruct H as [<- | H]
           | H : False |- _ => contradiction
           end;
    eexists; split; reflexivity.
Qed.

Lemma first_match_in (ps : list regex) (l : jsstring) (mt : match_result) :
  first_match ps l = Some mt -> exists p, In p ps /\ exec p l = Some mt.
Proof.
  intro H. apply first_match_first_matching in H as (p & b & a & -> & _ & Hp).
  exists p. split; [apply in_or_app; right; left; reflexivity|exact Hp].
Qed.

Lemma comment_step_names (p : comment_patterns) (st : comment_state)
      (line : jsstring) (n : nat) :
  Forall (fun e => Element.name e = comment_name (Element.line e)) (comments st) ->
  Forall (fun e => Element.name e = comment_name (Element.line e))
         (comments (comment_step p st line n)).
Proof.
  intro H. unfold comment_step.
  destruct (inMultiLineComment st).
  - destruct (exec (multiLineCommentEnd p) line); simpl; [|exact H].
    apply Forall_app; split; [exact H|repeat constructor].
  - assert (H1 : Forall (fun e => Element.name e = comment_name (Element.line e))
                        match exec (singleLineComment p) line with
                        | Some singleLineMatch =>
                            comments st ++
                              [Element.Build SingleLineComment (comment_name n) n
                                 (trim (group_text singleLineMatch 1))]
                        | None => comments st
                        end).
    { destruct (exec (singleLineComment p) line); [|exact H].
      apply Forall_app; split; [exact H|repeat constructor]. }
    destruct (exec (multiLineCommentStart p) line); simpl; [|exact H1].
    destruct (exec (multiLineCommentEnd p) line); simpl; [|exact H1].
    apply Forall_app; split; [exact H1|repeat constructor].
Qed.

Lemma extractComments_names (content language : jsstring) :
  Forall (fun e => Element.name e = comment_name (Element.line e))
         (extractComments content language).
Proof.
  unfold extractComments. destruct (commentPatterns language) as [p|]; [|constructor].
  assert (G : forall lines st i,
             Forall (fun e => Element.name e = comment_name (Element.line e)) (comments st) ->
             Forall (fun e => Element.name e = comment_name (Element.line e))
                    (comments (comment_loop p st lines i))).
  { induction lines as [|l lines IH]; intros st i H; simpl; [exact H|].
    apply IH. apply comment_step_names. exact H. }
  apply G. constructor.
Qed.

(* ================================================================= *)
(** ** Substrings *)

Lemma startsWith_iff (s p : jsstring) :
  startsWith s p = true <-> exists t, s = p ++ t.
Proof.
  revert s. induction p as [|x p IH]; intro s; simpl.
  - split; [intros _; exists s; reflexivity|intros _; destruct s; reflexivity].
  - destruct s as [|y s]; simpl.
    + split; [discriminate|intros [t H]; discriminate].
    + rewrite andb_true_iff, Ascii.eqb_eq, IH. split.
      * intros [-> [t ->]]. exists t. reflexivity.
      * intros [t [= -> ->]]. split; [reflexivity|exists t; reflexivity].
Qed.

Lemma includes_nil (p : jsstring) : includes [] p = startsWith [] p.
Proof. simpl. apply orb_false_r. Qed.

Lemma includes_cons (c : ascii) (s p : jsstring) :
  includes (c :: s) p = startsWith (c :: s) p || includes s p.
Proof. reflexivity. Qed.

Lemma includes_iff (s p : jsstring) :
  includes s p = true <-> exists pre post, s = pre ++ p ++ post.
Proof.
  induction s as [|c s IH].
  - rewrite includes_nil, startsWith_iff. split.
    + intros [t H]. exists [], t. exact H.
    + intros (pre & post & H). destruct pre as [|d pre]; [|discriminate].
      exists post. exact H.
  - rewrite includes_cons, orb_true_iff, startsWith_iff, IH. split.
    + intros [[t H] | (pre & post & ->)].
      * exists [], t. exact H.
      * exists (c :: pre), post. reflexivity.
    + intros (pre & post & H). destruct pre as [|d pre].
      * left. exists post. exact H.
      * right. injection H as _ ->. exists pre, post. reflexivity.
Qed.

Lemma not_includes (s p pre post : jsstring) :
  includes s p = false -> s <> pre ++ p ++ post.
Proof.
  intros H E. assert (includes s p = true) by (apply includes_iff; eauto). congruence.
Qed.

(* ================================================================= *)
(** ** The comment markers

    What the patterns of the languages with [//] and [/* */] comments do
    on a line, in terms of the substrings of the line. *)

Lemma filter_all {A : Type} (l : list A) : filter (fun _ => true) l = l.
Proof. induction l; simpl; congruence. Qed.

Lemma clear_no_caps (x : mstate) : clear_caps [] x = x.
Proof. destruct x. unfold clear_caps. simpl. rewrite filter_all. reflexivity. Qed.

(** A greedy run of one-character steps, followed by a continuation that
    cannot fail, takes the longest run. *)
Lemma greedy_run (p : ascii -> bool) (k : cont) :
  (forall y, k y <> None) ->
  forall fuel bef s cs,
    length s < fuel ->
    repeat_matcher (char_matcher p) [] true fuel k (MState bef s cs) =
    k (MState (rev (take_while p s) ++ bef) (skipn (length (take_while p s)) s) cs).
Proof.
  intros Hk. induction fuel as [|fuel IH]; intros bef s cs Hf; [lia|].
  simpl repeat_matcher. rewrite clear_no_caps. unfold char_matcher at 1. simpl rest.
  destruct s as [|c s]; simpl.
  - reflexivity.
  - destruct (p c) eqn:Hp; simpl; [|reflexivity].
    replace (length s <? S (length s)) with true by (symmetry; apply Nat.ltb_lt; lia).
    rewrite IH by (simpl in Hf; lia).
    rewrite <- app_assoc. simpl.
    destruct (k _) eqn:E; [reflexivity|]. exfalso. exact (Hk _ E).
Qed.

Lemma take_while_prefix (p : ascii -> bool) (s : jsstring) :
  s = take_while p s ++ skipn (length (take_while p s)) s.
Proof.
  induction s as [|c s IH]; simpl; [reflexivity|].
  destruct (p c); simpl; [f_equal; exact IH|reflexivity].
Qed.

(** A literal string matches where the input starts with it. *)
Lemma m_lit (s : jsstring) (k : cont) (bef t : list ascii) (cs : list (nat * jsstring)) :
  m (lit s) k (MState bef t cs) =
  if startsWith t s then k (MState (rev s ++ bef) (skipn (length s) t) cs) else None.
Proof.
  revert bef t. induction s as [|c s IH]; intros bef t.
  - destruct t; reflexivity.
  - assert (Hstep : m (Seq (Lit c) (lit s)) k (MState bef t cs) =
                    if startsWith t (c :: s)
                    then k (MState (rev (c :: s) ++ bef) (skipn (length (c :: s)) t) cs)
                    else None).
    { cbn [m]. unfold char_matcher at 1. cbn [rest before caps].
      destruct t as [|d t]; [reflexivity|]. cbn [startsWith].
      destruct (Ascii.eqb c d) eqn:E; [|reflexivity].
      apply Ascii.eqb_eq in E. subst d. rewrite IH. cbn [andb skipn length rev].
      rewrite <- app_assoc. reflexivity. }
    destruct s as [|d s]; [|exact Hstep].
    cbn [lit m]. unfold char_matcher. cbn [rest before caps].
    destruct t as [|e t]; [reflexivity|]. cbn [startsWith].
    destruct (Ascii.eqb c e) eqn:E; [|reflexivity].
    apply Ascii.eqb_eq in E. subst e. destruct t; reflexivity.
Qed.

(** The pattern made of a literal marker followed by a captured greedy
    run of [.]: at a position where the marker stands, it captures the
    text up to the line terminator. *)
Lemma marker_here (s : jsstring) (bef t : list ascii) :
  startsWith t s = true ->
  exists y,
    m (cat [lit s; Group 1 (Star Dot)]) (fun y => Some y) (MState bef t []) = Some y /\
    caps y = [(1, to_line_terminator (skipn (length s) t))].
Proof.
  intro Hsw. cbn [cat m]. rewrite m_lit, Hsw. cbn [m groups_of rest].
  rewrite greedy_run by (discriminate || lia).
  eexists. split; [reflexivity|]. unfold set_cap. cbn [caps filter]. f_equal. f_equal.
  unfold consumed, to_line_terminator. cbn [rest].
  set (u := skipn (length s) t).
  set (tw := take_while (fun c => negb (is_line_terminator c)) u).
  rewrite length_skipn.
  pose proof (take_while_prefix (fun c => negb (is_line_terminator c)) u) as P.
  fold tw in P.
  assert (length tw <= length u).
  { pose proof (f_equal (@length ascii) P) as L. rewrite length_app in L. lia. }
  replace (length u - (length u - length tw)) with (length tw) by lia.
  rewrite P at 1.
  rewrite firstn_app, firstn_all, Nat.sub_diag. simpl. apply app_nil_r.
Qed.

Lemma marker_not_here (s : jsstring) (bef t : list ascii) :
  startsWith t s = false ->
  m (cat [lit s; Group 1 (Star Dot)]) (fun y => Some y) (MState bef t []) = None.
Proof. intro H. cbn [cat m]. rewrite m_lit, H. reflexivity. Qed.

Lemma search_marker (s t bef : list ascii) :
  match search (cat [lit s; Group 1 (Star Dot)]) bef t with
  | Some mt =>
      includes t s = true /\
      group mt 1 = Some (to_line_terminator (after_first s t))
  | None => includes t s = false
  end.
Proof.
  revert bef. induction t as [|c t IH]; intro bef.
  - cbn [search]. rewrite includes_nil. cbn [after_first].
    destruct (startsWith [] s) eqn:Hsw.
    + destruct (@marker_here s bef [] Hsw) as (y & Hy & Hc). rewrite Hy.
      split; [reflexivity|]. unfold group. cbn [groups]. rewrite Hc. reflexivity.
    + rewrite marker_not_here by exact Hsw. reflexivity.
  - cbn [search]. rewrite includes_cons. cbn [after_first].
    destruct (startsWith (c :: t) s) eqn:Hsw.
    + destruct (@marker_here s bef (c :: t) Hsw) as (y & Hy & Hc). rewrite Hy.
      split; [reflexivity|]. unfold group. cbn [groups]. rewrite Hc. reflexivity.
    + rewrite marker_not_here by exact Hsw.
      specialize (IH (c :: bef)).
      destruct (search _ (c :: bef) t) as [mt|].
      * destruct IH as [Hi Hg]. split; [rewrite Hi; reflexivity|exact Hg].
      * rewrite IH. reflexivity.
Qed.

(** The single-line and the block-start patterns of the C-style
    languages, and the single-line pattern of python. *)
Lemma exec_marker (s l : jsstring) :
  match exec (cat [lit s; Group 1 (Star Dot)]) l with
  | Some mt =>
      includes l s = true /\
      group mt 1 = Some (to_line_terminator (after_first s l))
  | None => includes l s = false
  end.
Proof. apply search_marker. Qed.

(** The block-end pattern of the C-style languages matches exactly the
    lines that hold the closing marker. *)
Lemma closer_here (a b : ascii) (bef s : list ascii) :
  m (cat [Group 1 (StarLazy Dot); lit [a; b]]) (fun y => Some y)
    (MState bef (a :: b :: s) []) <> None.
Proof.
  cbn [cat lit m]. cbn [repeat_matcher rest]. 
  unfold char_matcher at 1 2. cbn [rest before caps set_cap]. rewrite !Ascii.eqb_refl. simpl. discriminate.
Qed.

Lemma search_closer (a b : ascii) (s bef : list ascii) :
  includes s [a; b] = true ->
  search (cat [Group 1 (StarLazy Dot); lit [a; b]]) bef s <> None.
Proof.
  revert bef. induction s as [|c s IH]; intros bef H.
  - simpl in H. discriminate.
  - cbn [search].
    destruct (m _ _ (MState bef (c :: s) [])) eqn:E; [discriminate|].
    rewrite includes_cons in H. apply orb_true_iff in H as [H | H].
    + exfalso. apply startsWith_iff in H as [t Ht]. simpl in Ht. injection Ht as -> ->.
      exact (closer_here a b bef t E).
    + apply IH. exact H.
Qed.

Lemma exec_closer (a b : ascii) (s : jsstring) :
  exec (cat [Group 1 (StarLazy Dot); lit [a; b]]) s = None <-> includes s [a; b] = false.
Proof.
  split.
  - intro H. destruct (includes s [a; b]) eqn:E; [|reflexivity].
    exfalso. exact (@search_closer a b s [] E H).
  - intro H. destruct (exec _ s) as [mt|] eqn:E; [|reflexivity]. exfalso.
    apply exec_sound in E as (pre & w & post & Hs & Hm & _ & _).
    cbn [cat lit] in Hm. inversion Hm as [| | | | | r1 r2 bf w1 w2 af Hm1 Hm2 | | | | | | | | | | |];
      subst.
    inversion Hm2 as [| | | | | r1' r2' bf' w1' w2' af' Hm1' Hm2' | | | | | | | | | | |];
      subst.
    inversion Hm1'; subst. inversion Hm2'; subst.
    apply (@not_includes (pre ++ (w1 ++ [a] ++ [b]) ++ post) [a; b] (pre ++ w1) post H).
    rewrite <- !app_assoc. reflexivity.
Qed.

(* ================================================================= *)
(** ** Comments of the C-style languages, line by line *)

Lemma c_style_languages (language : jsstring) :
  In language [js "javascript"; js "typescript"; js "java"; js "go"] ->
  commentPatterns language = Some c_style_comments.
Proof.
  simpl. intros [<- | [<- | [<- | [<- | []]]]]; reflexivity.
Qed.

Lemma exec_single (l : jsstring) :
  match exec (singleLineComment c_style_comments) l with
  | Some mt => includes l "//" = true /\
               group mt 1 = Some (to_line_terminator (after_first "//" l))
  | None => includes l "//" = false
  end.
Proof. exact (exec_marker "//" l). Qed.

Lemma exec_start (l : jsstring) :
  match exec (multiLineCommentStart c_style_comments) l with
  | Some mt => includes l "/*" = true /\
               group mt 1 = Some (to_line_terminator (after_first "/*" l))
  | None => includes l "/*" = false
  end.
Proof. exact (exec_marker "/*" l). Qed.

Lemma exec_end (l : jsstring) :
  exec (multiLineCommentEnd c_style_comments) l = None <-> includes l "*/" = false.
Proof. exact (exec_closer "*" "/" l). Qed.

Lemma block_content (g : jsstring) :
  match or_else (Some g) (Some []) with Some c => c | None => [] end = g.
Proof. destruct g; reflexivity. Qed.

(** Outside a block, on a line without [/*]: the line contributes its
    single-line comment, if it has one, and the block state is left
    alone. *)
Lemma step_no_block (st : comment_state) (l : jsstring) (n : nat) :
  inMultiLineComment st = false -> includes l "/*" = false ->
  comment_step c_style_comments st l n =
  CommentState
    (comments st ++
       if includes l "//"
       then [Element.Build SingleLineComment (comment_name n) n
                           (trim (to_line_terminator (after_first "//" l)))]
       else [])
    false (multiLineContent st) (multiLineStartLine st).
Proof.
  intros Hin Hb. unfold comment_step. rewrite Hin.
  pose proof (exec_start l) as Hs.
  destruct (exec (multiLineCommentStart c_style_comments) l) as [ms|];
    [destruct Hs; congruence|].
  pose proof (exec_single l) as H1.
  destruct (exec (singleLineComment c_style_comments) l) as [mt|].
  - destruct H1 as [-> Hg]. unfold group_text. rewrite Hg. reflexivity.
  - rewrite H1, app_nil_r. reflexivity.
Qed.

(** Outside a block, on a line with [/*]: after the single-line comment of
    the line, if any, the block is emitted at once when the line also
    holds the closing marker, and opened otherwise. *)
Lemma step_block_start (st : comment_state) (l : jsstring) (n : nat) :
  inMultiLineComment st = false -> includes l "/*" = true ->
  comment_step c_style_comments st l n =
  let comments1 :=
    comments st ++
      if includes l "//"
      then [Element.Build SingleLineComment (comment_name n) n
                          (trim (to_line_terminator (after_first "//" l)))]
      else [] in
  if includes l "*/"
  then CommentState
         (comments1 ++ [Element.Build MultiLineComment (comment_name n) n
                                      (to_line_terminator (after_first "/*" l))])
         false [] n
  else CommentState comments1 true (to_line_terminator (after_first "/*" l)) n.
Proof.
  intros Hin Hb. unfold comment_step. rewrite Hin.
  pose proof (exec_start l) as Hs.
  destruct (exec (multiLineCommentStart c_style_comments) l) as [ms|]; [|congruence].
  destruct Hs as [_ Hg]. rewrite Hg, block_content.
  pose proof (exec_single l) as H1.
  pose proof (exec_end l) as He.
  destruct (exec (multiLineCommentEnd c_style_comments) l) as [me|].
  - assert (includes l "*/" = true) as ->.
    { destruct (includes l "*/"); [reflexivity|]. destruct He as [_ He]. discriminate He. reflexivity. }
    destruct (exec (singleLineComment c_style_comments) l) as [mt|].
    + destruct H1 as [-> Hg1]. unfold group_text. rewrite Hg1. reflexivity.
    + rewrite H1, app_nil_r. reflexivity.
  - destruct He as [He _]. rewrite (He eq_refl).
    destruct (exec (singleLineComment c_style_comments) l) as [mt|].
    + destruct H1 as [-> Hg1]. unfold group_text. rewrite Hg1. reflexivity.
    + rewrite H1, app_nil_r. reflexivity.
Qed.

(** Inside a block: the line is appended to the content, and the block is
    emitted when the line holds the closing marker. *)
Lemma step_in_block (st : comment_state) (l : jsstring) (n : nat) :
  inMultiLineComment st = true ->
  comment_step c_style_comments st l n =
  let content' := multiLineContent st ++ "010"%char :: l in
  if includes l "*/"
  then CommentState
         (comments st ++
            [Element.Build MultiLineComment (comment_name (multiLineStartLine st))
                           (multiLineStartLine st) content'])
         false [] (multiLineStartLine st)
  else CommentState (comments st) true content' (multiLineStartLine st).
Proof.
  intros Hin. unfold comment_step. rewrite Hin.
  pose proof (exec_end l) as He.
  destruct (exec (multiLineCommentEnd c_style_comments) l) as [me|].
  - assert (includes l "*/" = true) as ->; [|reflexivity].
    destruct (includes l "*/"); [reflexivity|]. destruct He as [_ He]. discriminate He. reflexivity.
  - destruct He as [He _]. rewrite (He eq_refl). reflexivity.
Qed.

Lemma comment_loop_app (p : comment_patterns) (a b : list jsstring)
      (st : comment_state) (i : nat) :
  comment_loop p st (a ++ b) i =
  comment_loop p (comment_loop p st a i) b (i + length a).
Proof.
  revert st i. induction a as [|l a IH]; intros st i; simpl.
  - rewrite Nat.add_0_r. reflexivity.
  - rewrite IH. f_equal. lia.
Qed.

(** The lines of an open block that do not close it only extend its
    content. *)
Lemma loop_in_block (middle : list jsstring) (st : comment_state) (i : nat) :
  inMultiLineComment st = true ->
  Forall (fun l => includes l "*/" = false) middle ->
  comment_loop c_style_comments st middle i =
  CommentState (comments st) true
               (fold_left (fun acc l => acc ++ "010"%char :: l) middle (multiLineContent st))
               (multiLineStartLine st).
Proof.
  revert st i. induction middle as [|l middle IH]; intros st i Hin Hm; simpl.
  - destruct st; simpl in *. subst. reflexivity.
  - inversion Hm as [|? ? Hl Hm']; subst.
    rewrite step_in_block by exact Hin. cbv zeta. rewrite Hl.
    rewrite IH by (reflexivity || assumption). reflexivity.
Qed.

(** The loop over the lines of one well-formed item, outside a block. *)
Lemma loop_item (it : item) (st : comment_state) (i : nat) :
  inMultiLineComment st = false -> well_formed_item it ->
  exists st',
    comment_loop c_style_comments st (item_lines it) i = st' /\
    inMultiLineComment st' = false /\
    comments st' = comments st ++ expected_of_item it (i + 1).
Proof.
  intros Hin Hwf.
  destruct it as [l | l | l | first middle last]; cbn [well_formed_item] in Hwf.
  - destruct Hwf as [H1 H2]. cbn [item_lines comment_loop].
    rewrite step_no_block by assumption.
    rewrite H1, app_nil_r. eexists. split; [reflexivity|]. split; [reflexivity|].
    cbn [comments expected_of_item]. rewrite app_nil_r. reflexivity.
  - destruct Hwf as [H1 H2]. cbn [item_lines comment_loop].
    rewrite step_no_block by assumption.
    rewrite H1. eexists. split; [reflexivity|]. split; reflexivity.
  - destruct Hwf as (H1 & H2 & H3). cbn [item_lines comment_loop].
    rewrite step_block_start by assumption.
    cbv zeta. rewrite H2, H3, app_nil_r.
    eexists. split; [reflexivity|]. split; reflexivity.
  - destruct Hwf as (H1 & H2 & H3 & H4 & H5).
    cbn [item_lines comment_loop]. rewrite step_block_start by assumption.
    cbv zeta. rewrite H2, H3, app_nil_r.
    rewrite comment_loop_app.
    rewrite loop_in_block with (middle := middle) by (reflexivity || exact H4).
    cbn [comment_loop]. rewrite step_in_block by reflexivity.
    cbv zeta. rewrite H5. cbn [comments multiLineContent multiLineStartLine].
    eexists. split; [reflexivity|]. split; [reflexivity|].
    cbn [comments expected_of_item]. rewrite fold_left_app. reflexivity.
Qed.

Lemma loop_layout (layout : list item) (st : comment_state) (i : nat) :
  inMultiLineComment st = false -> Forall well_formed_item layout ->
  exists st',
    comment_loop c_style_comments st (layout_lines layout) i = st' /\
    inMultiLineComment st' = false /\
    comments st' = comments st ++ expected layout (i + 1).
Proof.
  revert st i. induction layout as [|it layout IH]; intros st i Hin Hwf.
  - exists st. simpl. rewrite app_nil_r. auto.
  - inversion Hwf as [|? ? Hit Hwf']; subst.
    cbn [layout_lines flat_map]. rewrite comment_loop_app.
    destruct (@loop_item it st i Hin Hit) as (st1 & -> & Hin1 & Hc1).
    destruct (IH st1 (i + length (item_lines it)) Hin1 Hwf') as (st2 & E2 & Hin2 & Hc2).
    exists st2. split; [exact E2|]. split; [exact Hin2|].
    rewrite Hc2, Hc1, <- app_assoc. cbn [expected].
    replace (i + length (item_lines it) + 1) with (i + 1 + length (item_lines it)) by lia.
    reflexivity.
Qed.

Lemma expected_length (layout : list item) (n : nat) :
  length (expected layout n) = singles layout + blocks layout.
Proof.
  unfold singles, blocks. revert n.
  induction layout as [|it layout IH]; intro n; [reflexivity|].
  cbn [expected]. rewrite length_app, IH. destruct it; simpl; lia.
Qed.

Lemma matches_lit (s : jsstring) (bef w aft : list ascii) :
  matches (lit s) bef w aft -> w = s.
Proof.
  revert bef w. induction s as [|c s IH]; intros bef w H.
  - inversion H. reflexivity.
  - destruct s as [|d s].
    + inversion H. reflexivity.
    + cbn [lit] in H. inversion H as [| | | | | r1 r2 bf w1 w2 af H1 H2 | | | | | | | | | | |];
        subst.
      inversion H1; subst. apply IH in H2. subst. reflexivity.
Qed.

(* ================================================================= *)
(** ** Comments of python, line by line *)

Lemma matches_triple_quote (bef w aft : list ascii) :
  matches triple_quote bef w aft ->
  w = [squote; squote; squote] \/ w = [dquote; dquote; dquote].
Proof.
  unfold triple_quote. intro H.
  inversion H as [| | | | | | r1 r2 bf w0 af Hq | r1 r2 bf w0 af Hq | | | | | | | | |]; subst.
  - left. exact (@matches_lit [squote; squote; squote] _ _ _ Hq).
  - right. exact (@matches_lit [dquote; dquote; dquote] _ _ _ Hq).
Qed.

(** The block-start pattern of python only matches lines that hold a
    triple quote. *)
Lemma python_start_needs_quotes (l : jsstring) :
  no_triple_quote l -> exec (multiLineCommentStart python_comments) l = None.
Proof.
  intros [H1 H2].
  destruct (exec _ l) as [mt|] eqn:E; [exfalso|reflexivity].
  apply exec_sound in E as (pre & w & post & Hl & Hm & _ & _).
  cbn [multiLineCommentStart python_comments cat] in Hm.
  inversion Hm as [| | | | | r1 r2 bf w1 w2 af Hm1 Hm2 | | | | | | | | | | |]; subst.
  inversion Hm1 as [| | | | | | | | | | | | | | n r bf w af Hq | |]; subst.
  apply matches_triple_quote in Hq as [-> | ->].
  - apply (@not_includes (pre ++ ([squote; squote; squote] ++ w2) ++ post)
                         [squote; squote; squote] pre (w2 ++ post) H1).
    rewrite <- !app_assoc. reflexivity.
  - apply (@not_includes (pre ++ ([dquote; dquote; dquote] ++ w2) ++ post)
                         [dquote; dquote; dquote] pre (w2 ++ post) H2).
    rewrite <- !app_assoc. reflexivity.
Qed.

(** Outside a block, a line that the block-start pattern does not match
    contributes its single-line comment, if it has one. *)
Lemma step_without_block_start (p : comment_patterns) (marker : jsstring)
      (st : comment_state) (l : jsstring) (n : nat) :
  singleLineComment p = cat [lit marker; Group 1 (Star Dot)] ->
  inMultiLineComment st = false ->
  exec (multiLineCommentStart p) l = None ->
  comment_step p st l n =
  CommentState (comments st ++ single_of marker l n) false
               (multiLineContent st) (multiLineStartLine st).
Proof.
  intros Hp Hin Hs. unfold comment_step, single_of. rewrite Hin, Hs, Hp.
  pose proof (exec_marker marker l) as H1.
  destruct (exec (cat [lit marker; Group 1 (Star Dot)]) l) as [mt|].
  - destruct H1 as [-> Hg]. unfold group_text. rewrite Hg. reflexivity.
  - rewrite H1, app_nil_r. reflexivity.
Qed.

Lemma python_loop (lines : list jsstring) (st : comment_state) (i : nat) :
  inMultiLineComment st = false -> Forall no_triple_quote lines ->
  comments (comment_loop python_comments st lines i) =
  comments st ++ expected_singles "#" lines (i + 1).
Proof.
  revert st i. induction lines as [|l lines IH]; intros st i Hin Hq.
  - simpl. rewrite app_nil_r. reflexivity.
  - inversion Hq as [|? ? Hl Hq']; subst. cbn [comment_loop expected_singles].
    rewrite (@step_without_block_start python_comments (js "#") st l (i + 1) eq_refl Hin
               (python_start_needs_quotes Hl)).
    rewrite IH by (reflexivity || assumption).
    cbn [comments]. rewrite <- app_assoc. reflexivity.
Qed.

Lemma expected_singles_length (marker : jsstring) (lines : list jsstring) (n : nat) :
  length (expected_singles marker lines n) =
  length (filter (fun l => includes l marker) lines).
Proof.
  revert n. induction lines as [|l lines IH]; intro n; [reflexivity|].
  cbn [expected_singles filter]. rewrite length_app, IH. unfold single_of.
  destruct (includes l marker); reflexivity.
Qed.

(** C1, amended.  For javascript, typescript, java and go, take a text
    whose lines form a sequence of items of four kinds: (a) a line
    without [//] and [/*]; (b) a line with [//] and without [/*]; (c) a
    line with [/*] and the closing marker, without [//]; (d) a run of two
    or more lines, the first with [/*] and without [//] and the closing
    marker, the last with the closing marker, and none between them with
    it.  The extraction yields nothing for an item of kind (a) and exactly
    one element for each item of the other kinds, in order, with the
    number of the first line of the item: with N items of kind (b) and M
    items of kinds (c) and (d), N+M elements.  Items are counted, not
    markers: a line of kind (c) is one block however many pairs of
    markers it holds, and what follows the closing marker on the last
    line of an item of kind (d) belongs to the block.  An element of kind
    (b) holds the trimmed text that follows the first [//], up to a
    carriage return; a block holds the raw text from just after the first
    [/*] to the end of its last line, not trimmed.  For python, on a text
    without triple quotes, each line with [#] yields one single-line
    comment with its line number and the trimmed text that follows the
    first [#], and nothing else is extracted.  Strings are sequences of
    Latin-1 code units, where the carriage return is the only line
    terminator that a line can hold. *)
Theorem well_formed_comments_are_counted (content language : jsstring) :
  (forall layout,
      In language [js "javascript"; js "typescript"; js "java"; js "go"] ->
      split_lines content = layout_lines layout ->
      Forall well_formed_item layout ->
      extractComments content language = expected layout 1 /\
      length (extractComments content language) = singles layout + blocks layout) /\
  (language = js "python" ->
   Forall no_triple_quote (split_lines content) ->
   extractComments content language = expected_singles "#" (split_lines content) 1 /\
   length (extractComments content language) =
   length (filter (fun l => includes l "#") (split_lines content))).
Proof.
  split.
  - intros layout Hlang Hlines Hwf.
    assert (E : extractComments content language = expected layout 1).
    { unfold extractComments. rewrite (@c_style_languages language Hlang), Hlines.
      destruct (@loop_layout layout (CommentState [] false [] 0) 0 eq_refl Hwf)
        as (st' & -> & _ & Hc).
      exact Hc. }
    split; [exact E|]. rewrite E. apply expected_length.
  - intros -> Hq.
    assert (E : extractComments content "python" =
                expected_singles "#" (split_lines content) 1).
    { unfold extractComments.
      change (commentPatterns "python") with (Some python_comments).
      apply (@python_loop (split_lines content) (CommentState [] false [] 0) 0 eq_refl Hq). }
    split; [exact E|]. rewrite E. apply expected_singles_length.
Qed.

(* ================================================================= *)
(** ** Unterminated blocks (C4) *)

(** X1. In the C-style languages, a block that is opened after a
    well-formed text and never closed contributes nothing: the result is
    what the text before it yields, followed by the single-line comment of
    the opening line when it has one. *)
Lemma c_style_unterminated_block_is_dropped (content language : jsstring)
      (layout : list item) (opening : jsstring) (tail : list jsstring) :
  In language [js "javascript"; js "typescript"; js "java"; js "go"] ->
  split_lines content = layout_lines layout ++ opening :: tail ->
  Forall well_formed_item layout ->
  includes opening "/*" = true -> includes opening "*/" = false ->
  Forall (fun l => includes l "*/" = false) tail ->
  extractComments content language =
  expected layout 1 ++
  if includes opening "//"
  then [Element.Build SingleLineComment
          (comment_name (length (layout_lines layout) + 1))
          (length (layout_lines layout) + 1)
          (trim (to_line_terminator (after_first "//" opening)))]
  else [].
Proof.
  intros Hlang Hlines Hwf Ho Hc Ht.
  unfold extractComments. rewrite (@c_style_languages language Hlang), Hlines.
  rewrite comment_loop_app.
  destruct (@loop_layout layout (CommentState [] false [] 0) 0 eq_refl Hwf)
    as (st' & -> & Hin & Hcs).
  cbn [comment_loop]. rewrite step_block_start by assumption.
  cbv zeta. rewrite Hc.
  rewrite loop_in_block with (middle := tail) by (reflexivity || exact Ht).
  cbn [comments]. rewrite Hcs. reflexivity.
Qed.

(** C4, the failing input: in python the block-end pattern matches the
    opening quotes themselves, so a block that is opened and never closed
    is emitted at once, with the quotes as its content. *)
Theorem python_unterminated_block_is_emitted :
  extractComments (join_lines [[dquote; dquote; dquote]; js "never closed"]) "python" =
  [Element.Build MultiLineComment "Comment at line 1" 1 [dquote; dquote; dquote]].
Proof. vm_compute. reflexivity. Qed.

(* ================================================================= *)
(** ** Import blocks of Go (C10) *)

(** A pattern that asks for a keyword followed by white space only
    matches texts that start so. *)
Lemma matches_keyword_space (kw : jsstring) (r : regex) (bef w aft : list ascii) :
  matches (Seq (lit kw) (Seq (Plus ws) r)) bef w aft ->
  exists c w', w = kw ++ c :: w' /\ is_ws c = true.
Proof.
  intro H.
  inversion H as [| | | | | r1 r2 bf w1 w2 af H1 H2 | | | | | | | | | | |]; subst.
  apply matches_lit in H1. subst w1.
  inversion H2 as [| | | | | r1 r2 bf w3 w4 af H3 H4 | | | | | | | | | | |]; subst.
  unfold Plus in H3.
  inversion H3 as [| | | | | r1 r2 bf w5 w6 af H5 H6 | | | | | | | | | | |]; subst.
  inversion H5 as [| | | items c bf af Hc | | | | | | | | | | | | |]; subst.
  exists c, (w6 ++ w4). split.
  - reflexivity.
  - simpl in Hc. rewrite orb_false_r in Hc. exact Hc.
Qed.

Lemma matches_required (r : regex) (bef w aft : list ascii) :
  matches r bef w aft -> Forall (fun p => existsb p w = true) (required r).
Proof.
  intro H. induction H; simpl; try (constructor; fail).
  - constructor; [simpl; rewrite Ascii.eqb_refl; reflexivity|constructor].
  - constructor; [simpl; rewrite H; reflexivity|constructor].
  - constructor; [simpl; rewrite H; reflexivity|constructor].
  - constructor; [simpl; rewrite H; reflexivity|constructor].
  - apply Forall_app; split.
    + eapply Forall_impl; [|exact IHmatches1]. simpl. intros p Hp.
      rewrite existsb_app, Hp. reflexivity.
    + eapply Forall_impl; [|exact IHmatches2]. simpl. intros p Hp.
      rewrite existsb_app, Hp. apply orb_true_r.
  - exact IHmatches.
Qed.

Lemma go_import_patterns :
  importPatterns "go" =
  Some [cat [lit "import"; Plus ws; quote; Group 1 (Star Dot); quote];
        cat [lit "import"; Plus ws; arglist]].
Proof. reflexivity. Qed.

(** No import pattern of Go matches a line without [import] followed by
    white space. *)
Lemma go_line_without_keyword (l : jsstring) (p : regex) (ps : list regex) :
  importPatterns "go" = Some ps -> In p ps -> no_import_keyword l -> exec p l = None.
Proof.
  rewrite go_import_patterns. intros [= <-] Hin Hno.
  destruct (exec p l) as [mt|] eqn:E; [exfalso|reflexivity].
  apply exec_sound in E as (pre & w & post & Hl & Hm & _ & _).
  assert (K : exists c w', w = js "import" ++ c :: w' /\ is_ws c = true).
  { destruct Hin as [<- | [<- | []]];
      exact (@matches_keyword_space (js "import") _ _ _ _ Hm). }
  destruct K as (c & w' & -> & Hc).
  specialize (Hno c Hc).
  apply (@not_includes l (js "import" ++ [c]) pre (w' ++ post) Hno).
  rewrite Hl, <- !app_assoc. reflexivity.
Qed.

(** No import pattern of Go matches a line that holds neither a quote nor
    a closing parenthesis. *)
Lemma go_opening_line (l : jsstring) (p : regex) (ps : list regex) :
  importPatterns "go" = Some ps -> In p ps ->
  ~ In ")"%char l -> ~ In squote l -> ~ In dquote l -> exec p l = None.
Proof.
  rewrite go_import_patterns. intros [= <-] Hin Hp Hs Hd.
  destruct (exec p l) as [mt|] eqn:E; [exfalso|reflexivity].
  apply exec_sound in E as (pre & w & post & Hl & Hm & _ & _).
  apply matches_required in Hm. rewrite Forall_forall in Hm.
  assert (Hw : forall c, In c w -> In c l).
  { intros c Hc. rewrite Hl. apply in_or_app. right. apply in_or_app. left. exact Hc. }
  destruct Hin as [<- | [<- | []]].
  - assert (Hq : existsb (class_mem [CChar squote; CChar dquote]) w = true).
    { apply Hm. simpl. tauto. }
    apply existsb_exists in Hq as (c & Hc & Hq). simpl in Hq.
    rewrite orb_false_r in Hq. apply orb_true_iff in Hq as [Hq | Hq];
      apply Ascii.eqb_eq in Hq; subst c; auto.
  - assert (Hq : existsb (Ascii.eqb ")"%char) w = true).
    { apply Hm. simpl. tauto. }
    apply existsb_exists in Hq as (c & Hc & Hq).
    apply Ascii.eqb_eq in Hq. subst c. auto.
Qed.

Lemma first_match_none (ps : list regex) (l : jsstring) :
  (forall p, In p ps -> exec p l = None) -> first_match ps l = None.
Proof.
  induction ps as [|p ps IH]; intro H; simpl; [reflexivity|].
  rewrite (H p) by (left; reflexivity). apply IH. intros q Hq. apply H. right. exact Hq.
Qed.

(** C10, amended.  In a Go text, take a parenthesised import block whose
    opening line holds no closing parenthesis and no quote, and whose
    interior and closing lines hold no [import] followed by white space
    (quoted package paths, the closing parenthesis).  No element of the
    result lies on a line of the block: neither the header nor the
    package paths are extracted.  The two conditions are needed: each
    pattern is tried on every line by itself, so a header that holds a
    closing parenthesis, or an interior line that holds [import], white
    space and a quoted text, is extracted. *)
Theorem go_import_block_yields_nothing (content : jsstring)
        (before_block : list jsstring) (opening : jsstring) (interior : list jsstring)
        (closing : jsstring) (after_block : list jsstring) :
  split_lines content = before_block ++ opening :: interior ++ closing :: after_block ->
  ~ In ")"%char opening -> ~ In squote opening -> ~ In dquote opening ->
  Forall no_import_keyword interior -> no_import_keyword closing ->
  forall e, In e (extractImports content "go") ->
            Element.line e <= length before_block \/
            length before_block + length interior + 2 < Element.line e.
Proof.
  intros Hlines Hp Hs Hd Hint Hclose e He.
  unfold extractImports in He.
  destruct (importPatterns "go") as [ps|] eqn:Hps; [|contradiction].
  apply line_loop_origin in He as (k & l & Hk & Hl & Hin);
    [|intros; eapply import_line_number; eassumption].
  simpl in Hl. rewrite Hl.
  destruct (Nat.lt_ge_cases k (length before_block)) as [Hlt | Hge]; [left; lia|].
  destruct (Nat.lt_ge_cases (length before_block + length interior + 1) k)
    as [Hafter | Hin_block]; [right; lia|].
  exfalso.
  assert (Hnone : first_match ps l = None).
  { apply first_match_none. intros p Hpin.
    rewrite Hlines in Hk. rewrite nth_error_app2 in Hk by exact Hge.
    destruct (k - length before_block) as [|j] eqn:Hj; simpl in Hk.
    - injection Hk as <-. exact (@go_opening_line opening p ps Hps Hpin Hp Hs Hd).
    - apply (@go_line_without_keyword l p ps Hps Hpin).
      destruct (Nat.lt_ge_cases j (length interior)) as [Hji | Hji].
      + rewrite nth_error_app1 in Hk by exact Hji.
        rewrite Forall_forall in Hint. apply Hint. eapply nth_error_In. exact Hk.
      + rewrite nth_error_app2 in Hk by exact Hji.
        assert (j - length interior = 0) as Hz by lia. rewrite Hz in Hk.
        simpl in Hk. injection Hk as <-. exact Hclose. }
  unfold import_line in Hin. rewrite Hnone in Hin. exact Hin.
Qed.

(* ================================================================= *)
(** ** The fuel of the repetition is never exhausted *)

Lemma repeat_matcher_ext (body : matcher) (gs : list nat) (greedy : bool) :
  (forall k1 k2, (forall y, k1 y = k2 y) -> forall x, body k1 x = body k2 x) ->
  forall fuel k1 k2, (forall y, k1 y = k2 y) ->
                     forall x, repeat_matcher body gs greedy fuel k1 x =
                               repeat_matcher body gs greedy fuel k2 x.
Proof.
  intros Hb. induction fuel as [|fuel IH]; intros k1 k2 Hk x; simpl; [apply Hk|].
  rewrite (Hk x).
  rewrite (Hb (fun y => if length (rest y) <? length (rest x)
                        then repeat_matcher body gs greedy fuel k1 y else None)
              (fun y => if length (rest y) <? length (rest x)
                        then repeat_matcher body gs greedy fuel k2 y else None)).
  - reflexivity.
  - intro y. destruct (length (rest y) <? length (rest x)); [|reflexivity].
    apply IH. exact Hk.
Qed.

(** The matcher only depends on the values of its continuation. *)
Lemma m_ext (r : regex) (k1 k2 : cont) :
  (forall y, k1 y = k2 y) -> forall x, m r k1 x = m r k2 x.
Proof.
  revert k1 k2.
  induction r as [| c | | items | items | r1 IH1 r2 IH2 | r1 IH1 r2 IH2
                 | r1 IH1 | r1 IH1 | r1 IH1 | n r1 IH1 | | ];
    intros k1 k2 Hk x; cbn [m];
    try (unfold char_matcher; destruct (rest x) as [|c' t]; [reflexivity|];
         match goal with |- context [if ?b then _ else _] => destruct b end;
         [apply Hk|reflexivity]).
  - apply Hk.
  - apply IH1. intro y. apply IH2. exact Hk.
  - rewrite (IH1 k1 k2 Hk x), (IH2 k1 k2 Hk x). reflexivity.
  - apply repeat_matcher_ext; [exact IH1|exact Hk].
  - apply repeat_matcher_ext; [exact IH1|exact Hk].
  - rewrite (Hk x).
    rewrite (IH1 (fun y => if length (rest y) <? length (rest x) then k1 y else None)
                 (fun y => if length (rest y) <? length (rest x) then k2 y else None)).
    + reflexivity.
    + intro y. destruct (length (rest y) <? length (rest x)); [apply Hk|reflexivity].
  - apply IH1. intro y. apply Hk.
  - destruct (before x); [apply Hk|reflexivity].
  - destruct (xorb _ _); [apply Hk|reflexivity].
Qed.

(** Any fuel above the length of the remaining input gives the same
    result: the fuel chosen by [m] is never exhausted. *)
Lemma repeat_matcher_fuel (r : regex) (gs : list nat) (greedy : bool)
      (fuel1 fuel2 : nat) (k : cont) (x : mstate) :
  length (rest x) < fuel1 -> length (rest x) < fuel2 ->
  repeat_matcher (m r) gs greedy fuel1 k x = repeat_matcher (m r) gs greedy fuel2 k x.
Proof.
  revert fuel2 x. induction fuel1 as [|fuel1 IH]; intros fuel2 x H1 H2; [lia|].
  destruct fuel2 as [|fuel2]; [lia|]. cbn [repeat_matcher].
  rewrite (@m_ext r
             (fun y => if length (rest y) <? length (rest x)
                       then repeat_matcher (m r) gs greedy fuel1 k y else None)
             (fun y => if length (rest y) <? length (rest x)
                       then repeat_matcher (m r) gs greedy fuel2 k y else None)).
  - reflexivity.
  - intro y. destruct (length (rest y) <? length (rest x)) eqn:E; [|reflexivity].
    apply Nat.ltb_lt in E. apply IH; lia.
Qed.

(* ================================================================= *)
(** ** Blocks of python *)

Lemma python_closer_here (q : jsstring) (bef s : list ascii) :
  q = [squote; squote; squote] \/ q = [dquote; dquote; dquote] ->
  m (multiLineCommentEnd python_comments) (fun y => Some y) (MState bef (q ++ s) []) <> None.
Proof.
  intros [-> | ->];
    cbn [multiLineCommentEnd python_comments cat m triple_quote repeat_matcher rest lit app];
    unfold char_matcher; cbn [rest before caps set_cap];
    change (Ascii.eqb squote squote) with true;
    change (Ascii.eqb dquote dquote) with true;
    change (Ascii.eqb squote dquote) with false;
    change (Ascii.eqb dquote squote) with false;
    cbn [orelse]; discriminate.
Qed.

Lemma python_search_closer (q : jsstring) (s bef : list ascii) :
  q = [squote; squote; squote] \/ q = [dquote; dquote; dquote] ->
  includes s q = true ->
  search (multiLineCommentEnd python_comments) bef s <> None.
Proof.
  intros Hq. revert bef. induction s as [|c s IH]; intros bef H.
  - destruct Hq as [-> | ->]; simpl in H; discriminate.
  - cbn [search].
    destruct (m _ _ (MState bef (c :: s) [])) eqn:E; [discriminate|].
    rewrite includes_cons in H. apply orb_true_iff in H as [H | H].
    + exfalso. apply startsWith_iff in H as [t Ht]. rewrite Ht in E.
      exact (@python_closer_here q bef t Hq E).
    + apply IH. exact H.
Qed.

(** In python a line that opens a block also closes it: the block-end
    pattern matches the opening quotes. *)
Lemma python_block_closes_at_once (l : jsstring) :
  exec (multiLineCommentStart python_comments) l <> None ->
  exec (multiLineCommentEnd python_comments) l <> None.
Proof.
  intro H. destruct (exec (multiLineCommentStart python_comments) l) as [mt|] eqn:E;
    [clear H|contradiction].
  apply exec_sound in E as (pre & w & post & Hl & Hm & _ & _).
  cbn [multiLineCommentStart python_comments cat] in Hm.
  inversion Hm as [| | | | | r1 r2 bf w1 w2 af Hm1 Hm2 | | | | | | | | | | |]; subst.
  inversion Hm1 as [| | | | | | | | | | | | | | n r bf w af Hq | |]; subst.
  apply matches_triple_quote in Hq.
  apply (@python_search_closer w1 _ [] Hq).
  apply includes_iff. exists pre, (w2 ++ post). rewrite <- !app_assoc. reflexivity.
Qed.

(** The loop of [extractComments] never enters the in-block state in
    python. *)
Lemma python_never_in_block (lines : list jsstring) (st : comment_state) (i : nat) :
  inMultiLineComment st = false ->
  inMultiLineComment (comment_loop python_comments st lines i) = false.
Proof.
  revert st i. induction lines as [|l lines IH]; intros st i Hin; [exact Hin|].
  cbn [comment_loop]. apply IH. unfold comment_step. rewrite Hin.
  pose proof (@python_block_closes_at_once l) as Hc.
  destruct (exec (multiLineCommentStart python_comments) l); [|reflexivity].
  destruct (exec (multiLineCommentEnd python_comments) l); [reflexivity|].
  exfalso. apply Hc; [discriminate|reflexivity].
Qed.

(* ================================================================= *)
(** ** The unit tests of the extractor, replayed *)

Example test_extractComments :
  map (fun e => (Element.type e, Element.line e))
      (extractComments test_comments "javascript") =
  [(SingleLineComment, 1); (MultiLineComment, 3); (SingleLineComment, 9);
   (MultiLineComment, 13)] /\
  map Element.content
      (filter (fun e => ElementType_eqb (Element.type e) SingleLineComment)
              (extractComments test_comments "javascript")) =
  [js "This is a single line comment"; js "Another single line comment"] /\
  Forall (fun e => includes (Element.content e) "multi-line comment" = true)
         (filter (fun e => ElementType_eqb (Element.type e) MultiLineComment)
                 (extractComments test_comments "javascript")).
Proof. vm_compute. repeat split; repeat constructor. Qed.

Example test_extractFunctions :
  map Element.name (extractFunctions test_functions "javascript") =
  [js "helloWorld"; js "add"; js "multiply"; js "subtract"].
Proof. vm_compute. reflexivity. Qed.

Example test_extractClasses :
  map Element.name (extractClasses test_classes "javascript") = [js "Animal"; js "Dog"].
Proof. vm_compute. reflexivity. Qed.

Example test_extractImports :
  map Element.content (extractImports test_imports "javascript") =
  [js "import React from 'react';";
   js "import { useState, useEffect } from 'react';";
   js "import './App.css';";
   js "const fs = require('fs');";
   js "export default function App() {";
   js "export { Component };"].
Proof. vm_compute. reflexivity. Qed.

Example test_extractVariables :
  map Element.name (extractVariables test_variables "javascript") =
  [js "name"; js "age"; js "isStudent"; js "numbers"; js "person"].
Proof. vm_compute. reflexivity. Qed.

Example test_extractTypes :
  map Element.name (extractTypes test_types "typescript") =
  [js "User"; js "ID"; js "Status"].
Proof. vm_compute. reflexivity. Qed.

Example test_validate :
  validateToolParamValues no_file_params =
    Some (js "Either 'file' or 'files' parameter must be specified") /\
  validateToolParamValues (sample_params None) = None.
Proof. split; reflexivity. Qed.

(* ================================================================= *)
(** ** The matcher on sample lines

    Index, whole match and capture groups, as [str.match(re)] returns
    them. *)

Example match_export_default :
  groups_1_to_3
    (first_match [cat [lit "export"; Plus ws; Opt (Group 1 (Seq (lit "default") (Plus ws)));
                       Group 2 (Alt (lit "class") (Alt (lit "function") (Alt (lit "const")
                                  (Alt (lit "let") (lit "var")))));
                       Plus ws; Group 3 ident_dollar]]
                 "export default function App() {") =
  Some [Some (js "default "); Some (js "function"); Some (js "App")].
Proof. vm_compute. reflexivity. Qed.

Example match_export_const :
  match importPatterns "typescript" with
  | Some ps => groups_1_to_3 (first_match ps "  export const limit = 3;")
  | None => None
  end = Some [None; Some (js "const"); Some (js "limit")].
Proof. vm_compute. reflexivity. Qed.

Example match_java_method :
  match functionPatterns "java" with
  | Some ps =>
      (groups_1_to_3 (first_match ps "  public static void main(String[] args) {"),
       groups_1_to_3 (first_match ps "void run() {"))
  | None => (None, None)
  end =
  (Some [Some (js "public"); Some (js "static"); Some (js "main")],
   Some [None; None; Some (js "run")]).
Proof. vm_compute. reflexivity. Qed.

Example match_is_leftmost_and_greedy :
  option_map (fun mt => (index mt, whole mt, group mt 1))
             (exec (singleLineComment c_style_comments) "a // b // c") =
  Some (2, js "// b // c", Some (js " b // c")).
Proof. vm_compute. reflexivity. Qed.

Example match_lazy_stops_early :
  option_map (fun mt => (index mt, whole mt, group mt 1))
             (exec (multiLineCommentEnd c_style_comments) "a */ b */") =
  Some (0, js "a */", Some (js "a ")).
Proof. vm_compute. reflexivity. Qed.

Example match_python_assignment_is_anchored :
  match variablePatterns "python" with
  | Some ps => (groups_1_to_3 (first_match ps "total = 0"),
                groups_1_to_3 (first_match ps "  total = 0"))
  | None => (None, None)
  end = (Some [Some (js "total"); None; None], None).
Proof. vm_compute. reflexivity. Qed.

Example posix_extname_samples :
  map Posix.extname [js "a.js"; js "dir.d/file"; js ".bashrc"; js "x.tar.gz"; js "a.";
                     js ".."; js "src/App.TSX"; js ""] =
  [js ".js"; js ""; js ""; js ".gz"; js "."; js ""; js ".TSX"; js ""].
Proof. vm_compute. reflexivity. Qed.

(* ================================================================= *)
(** ** Counterexamples to the claims as stated *)

(** C1 as stated fails.  The one-line block [/* note */] is extracted with
    the content [ note */], which is not trimmed; of the two single-line
    comments [// a /* b] and [// c] only the first is extracted, because
    the first opens a block; two blocks on one line are extracted as one
    element; and a single-line comment after the end of a block is not
    extracted, it is part of the block. *)
Lemma block_content_is_not_trimmed :
  extractComments "/* note */" "javascript" =
    [Element.Build MultiLineComment "Comment at line 1" 1 " note */"] /\
  trim " note */" <> js " note */" /\
  extractComments (join_lines [js "// a /* b"; js "// c"]) "javascript" =
    [Element.Build SingleLineComment "Comment at line 1" 1 "a /* b"] /\
  extractComments "/* a */ /* b */" "javascript" =
    [Element.Build MultiLineComment "Comment at line 1" 1 " a */ /* b */"] /\
  extractComments (join_lines [js "/* a"; js " */ // c"]) "javascript" =
    [Element.Build MultiLineComment "Comment at line 1" 1
       (join_lines [js " a"; js " */ // c"])].
Proof. vm_compute. repeat split; try reflexivity. discriminate. Qed.

(** C2 as stated fails for [extractComments]: the text [// x /* y */] has
    one line and yields two elements, both pushed while visiting it. *)
Lemma comment_line_contributes_two :
  split_lines "// x /* y */" = [js "// x /* y */"] /\
  extractComments "// x /* y */" "javascript" =
    [Element.Build SingleLineComment "Comment at line 1" 1 "x /* y */";
     Element.Build MultiLineComment "Comment at line 1" 1 " y */"] /\
  ~ (forall n, length (at_line n (extractComments "// x /* y */" "javascript")) <= 1).
Proof.
  repeat split; try (vm_compute; reflexivity).
  intro H. specialize (H 1). vm_compute in H. lia.
Qed.


(** C10 as stated fails.  In a Go import block whose opening and closing
    lines differ, an interior line [goimport x/y] (the path between double
    quotes) is matched by the first import pattern and yields an element
    named [x/y]; and a header followed by a comment that holds a closing
    parenthesis is matched by the import-block pattern and yields an
    element named after the whole line. *)
Lemma go_import_block_line_is_extracted :
  split_lines (join_lines [js "import ("; "009"%char :: js "goimport " ++ quoted "x/y";
                           js ")"]) =
    [js "import ("; "009"%char :: js "goimport " ++ quoted "x/y"; js ")"] /\
  extractImports (join_lines [js "import ("; "009"%char :: js "goimport " ++ quoted "x/y";
                              js ")"]) "go" =
    [Element.Build ImportElement "x/y" 2 (js "goimport " ++ quoted "x/y")] /\
  extractImports (join_lines [js "import ( // std (core)"; "009"%char :: quoted "fmt";
                              js ")"]) "go" =
    [Element.Build ImportElement "import ( // std (core)" 1 "import ( // std (core)"].
Proof. vm_compute. repeat split. Qed.

(* ================================================================= *)
(** ** The theorems at concrete inputs *)

(** C1 on a typescript text of four items (one single-line comment, two
    blocks) and on a python text with two [#] comments. *)
Lemma well_formed_comments_are_counted_witness :
  (In (js "typescript") [js "javascript"; js "typescript"; js "java"; js "go"] /\
   split_lines sample_text = layout_lines sample_layout /\
   Forall well_formed_item sample_layout /\
   extractComments sample_text "typescript" = expected sample_layout 1 /\
   length (extractComments sample_text "typescript") = 1 + 2) /\
  (Forall no_triple_quote (split_lines sample_python) /\
   extractComments sample_python "python" =
     expected_singles "#" (split_lines sample_python) 1 /\
   length (extractComments sample_python "python") = 2).
Proof.
  assert (H1 : In (js "typescript") [js "javascript"; js "typescript"; js "java"; js "go"])
    by (right; left; reflexivity).
  assert (H2 : split_lines sample_text = layout_lines sample_layout) by reflexivity.
  assert (H3 : Forall well_formed_item sample_layout)
    by (repeat constructor; reflexivity).
  assert (H : Forall no_triple_quote (split_lines sample_python))
    by (repeat constructor; reflexivity).
  exact (conj
           (conj H1 (conj H2 (conj H3
              (proj1 (well_formed_comments_are_counted sample_text "typescript")
                     sample_layout H1 H2 H3))))
           (conj H
              (proj2 (well_formed_comments_are_counted sample_python "python")
                     eq_refl H))).
Defined.

(** C2 on the functions of the unit test. *)
Lemma first_pattern_wins_witness :
  exists ps,
    functionPatterns "javascript" = Some ps /\
    from_first_match ps
      (fun mt => push_if_named FunctionElement (functionName "javascript" mt))
      test_functions (extractFunctions test_functions "javascript").
Proof.
  eexists. split; [reflexivity|].
  apply (proj1 (first_pattern_wins test_functions "javascript")). reflexivity.
Defined.

(** C5 on an upper-case extension and on an unknown one. *)
Lemma language_detection_and_fallback_witness :
  toLowerCase (Posix.extname "src/Main.JAVA") = js ".java" /\
  detectLanguage Posix.extname "src/Main.JAVA" = Some (js "java") /\
  detectLanguage Posix.extname "src/main.java" =
    detectLanguage Posix.extname "src/Main.JAVA" /\
  ~ In (toLowerCase (Posix.extname "notes.TXT")) known_extensions /\
  detectLanguage Posix.extname "notes.TXT" = None /\
  language_for sample_config (sample_params None) "notes.TXT" = js "javascript".
Proof.
  pose proof (language_detection_and_fallback sample_config "src/Main.JAVA") as J.
  pose proof (language_detection_and_fallback sample_config "notes.TXT") as T.
  cbv zeta in J, T.
  destruct J as (Jcase & _ & _ & _ & Jjava & _).
  destruct T as (_ & _ & _ & _ & _ & _ & Tnone & Tfall).
  assert (E : toLowerCase (Posix.extname "src/Main.JAVA") = js ".java") by reflexivity.
  assert (N : ~ In (toLowerCase (Posix.extname "notes.TXT")) known_extensions).
  { vm_compute. intros [H | [H | [H | [H | [H | [H | [H | []]]]]]]]; discriminate. }
  refine (conj E (conj (Jjava E) (conj (Jcase "src/main.java" eq_refl)
            (conj N (conj (Tnone N) _))))).
  exact (proj1 (Tfall (sample_params None) eq_refl (Tnone N))).
Defined.

(** C6 on a request without [file] and [files]. *)
Lemma no_files_is_a_parameter_error_witness :
  no_file_requested no_file_params /\
  execute sample_config no_file_params = Ret no_files_result /\
  (forall fs, run fs (execute sample_config no_file_params) = (no_files_result, [])).
Proof.
  assert (H : no_file_requested no_file_params) by (right; split; reflexivity).
  destruct (no_files_is_a_parameter_error sample_config H) as (E & _ & R & _).
  split; [exact H|]. split; [exact E|exact R].
Defined.

(** C9 on two requests that differ in both reserved parameters. *)
Lemma reserved_flags_have_no_effect_witness :
  same_request (sample_params None) (sample_params (Some true)) /\
  execute sample_config (sample_params None) =
  execute sample_config (sample_params (Some true)).
Proof.
  assert (H : same_request (sample_params None) (sample_params (Some true)))
    by (repeat split).
  split; [exact H|].
  exact (proj1 (reserved_flags_have_no_effect sample_config H)).
Defined.

(** C10 on a Go file whose import block spans lines 3 to 6 -- while the
    same block written on one line is matched by the block pattern. *)
Lemma go_import_block_yields_nothing_witness :
  split_lines go_file = go_before ++ go_opening :: go_interior ++ go_closing :: go_after /\
  (forall e, In e (extractImports go_file "go") ->
             Element.line e <= 2 \/ 6 < Element.line e) /\
  extractImports go_file "go" = [] /\
  map Element.name (extractImports (js "import (" ++ quoted "fmt" ++ js ")") "go") =
    [js "import (" ++ quoted "fmt" ++ js ")"].
Proof.
  assert (H : split_lines go_file =
              go_before ++ go_opening :: go_interior ++ go_closing :: go_after)
    by reflexivity.
  split; [exact H|]. split; [|split; vm_compute; reflexivity].
  apply (@go_import_block_yields_nothing go_file go_before go_opening go_interior
           go_closing go_after H).
  - vm_compute. intros [E | [E | [E | [E | [E | [E | [E | [E | []]]]]]]]]; discriminate.
  - vm_compute. intros [E | [E | [E | [E | [E | [E | [E | [E | []]]]]]]]]; discriminate.
  - vm_compute. intros [E | [E | [E | [E | [E | [E | [E | [E | []]]]]]]]]; discriminate.
  - repeat constructor; intros c Hc; reflexivity.
  - intros c Hc. reflexivity.
Defined.

(* ================================================================= *)
(** ** The orchestrator: validation, reads and results *)

Section Execution.

Variable config : Config.

Lemma run_bind {A B : Type} (fs : jsstring -> jsstring -> read_outcome)
      (c : io A) (f : A -> io B) :
  run fs (bind c f) =
  (fst (run fs (f (fst (run fs c)))), snd (run fs c) ++ snd (run fs (f (fst (run fs c))))).
Proof.
  induction c as [a | p d k IH]; simpl.
  - destruct (run fs (f a)); reflexivity.
  - rewrite IH. destruct (run fs (k (fs p d))) as [a l]. simpl.
    destruct (run fs (f a)); reflexivity.
Qed.

Lemma resolve_files_ok (files acc : list jsstring) :
  all_in_workspace config files ->
  resolve_files config files acc = inr (acc ++ resolved_paths config files).
Proof.
  revert acc. induction files as [|f files IH]; intros acc H; simpl.
  - rewrite app_nil_r. reflexivity.
  - inversion H as [|? ? Hf Hfs]; subst. rewrite Hf. simpl.
    rewrite IH by exact Hfs. rewrite <- app_assoc. reflexivity.
Qed.

Lemma resolve_files_outside (pre post acc : list jsstring) (file : jsstring) :
  all_in_workspace config pre ->
  isPathWithinWorkspace config (path_resolve config (getTargetDir config) file) = false ->
  resolve_files config (pre ++ file :: post) acc = inl (outside_result file).
Proof.
  revert acc. induction pre as [|f pre IH]; intros acc H Hout; simpl.
  - rewrite Hout. reflexivity.
  - inversion H as [|? ? Hf Hfs]; subst. rewrite Hf. simpl. apply IH; assumption.
Qed.

(** X2. The paths of all requested files are checked before anything is
    read: when some requested file resolves outside the workspace,
    [execute] returns, without any read, the [PATH_NOT_IN_WORKSPACE] error
    that names the first such file -- even when files listed before it are
    inside the workspace. *)
Theorem outside_workspace_stops_before_reading
        (params : ExtractToolParams) (pre post : list jsstring) (file : jsstring) :
  requested_files params = pre ++ file :: post ->
  all_in_workspace config pre ->
  isPathWithinWorkspace config (path_resolve config (getTargetDir config) file) = false ->
  execute config params = Ret (outside_result file) /\
  forall fs, run fs (execute config params) = (outside_result file, []).
Proof.
  intros Hreq Hpre Hout.
  assert (E : execute config params = Ret (outside_result file)).
  { unfold execute. rewrite Hreq.
    replace (length (pre ++ file :: post) =? 0) with false
      by (symmetry; apply Nat.eqb_neq; rewrite length_app; simpl; lia).
    rewrite (@resolve_files_outside pre post [] file Hpre Hout). reflexivity. }
  split; [exact E|]. intro fs. rewrite E. reflexivity.
Qed.

Lemma process_files_ok (params : ExtractToolParams)
      (fs : jsstring -> jsstring -> read_outcome) (paths : list jsstring)
      (results : list FileResult) :
  Forall (read_succeeds config fs) paths ->
  run fs (process_files config params paths results) =
  (inr (results ++ map (file_result config params fs) paths), paths).
Proof.
  revert results. induction paths as [|path paths IH]; intros results H.
  - simpl. rewrite app_nil_r. reflexivity.
  - inversion H as [|? ? (r & Hr & Herr) Hrest]; subst.
    cbn [process_files run]. rewrite Hr, Herr.
    rewrite IH by exact Hrest.
    assert (E : file_result config params fs path =
                MkFileResult path
                  (extract_by_type (Params.type params)
                     match read_llmContent r with TextPart s => s | OtherPart => [] end
                     (language_for config params path))).
    { unfold file_result, text_read. rewrite Hr. reflexivity. }
    cbn [map]. rewrite E, <- app_assoc. reflexivity.
Qed.

(** X3. When every requested file lies within the workspace and every
    read succeeds, [execute] reads the resolved paths once each, in the
    order of the request (a file listed twice is read twice), and returns
    the chosen format applied to one result per requested file, in the
    same order, each holding what the extractor of the requested type
    yields on the text read; the display text counts the files. *)
Theorem execute_reads_in_order_and_formats
        (params : ExtractToolParams) (fs : jsstring -> jsstring -> read_outcome) :
  requested_files params <> [] ->
  all_in_workspace config (requested_files params) ->
  Forall (read_succeeds config fs) (resolved_paths config (requested_files params)) ->
  run fs (execute config params) =
  (success_result config params fs (resolved_paths config (requested_files params)),
   resolved_paths config (requested_files params)).
Proof.
  intros Hne Hin Hread. unfold execute.
  destruct (requested_files params) as [|f files] eqn:Hreq; [contradiction|].
  cbn [length Nat.eqb].
  rewrite (@resolve_files_ok (f :: files) [] Hin). cbn [app].
  rewrite run_bind, process_files_ok by exact Hread.
  cbn [fst snd app run]. rewrite app_nil_r. reflexivity.
Qed.

Lemma process_files_error (params : ExtractToolParams)
      (fs : jsstring -> jsstring -> read_outcome) (pre post : list jsstring)
      (path : jsstring) (r : ProcessedFileReadResult) (results : list FileResult) :
  Forall (read_succeeds config fs) pre ->
  fs path (getTargetDir config) = Resolved r -> truthy (read_error r) = true ->
  run fs (process_files config params (pre ++ path :: post) results) =
  (inl (read_error_result r), pre ++ [path]).
Proof.
  revert results. induction pre as [|p pre IH]; intros results H Hr Herr.
  - cbn [app process_files run]. rewrite Hr, Herr. unfold read_error_result.
    destruct (read_returnDisplay r) as [[|c d]|]; reflexivity.
  - inversion H as [|? ? (r0 & Hr0 & Herr0) Hrest]; subst.
    cbn [app process_files run]. rewrite Hr0, Herr0.
    rewrite IH by assumption. reflexivity.
Qed.

Lemma process_files_rejected (params : ExtractToolParams)
      (fs : jsstring -> jsstring -> read_outcome) (pre post : list jsstring)
      (path errorMessage : jsstring) (results : list FileResult) :
  Forall (read_succeeds config fs) pre ->
  fs path (getTargetDir config) = Rejected errorMessage ->
  run fs (process_files config params (pre ++ path :: post) results) =
  (inl (caught errorMessage), pre ++ [path]).
Proof.
  revert results. induction pre as [|p pre IH]; intros results H Hr.
  - cbn [app process_files run]. rewrite Hr. reflexivity.
  - inversion H as [|? ? (r0 & Hr0 & Herr0) Hrest]; subst.
    cbn [app process_files run]. rewrite Hr0, Herr0.
    rewrite IH by assumption. reflexivity.
Qed.

(** X4. A read that reports an error ends the request: the files after it
    are not read, no partial output is produced, and the result carries
    the reader's content, its error message and its error type unchanged
    (and its display text, or "Error reading file" when it gives none). *)
Theorem read_error_is_propagated
        (params : ExtractToolParams) (fs : jsstring -> jsstring -> read_outcome)
        (pre post : list jsstring) (path : jsstring) (r : ProcessedFileReadResult) :
  all_in_workspace config (requested_files params) ->
  resolved_paths config (requested_files params) = pre ++ path :: post ->
  Forall (read_succeeds config fs) pre ->
  fs path (getTargetDir config) = Resolved r -> truthy (read_error r) = true ->
  run fs (execute config params) = (read_error_result r, pre ++ [path]) /\
  error (read_error_result r) =
    Some (MkToolError (match read_error r with Some e => e | None => [] end)
                      (read_errorType r)).
Proof.
  intros Hin Hpaths Hpre Hr Herr. split; [|reflexivity]. unfold execute.
  destruct (requested_files params) as [|f files] eqn:Hreq.
  - destruct pre; discriminate.
  - cbn [length Nat.eqb].
    rewrite (@resolve_files_ok (f :: files) [] Hin). cbn [app]. rewrite Hpaths.
    rewrite run_bind, (@process_files_error params fs pre post path r [] Hpre Hr Herr).
    cbn [fst snd run]. rewrite app_nil_r. reflexivity.
Qed.

(** X5. A read whose promise is rejected ends the request in the same
    way: the files after it are not read and the result is the [UNKNOWN]
    error whose message is "Error during extraction: " followed by the
    message of the rejection. *)
Theorem rejected_read_is_caught
        (params : ExtractToolParams) (fs : jsstring -> jsstring -> read_outcome)
        (pre post : list jsstring) (path errorMessage : jsstring) :
  all_in_workspace config (requested_files params) ->
  resolved_paths config (requested_files params) = pre ++ path :: post ->
  Forall (read_succeeds config fs) pre ->
  fs path (getTargetDir config) = Rejected errorMessage ->
  run fs (execute config params) = (caught errorMessage, pre ++ [path]) /\
  error (caught errorMessage) =
    Some (MkToolError (js "Error during extraction: " ++ errorMessage) (Some UNKNOWN)).
Proof.
  intros Hin Hpaths Hpre Hr. split; [|reflexivity]. unfold execute.
  destruct (requested_files params) as [|f files] eqn:Hreq.
  - destruct pre; discriminate.
  - cbn [length Nat.eqb].
    rewrite (@resolve_files_ok (f :: files) [] Hin). cbn [app]. rewrite Hpaths.
    rewrite run_bind, (@process_files_rejected params fs pre post path errorMessage [] Hpre Hr).
    cbn [fst snd run]. rewrite app_nil_r. reflexivity.
Qed.

Lemma resolve_files_inl (files acc : list jsstring) (r : ToolResult) :
  resolve_files config files acc = inl r -> exists file, In file files /\ r = outside_result file.
Proof.
  revert acc. induction files as [|f files IH]; intros acc H; simpl in H; [discriminate|].
  destruct (negb (isPathWithinWorkspace config _)).
  - injection H as <-. exists f. split; [left; reflexivity|reflexivity].
  - apply IH in H as (file & Hin & ->). exists file. split; [right; exact Hin|reflexivity].
Qed.

Lemma resolve_files_inr (files acc paths : list jsstring) :
  resolve_files config files acc = inr paths -> length paths = length acc + length files.
Proof.
  revert acc. induction files as [|f files IH]; intros acc H; simpl in H.
  - injection H as <-. simpl. lia.
  - destruct (negb (isPathWithinWorkspace config _)); [discriminate|].
    apply IH in H. rewrite H, length_app. simpl. lia.
Qed.

(** X6. Validation and execution disagree on one request shape only: when
    [validateToolParamValues] accepts a request, [execute] answers "no
    files specified" exactly when [files] is an explicit empty list (which
    hides a given [file]). *)
Theorem validated_request_without_files (params : ExtractToolParams) :
  validateToolParamValues params = None ->
  (execute config params = Ret no_files_result <-> Params.files params = Some []).
Proof.
  intro Hv. split.
  - intro He.
    destruct (requested_files params) as [|f fs] eqn:Hreq.
    + unfold requested_files in Hreq. unfold validateToolParamValues in Hv.
      destruct (Params.files params) as [files|]; [congruence|].
      destruct (Params.file params) as [[|c file]|]; simpl in Hv; discriminate.
    + exfalso. unfold execute in He. rewrite Hreq in He. cbn [length Nat.eqb] in He.
      destruct (resolve_files config (f :: fs) []) as [r|paths] eqn:Hres.
      * apply resolve_files_inl in Hres as (file & _ & ->).
        injection He as He _. discriminate He.
      * apply resolve_files_inr in Hres.
        destruct paths as [|path paths]; [simpl in Hres; lia|]. discriminate He.
  - intro Hfiles. unfold execute, requested_files. rewrite Hfiles. reflexivity.
Qed.

End Execution.

(* ================================================================= *)
(** ** The groups of the tree format *)

Lemma ElementType_eqb_eq (a b : ElementType) : ElementType_eqb a b = true <-> a = b.
Proof. destruct a, b; simpl; split; intro H; congruence. Qed.

Lemma ElementType_eqb_refl (a : ElementType) : ElementType_eqb a a = true.
Proof. destruct a; reflexivity. Qed.

Lemma ElementType_eqb_neq (a b : ElementType) : ElementType_eqb a b = false <-> a <> b.
Proof.
  split.
  - intros H E. apply ElementType_eqb_eq in E. congruence.
  - intro H. destruct (ElementType_eqb a b) eqn:E; [|reflexivity].
    apply ElementType_eqb_eq in E. contradiction.
Qed.

Lemma first_seen_in (t : ElementType) (ts : list ElementType) :
  In t (first_seen ts) <-> In t ts.
Proof.
  induction ts as [|u ts IH]; simpl; [tauto|].
  rewrite filter_In, IH, negb_true_iff, ElementType_eqb_neq.
  destruct (ElementType_eqb u t) eqn:E.
  - apply ElementType_eqb_eq in E. subst. tauto.
  - apply ElementType_eqb_neq in E. tauto.
Qed.

Lemma first_seen_NoDup (ts : list ElementType) : NoDup (first_seen ts).
Proof.
  induction ts as [|u ts IH]; simpl; constructor.
  - rewrite filter_In, negb_true_iff, ElementType_eqb_neq. tauto.
  - apply NoDup_filter. exact IH.
Qed.

Lemma first_seen_snoc (ts : list ElementType) (t : ElementType) :
  first_seen (ts ++ [t]) =
  if existsb (ElementType_eqb t) ts then first_seen ts else first_seen ts ++ [t].
Proof.
  induction ts as [|u ts IH]; simpl; [reflexivity|].
  rewrite IH. destruct (ElementType_eqb t u) eqn:E; simpl.
  - destruct (existsb (ElementType_eqb t) ts); [reflexivity|].
    rewrite filter_app. simpl.
    apply ElementType_eqb_eq in E. subst. rewrite ElementType_eqb_refl. simpl.
    rewrite app_nil_r. reflexivity.
  - destruct (existsb (ElementType_eqb t) ts); [reflexivity|].
    rewrite filter_app. simpl.
    replace (ElementType_eqb u t) with false; [reflexivity|].
    symmetry. apply ElementType_eqb_neq. intros ->.
    rewrite ElementType_eqb_refl in E. discriminate.
Qed.

Lemma filter_type_snoc (t : ElementType) (es : list ExtractedElement)
      (e : ExtractedElement) :
  filter (type_is t) (es ++ [e]) =
  filter (type_is t) es ++ (if ElementType_eqb t (Element.type e) then [e] else []).
Proof. rewrite filter_app. reflexivity. Qed.

(** Pushing [e] into the entries of the types [keys], each holding the
    elements of its type among [es]. *)
Lemma push_by_type_entries (es : list ExtractedElement) (e : ExtractedElement)
      (keys : list ElementType) :
  NoDup keys ->
  push_by_type (map (fun t => (t, filter (type_is t) es)) keys) e =
  if existsb (ElementType_eqb (Element.type e)) keys
  then map (fun t => (t, filter (type_is t) (es ++ [e]))) keys
  else map (fun t => (t, filter (type_is t) (es ++ [e]))) keys ++ [(Element.type e, [e])].
Proof.
  induction keys as [|k keys IH]; intro Hnd; [reflexivity|].
  inversion Hnd as [|? ? Hk Hnd']; subst. cbn [map push_by_type existsb].
  rewrite filter_type_snoc.
  destruct (ElementType_eqb k (Element.type e)) eqn:E.
  - apply ElementType_eqb_eq in E. subst k. rewrite ElementType_eqb_refl. cbn [orb].
    f_equal. apply map_ext_in. intros t Ht. rewrite filter_type_snoc.
    replace (ElementType_eqb t (Element.type e)) with false;
      [rewrite app_nil_r; reflexivity|].
    symmetry. apply ElementType_eqb_neq. intros ->. contradiction.
  - replace (ElementType_eqb (Element.type e) k) with false
      by (symmetry; apply ElementType_eqb_neq; intros H; rewrite H in E;
          rewrite ElementType_eqb_refl in E; discriminate).
    cbn [orb]. rewrite app_nil_r, IH by exact Hnd'.
    destruct (existsb (ElementType_eqb (Element.type e)) keys); reflexivity.
Qed.

Lemma filter_none_of_type (es : list ExtractedElement) (t : ElementType) :
  existsb (ElementType_eqb t) (map Element.type es) = false ->
  filter (type_is t) es = [].
Proof.
  induction es as [|e es IH]; simpl; [reflexivity|].
  intro H. apply orb_false_iff in H as [H1 H2]. unfold type_is at 1. rewrite H1.
  apply IH. exact H2.
Qed.

Lemma existsb_first_seen (t : ElementType) (ts : list ElementType) :
  existsb (ElementType_eqb t) (first_seen ts) = existsb (ElementType_eqb t) ts.
Proof.
  destruct (existsb (ElementType_eqb t) ts) eqn:E.
  - apply existsb_exists in E as (u & Hu & Heq). apply existsb_exists.
    exists u. split; [apply <- first_seen_in; exact Hu|exact Heq].
  - destruct (existsb (ElementType_eqb t) (first_seen ts)) eqn:E'; [|reflexivity].
    apply existsb_exists in E' as (u & Hu & Heq). apply -> first_seen_in in Hu.
    assert (K : existsb (ElementType_eqb t) ts = true).
    { apply existsb_exists. exists u. split; [exact Hu|exact Heq]. }
    congruence.
Qed.

Lemma push_by_type_grouped (es : list ExtractedElement) (e : ExtractedElement) :
  push_by_type (grouped es) e = grouped (es ++ [e]).
Proof.
  unfold grouped. rewrite push_by_type_entries by apply first_seen_NoDup.
  rewrite map_app. cbn [map]. rewrite first_seen_snoc, existsb_first_seen.
  unfold ExtractedElement in *.
  destruct (existsb (ElementType_eqb (Element.type e)) (map Element.type es)) eqn:E;
    [reflexivity|].
  rewrite map_app. cbn [map]. rewrite filter_type_snoc, ElementType_eqb_refl.
  rewrite (@filter_none_of_type es (Element.type e) E). reflexivity.
Qed.

Lemma push_by_type_sizes (gs : list (ElementType * list ExtractedElement))
      (e : ExtractedElement) :
  list_sum (map (fun entry => length (snd entry)) (push_by_type gs e)) =
  list_sum (map (fun entry => length (snd entry)) gs) + 1.
Proof.
  induction gs as [|[t g] gs IH]; [reflexivity|].
  cbn [push_by_type]. destruct (ElementType_eqb t (Element.type e)); simpl.
  - rewrite length_app. simpl. lia.
  - simpl in IH. rewrite IH. lia.
Qed.

(** X7. The tree format groups the elements of a file by type: one group
    per type that occurs, in the order in which the types are first seen,
    each holding all the elements of its type in their order of
    extraction.  So no group is empty, no type has two groups, and the
    group sizes add up to the number of elements. *)
Theorem tree_groups_partition_by_type (es : list ExtractedElement) :
  fold_left push_by_type es [] = grouped es /\
  NoDup (map fst (fold_left push_by_type es [])) /\
  Forall (fun entry => snd entry <> [] /\
                       snd entry = filter (type_is (fst entry)) es)
         (fold_left push_by_type es []) /\
  list_sum (map (fun entry => length (snd entry)) (fold_left push_by_type es [])) =
  length es.
Proof.
  assert (E : fold_left push_by_type es [] = grouped es).
  { induction es as [|e es IH] using rev_ind; [reflexivity|].
    rewrite fold_left_app. cbn [fold_left]. rewrite IH. apply push_by_type_grouped. }
  rewrite E. refine (conj eq_refl (conj _ (conj _ _))).
  - unfold grouped. rewrite map_map. cbn [fst]. rewrite map_id. apply first_seen_NoDup.
  - unfold grouped. apply Forall_forall. intros entry Hin.
    apply in_map_iff in Hin as (t & <- & Ht). cbn [fst snd]. split; [|reflexivity].
    apply -> first_seen_in in Ht. apply in_map_iff in Ht as (e & He & Hin).
    intro Hnil. assert (Hf : In e (filter (type_is t) es)).
    { apply filter_In. split; [exact Hin|]. unfold type_is. rewrite He.
      apply ElementType_eqb_refl. }
    rewrite Hnil in Hf. exact Hf.
  - clear E. induction es as [|e es IH] using rev_ind; [reflexivity|].
    rewrite <- push_by_type_grouped, push_by_type_sizes, IH, length_app.
    reflexivity.
Qed.

(* ================================================================= *)
(** ** Matched lines are not blank *)

Lemma all_ascii_complete (c : ascii) : In c all_ascii.
Proof.
  unfold all_ascii. rewrite <- (ascii_nat_embedding c). apply in_map.
  apply in_seq. pose proof (nat_ascii_bounded c). lia.
Qed.

Lemma visible_class_sound (p : ascii -> bool) (c : ascii) :
  visible_class p = true -> p c = true -> is_ws c = false.
Proof.
  unfold visible_class. intros H Hp. rewrite forallb_forall in H.
  specialize (H c (all_ascii_complete c)). rewrite Hp in H. simpl in H.
  apply negb_true_iff. exact H.
Qed.

Lemma matches_needs_visible (r : regex) (bef w aft : list ascii) :
  matches r bef w aft -> needs_visible r = true ->
  exists c, In c w /\ is_ws c = false.
Proof.
  intro H. induction H; cbn [needs_visible]; intro N; try discriminate.
  - exists c. split; [left; reflexivity|apply negb_true_iff; exact N].
  - exists c. split; [left; reflexivity|]. exact (@visible_class_sound (class_mem items) c N H).
  - exists c. split; [left; reflexivity|].
    apply (@visible_class_sound (fun c => negb (class_mem items c)) c N).
    rewrite H. reflexivity.
  - apply orb_true_iff in N as [N | N].
    + destruct (IHmatches1 N) as (c & Hc & Hv). exists c. split; [|exact Hv].
      apply in_or_app. left. exact Hc.
    + destruct (IHmatches2 N) as (c & Hc & Hv). exists c. split; [|exact Hv].
      apply in_or_app. right. exact Hc.
  - apply andb_true_iff in N as [N _]. exact (IHmatches N).
  - apply andb_true_iff in N as [_ N]. exact (IHmatches N).
  - exact (IHmatches N).
Qed.

Lemma blank_trim (l : jsstring) : blank l = true -> trim l = [].
Proof.
  unfold blank, trim. intro H. rewrite trimStart_all_ws by exact H. reflexivity.
Qed.

Lemma visible_not_blank (c : ascii) (l : jsstring) :
  In c l -> is_ws c = false -> blank l = false.
Proof.
  intros Hin Hc. unfold blank. destruct (forallb is_ws l) eqn:E; [|reflexivity].
  rewrite forallb_forall in E. rewrite (E c Hin) in Hc. discriminate.
Qed.

(** A pattern that needs a visible code unit matches no blank line, and
    the lines it matches do not trim to the empty text. *)
Lemma exec_needs_visible (r : regex) (l : jsstring) (mt : match_result) :
  exec r l = Some mt -> needs_visible r = true -> blank l = false /\ trim l <> [].
Proof.
  intros He N. apply exec_sound in He as (pre & w & post & Hl & Hm & _ & _).
  destruct (@matches_needs_visible r (rev pre) w post Hm N) as (c & Hc & Hv).
  assert (Hin : In c l).
  { rewrite Hl. apply in_or_app. right. apply in_or_app. left. exact Hc. }
  split; [exact (@visible_not_blank c l Hin Hv)|].
  intro E. pose proof (@trim_keeps c l Hin Hv) as K. rewrite E in K. exact K.
Qed.

Lemma first_match_needs_visible (ps : list regex) (l : jsstring) (mt : match_result) :
  forallb needs_visible ps = true -> first_match ps l = Some mt ->
  blank l = false /\ trim l <> [].
Proof.
  intros Hps Hfm. destruct (@first_match_in ps l mt Hfm) as (p & Hin & Hp).
  rewrite forallb_forall in Hps. exact (@exec_needs_visible p l mt Hp (Hps p Hin)).
Qed.

Ltac by_language language :=
  repeat match goal with
         | |- context [streq language ?s] => destruct (streq language s)
         end.

Lemma functionPatterns_visible (language : jsstring) (ps : list regex) :
  functionPatterns language = Some ps -> forallb needs_visible ps = true.
Proof.
  unfold functionPatterns. by_language language; intros [= <-]; vm_compute; reflexivity.
Qed.

Lemma classPatterns_visible (language : jsstring) (ps : list regex) :
  classPatterns language = Some ps -> forallb needs_visible ps = true.
Proof.
  unfold classPatterns. by_language language; intros [= <-]; vm_compute; reflexivity.
Qed.

Lemma importPatterns_visible (language : jsstring) (ps : list regex) :
  importPatterns language = Some ps -> forallb needs_visible ps = true.
Proof.
  unfold importPatterns. by_language language; intros [= <-]; vm_compute; reflexivity.
Qed.

Lemma variablePatterns_visible (language : jsstring) (ps : list regex) :
  variablePatterns language = Some ps -> forallb needs_visible ps = true.
Proof.
  unfold variablePatterns. by_language language; intros [= <-]; vm_compute; reflexivity.
Qed.

Lemma typePatterns_visible (language : jsstring) (ps : list regex) :
  typePatterns language = Some ps -> forallb needs_visible ps = true.
Proof.
  unfold typePatterns. by_language language; intros [= <-]; vm_compute; reflexivity.
Qed.

Lemma commentPatterns_visible (language : jsstring) (p : comment_patterns) :
  commentPatterns language = Some p ->
  needs_visible (singleLineComment p) = true /\
  needs_visible (multiLineCommentStart p) = true.
Proof.
  unfold commentPatterns. by_language language; intros [= <-]; vm_compute; split; reflexivity.
Qed.

(* ================================================================= *)
(** ** Trimmed texts *)

Lemma trimStart_head (s : jsstring) (c : ascii) (t : jsstring) :
  trimStart s = c :: t -> is_ws c = false.
Proof.
  induction s as [|d s IH]; simpl; [discriminate|].
  destruct (is_ws d) eqn:E; [exact IH|]. intros [= <- _]. exact E.
Qed.

(** [trim] leaves no white space at either end. *)
Lemma trim_no_outer_ws (s : jsstring) : no_outer_ws (trim s).
Proof.
  unfold no_outer_ws, trim. split.
  - intros c t H.
    destruct (trimEnd_prefix (trimStart s)) as [v Hv]. rewrite H in Hv.
    simpl in Hv. exact (@trimStart_head s c _ Hv).
  - intros c t H. unfold trimEnd in H.
    apply (f_equal (@rev ascii)) in H. rewrite rev_involutive, rev_app_distr in H.
    simpl in H. exact (@trimStart_head _ c _ H).
Qed.

(* ================================================================= *)
(** ** The shape of the extracted elements *)

Lemma nth_error_line_number (lines : list jsstring) (k : nat) (l : jsstring) :
  nth_error lines k = Some l -> 1 <= k + 1 <= length lines.
Proof.
  intro H. assert (k < length lines) by (apply nth_error_Some; congruence). lia.
Qed.

(** The elements of a line loop whose per-line function pushes, for a
    first match, at most one element of type [t], with a non-empty name
    and the trimmed line as content. *)
Lemma table_elements (t : ElementType) (patterns : list regex) (skip : jsstring -> bool)
      (naming : match_result -> jsstring -> option jsstring) (content : jsstring) :
  forallb needs_visible patterns = true ->
  Forall (table_element t content)
    (line_loop (fun l n => if skip l then []
                           else match first_match patterns l with
                                | Some mt => push_if_named t (naming mt l) l n
                                | None => []
                                end)
               (split_lines content) 0).
Proof.
  intro Hvis. apply Forall_forall. intros e He.
  apply line_loop_origin in He as (k & l & Hk & Hl & Hin).
  2:{ intros l n e0 H0. destruct (skip l); [contradiction|].
      destruct (first_match patterns l); [|contradiction].
      exact (@push_if_named_number t _ l n e0 H0). }
  cbn [Nat.add] in Hl, Hin. destruct (skip l); [contradiction|].
  destruct (first_match patterns l) as [mt|] eqn:Hfm; [|contradiction].
  destruct (@first_match_needs_visible patterns l mt Hvis Hfm) as [_ Hne].
  unfold push_if_named in Hin.
  destruct (naming mt l) as [[|c nm]|]; try contradiction.
  destruct Hin as [<- | []]. unfold table_element. cbn [Element.type Element.name
    Element.line Element.content].
  split; [reflexivity|]. split; [discriminate|].
  split; [exact (@nth_error_line_number _ k l Hk)|].
  exists l. replace (k + 1 - 1) with k by lia.
  repeat (split; [first [exact Hk | reflexivity | exact Hne]|]). apply trim_no_outer_ws.
Qed.

Lemma importName_not_empty (mt : match_result) (l : jsstring) :
  trim l <> [] -> importName mt l <> [].
Proof.
  intro H. unfold importName, group_text.
  destruct (group mt 1) as [[|c g]|]; cbn [truthy];
    try discriminate;
    destruct (group mt 3) as [[|d h]|]; cbn [truthy]; try discriminate;
    destruct (trim l); try discriminate; contradiction.
Qed.

Lemma table_extractor_elements (content language : jsstring) :
  Forall (table_element FunctionElement content) (extractFunctions content language) /\
  Forall (table_element ClassElement content) (extractClasses content language) /\
  Forall (table_element ImportElement content) (extractImports content language) /\
  Forall (table_element VariableElement content) (extractVariables content language) /\
  Forall (table_element TypeElement content) (extractTypes content language).
Proof.
  refine (conj _ (conj _ (conj _ (conj _ _)))).
  - unfold extractFunctions.
    destruct (functionPatterns language) as [ps|] eqn:Hps; [|constructor].
    exact (@table_elements FunctionElement ps (fun _ => false)
             (fun mt _ => functionName language mt) content
             (@functionPatterns_visible language ps Hps)).
  - unfold extractClasses.
    destruct (classPatterns language) as [ps|] eqn:Hps; [|constructor].
    exact (@table_elements ClassElement ps (fun _ => false)
             (fun mt _ => className language mt) content
             (@classPatterns_visible language ps Hps)).
  - unfold extractImports.
    destruct (importPatterns language) as [ps|] eqn:Hps; [|constructor].
    pose proof (@importPatterns_visible language ps Hps) as Hvis.
    pose proof (@table_elements ImportElement ps (fun _ => false)
                  (fun mt l => Some (importName mt l)) content Hvis) as T.
    replace (line_loop (import_line ps) (split_lines content) 0)
      with (line_loop
              (fun l n => if (fun _ : jsstring => false) l then []
                          else match first_match ps l with
                               | Some mt =>
                                   push_if_named ImportElement (Some (importName mt l)) l n
                               | None => []
                               end)
              (split_lines content) 0); [exact T|].
    clear T. generalize 0. induction (split_lines content) as [|l ls IH]; intro i;
      [reflexivity|].
    cbn [line_loop]. rewrite IH. f_equal. unfold import_line.
    destruct (first_match ps l) as [mt|] eqn:Hfm; [|reflexivity].
    destruct (@first_match_needs_visible ps l mt Hvis Hfm) as [_ Hne].
    pose proof (@importName_not_empty mt l Hne) as Hn. unfold push_if_named.
    destruct (importName mt l); [contradiction|reflexivity].
  - unfold extractVariables.
    destruct (variablePatterns language) as [ps|] eqn:Hps; [|constructor].
    exact (@table_elements VariableElement ps skipped_by_variables
             (fun mt _ => variableName language mt) content
             (@variablePatterns_visible language ps Hps)).
  - unfold extractTypes.
    destruct (typePatterns language) as [ps|] eqn:Hps; [|constructor].
    exact (@table_elements TypeElement ps (fun _ => false)
             (fun mt l => Some (typeName mt l)) content
             (@typePatterns_visible language ps Hps)).
Qed.

(** X8. Every element returned by the five pattern-table extractors, for
    any text and language, has the type of its extractor and a non-empty
    name; its line number is the 1-based number of a line of the text; and
    its content is that line trimmed, which is never empty and has no
    white space at either end. *)
Theorem table_extractors_emit_well_formed_elements (content language : jsstring) :
  Forall (table_element FunctionElement content) (extractFunctions content language) /\
  Forall (table_element ClassElement content) (extractClasses content language) /\
  Forall (table_element ImportElement content) (extractImports content language) /\
  Forall (table_element VariableElement content) (extractVariables content language) /\
  Forall (table_element TypeElement content) (extractTypes content language).
Proof. exact (table_extractor_elements content language). Qed.

(** X9. [extractVariables] never extracts from a line whose trimmed text
    starts with [import], [function], [class] or [export], whatever the
    language and whatever follows on the line: an exported declaration
    such as [export const x = 1] is not a variable for it. *)
Theorem declaration_lines_are_not_variables (content language l : jsstring) (k : nat) :
  nth_error (split_lines content) k = Some l ->
  skipped_by_variables l = true ->
  at_line (k + 1) (extractVariables content language) = [].
Proof.
  intros Hk Hskip. apply at_line_none. intros e He Hline.
  unfold extractVariables in He.
  destruct (variablePatterns language) as [ps|]; [|contradiction].
  apply line_loop_origin in He as (k' & l' & Hk' & Hl' & Hin);
    [|intros l0 n e0; apply variable_line_number].
  cbn [Nat.add] in Hl', Hin. assert (k' = k) by lia. subst k'.
  rewrite Hk in Hk'. injection Hk' as <-.
  unfold variable_line in Hin. rewrite Hskip in Hin. exact Hin.
Qed.

Lemma comment_step_kinds (p : comment_patterns) (st : comment_state)
      (line : jsstring) (i : nat) :
  Forall (fun e => 1 <= Element.line e /\
                   ((Element.type e = SingleLineComment /\
                     no_outer_ws (Element.content e)) \/
                    Element.type e = MultiLineComment)) (comments st) /\
  (inMultiLineComment st = true -> 1 <= multiLineStartLine st) ->
  Forall (fun e => 1 <= Element.line e /\
                   ((Element.type e = SingleLineComment /\
                     no_outer_ws (Element.content e)) \/
                    Element.type e = MultiLineComment))
         (comments (comment_step p st line (i + 1))) /\
  (inMultiLineComment (comment_step p st line (i + 1)) = true ->
   1 <= multiLineStartLine (comment_step p st line (i + 1))).
Proof.
  intros [H Hs]. unfold comment_step.
  destruct (inMultiLineComment st) eqn:Hin.
  - specialize (Hs eq_refl).
    destruct (exec (multiLineCommentEnd p) line); cbn [comments inMultiLineComment
      multiLineStartLine].
    + split; [|discriminate]. apply Forall_app; split; [exact H|].
      constructor; [|constructor]. cbn [Element.line Element.type]. split; [exact Hs|].
      right. reflexivity.
    + split; [exact H|]. intros _. exact Hs.
  - set (comments1 := match exec (singleLineComment p) line with
                      | Some _ => _
                      | None => comments st
                      end).
    assert (H1 : Forall (fun e => 1 <= Element.line e /\
                   ((Element.type e = SingleLineComment /\
                     no_outer_ws (Element.content e)) \/
                    Element.type e = MultiLineComment)) comments1).
    { unfold comments1. destruct (exec (singleLineComment p) line); [|exact H].
      apply Forall_app; split; [exact H|]. constructor; [|constructor].
      cbn [Element.line Element.type Element.content]. split; [lia|].
      left. split; [reflexivity|apply trim_no_outer_ws]. }
    destruct (exec (multiLineCommentStart p) line);
      [destruct (exec (multiLineCommentEnd p) line)|];
      cbn [comments inMultiLineComment multiLineStartLine].
    + split; [|discriminate]. apply Forall_app; split; [exact H1|].
      constructor; [|constructor]. cbn [Element.line Element.type]. split; [lia|].
      right. reflexivity.
    + split; [exact H1|]. intros _. lia.
    + split; [exact H1|]. discriminate.
Qed.

(** X10. Every element returned by [extractComments], for any text and
    language, carries the 1-based number of a line of the text and the
    name "Comment at line <that number>"; the content of a single-line
    comment has no white space at either end. *)
Theorem comments_are_well_formed_elements (content language : jsstring) :
  Forall (comment_element content) (extractComments content language).
Proof.
  pose proof (extractComments_names content language) as Hnames.
  unfold extractComments in *.
  destruct (commentPatterns language) as [p|]; [|constructor].
  set (st0 := CommentState [] false [] 0) in *.
  pose proof (@comment_loop_inv p (split_lines content) st0 0) as Hinv.
  assert (Hkinds : forall lines st i,
             (Forall (fun e => 1 <= Element.line e /\
                   ((Element.type e = SingleLineComment /\
                     no_outer_ws (Element.content e)) \/
                    Element.type e = MultiLineComment)) (comments st) /\
              (inMultiLineComment st = true -> 1 <= multiLineStartLine st)) ->
             Forall (fun e => 1 <= Element.line e /\
                   ((Element.type e = SingleLineComment /\
                     no_outer_ws (Element.content e)) \/
                    Element.type e = MultiLineComment))
                    (comments (comment_loop p st lines i))).
  { induction lines as [|l lines IH]; intros st i H; [exact (proj1 H)|].
    cbn [comment_loop]. apply IH. apply comment_step_kinds. exact H. }
  specialize (Hkinds (split_lines content) st0 0
                     (conj (Forall_nil _) (fun H => False_ind _ (diff_false_true H)))).
  assert (Hupper : Forall (fun e => Element.line e <= length (split_lines content))
                          (comments (comment_loop p st0 (split_lines content) 0))).
  { destruct Hinv as [_ Hb]; [split; constructor|].
    destruct (inMultiLineComment (comment_loop p st0 (split_lines content) 0)).
    - destruct Hb as [Hb Hs]. eapply Forall_impl; [|exact Hb]. simpl. intros e He. lia.
    - exact Hb. }
  rewrite Forall_forall in *. intros e He.
  destruct (Hkinds e He) as [Hlow Hkind]. unfold comment_element.
  split; [split; [exact Hlow|exact (Hupper e He)]|].
  split; [exact (Hnames e He)|exact Hkind].
Qed.

(* ================================================================= *)
(** ** Blank texts *)

Lemma blank_line_loop (t : ElementType) (content language : jsstring)
      (es : list ExtractedElement) :
  Forall (fun l => blank l = true) (split_lines content) ->
  Forall (table_element t content) es -> es = [].
Proof.
  intros Hb H. destruct es as [|e es]; [reflexivity|exfalso].
  inversion H as [|? ? (_ & _ & _ & l & Hl & Hc & Hne & _) _]; subst.
  rewrite Forall_forall in Hb. apply nth_error_In in Hl.
  rewrite Hc, (blank_trim _ (Hb l Hl)) in Hne. apply Hne. reflexivity.
Qed.

Lemma comment_step_blank (p : comment_patterns) (st : comment_state)
      (l : jsstring) (n : nat) :
  needs_visible (singleLineComment p) = true ->
  needs_visible (multiLineCommentStart p) = true ->
  inMultiLineComment st = false -> blank l = true ->
  comment_step p st l n =
  CommentState (comments st) false (multiLineContent st) (multiLineStartLine st).
Proof.
  intros H1 H2 Hin Hb. unfold comment_step. rewrite Hin.
  destruct (exec (singleLineComment p) l) as [mt|] eqn:E1.
  { destruct (@exec_needs_visible _ l mt E1 H1) as [K _]. congruence. }
  destruct (exec (multiLineCommentStart p) l) as [mt|] eqn:E2.
  { destruct (@exec_needs_visible _ l mt E2 H2) as [K _]. congruence. }
  reflexivity.
Qed.

(** X11. A text whose lines are all blank (empty or made of white space)
    yields no element, in any of the six extractors and in any language;
    in particular the empty text yields none. *)
Theorem blank_text_yields_nothing (content language : jsstring) :
  Forall (fun l => blank l = true) (split_lines content) ->
  extractComments content language = [] /\
  extractFunctions content language = [] /\
  extractClasses content language = [] /\
  extractImports content language = [] /\
  extractVariables content language = [] /\
  extractTypes content language = [].
Proof.
  intro Hb.
  destruct (table_extractor_elements content language)
    as (Hf & Hc & Hi & Hv & Ht).
  refine (conj _ (conj (blank_line_loop language Hb Hf)
            (conj (blank_line_loop language Hb Hc)
               (conj (blank_line_loop language Hb Hi)
                  (conj (blank_line_loop language Hb Hv)
                        (blank_line_loop language Hb Ht)))))).
  unfold extractComments. destruct (commentPatterns language) as [p|] eqn:Hp;
    [|reflexivity].
  destruct (@commentPatterns_visible language p Hp) as [H1 H2].
  assert (G : forall lines st i,
             inMultiLineComment st = false ->
             Forall (fun l => blank l = true) lines ->
             comments (comment_loop p st lines i) = comments st).
  { induction lines as [|l lines IH]; intros st i Hin Hl; [reflexivity|].
    inversion Hl as [|? ? Hl1 Hl2]; subst. cbn [comment_loop].
    rewrite (@comment_step_blank p st l (i + 1) H1 H2 Hin Hl1).
    rewrite IH by (reflexivity || assumption). reflexivity. }
  exact (G (split_lines content) (CommentState [] false [] 0) 0 eq_refl Hb).
Qed.

(* ================================================================= *)
(** ** Texts put one after the other *)

Lemma split_lines_aux_join (a b cur : jsstring) :
  split_lines_aux cur (a ++ "010"%char :: b) = split_lines_aux cur a ++ split_lines b.
Proof.
  revert cur. induction a as [|c a IH]; intro cur.
  - reflexivity.
  - cbn [app split_lines_aux]. destruct (Ascii.eqb c "010"%char).
    + rewrite IH. reflexivity.
    + apply IH.
Qed.

(** [(a + '\n' + b).split('\n')] is the lines of [a] followed by the
    lines of [b]. *)
Lemma split_lines_join (a b : jsstring) :
  split_lines (a ++ "010"%char :: b) = split_lines a ++ split_lines b.
Proof. apply split_lines_aux_join. Qed.

Lemma line_loop_app (f : jsstring -> nat -> list ExtractedElement)
      (l1 l2 : list jsstring) (i : nat) :
  line_loop f (l1 ++ l2) i = line_loop f l1 i ++ line_loop f l2 (i + length l1).
Proof.
  revert i. induction l1 as [|l l1 IH]; intro i; simpl.
  - rewrite Nat.add_0_r. reflexivity.
  - rewrite IH, <- app_assoc. do 3 f_equal. lia.
Qed.

Lemma line_loop_shift (f : jsstring -> nat -> list ExtractedElement)
      (lines : list jsstring) (i k : nat) :
  (forall l n, f l (n + k) = map (shift k) (f l n)) ->
  line_loop f lines (i + k) = map (shift k) (line_loop f lines i).
Proof.
  intro Hf. revert i. induction lines as [|l lines IH]; intro i; simpl; [reflexivity|].
  rewrite map_app, <- IH, <- Hf. do 2 f_equal; lia.
Qed.

Lemma push_if_named_shift t nm l n k :
  push_if_named t nm l (n + k) = map (shift k) (push_if_named t nm l n).
Proof. destruct nm as [[|c nm]|]; reflexivity. Qed.

(** A line loop over the lines of two texts joined by a line feed. *)
Lemma line_loop_join (f : jsstring -> nat -> list ExtractedElement) (a b : jsstring) :
  (forall l n k, f l (n + k) = map (shift k) (f l n)) ->
  line_loop f (split_lines (a ++ "010"%char :: b)) 0 =
  line_loop f (split_lines a) 0 ++
  map (shift (length (split_lines a))) (line_loop f (split_lines b) 0).
Proof.
  intro Hf. rewrite split_lines_join, line_loop_app. f_equal.
  apply (@line_loop_shift f (split_lines b) 0 (length (split_lines a))).
  intros l n. apply Hf.
Qed.

(** X12. The five pattern-table extractors treat every line on its own:
    extracting from a text [a], a line feed and a text [b] gives the
    elements of [a] followed by the elements of [b] with their line
    numbers moved down by the number of lines of [a]. *)
Theorem table_extractors_concatenate (a b language : jsstring) :
  let joined := a ++ "010"%char :: b in
  let down := map (shift (length (split_lines a))) in
  extractFunctions joined language =
    extractFunctions a language ++ down (extractFunctions b language) /\
  extractClasses joined language =
    extractClasses a language ++ down (extractClasses b language) /\
  extractImports joined language =
    extractImports a language ++ down (extractImports b language) /\
  extractVariables joined language =
    extractVariables a language ++ down (extractVariables b language) /\
  extractTypes joined language =
    extractTypes a language ++ down (extractTypes b language).
Proof.
  cbv zeta. refine (conj _ (conj _ (conj _ (conj _ _)))).
  - unfold extractFunctions. destruct (functionPatterns language) as [ps|]; [|reflexivity].
    apply line_loop_join. intros l n k. unfold function_line.
    destruct (first_match ps l); [apply push_if_named_shift|reflexivity].
  - unfold extractClasses. destruct (classPatterns language) as [ps|]; [|reflexivity].
    apply line_loop_join. intros l n k. unfold class_line.
    destruct (first_match ps l); [apply push_if_named_shift|reflexivity].
  - unfold extractImports. destruct (importPatterns language) as [ps|]; [|reflexivity].
    apply line_loop_join. intros l n k. unfold import_line.
    destruct (first_match ps l); reflexivity.
  - unfold extractVariables. destruct (variablePatterns language) as [ps|]; [|reflexivity].
    apply line_loop_join. intros l n k. unfold variable_line.
    destruct (skipped_by_variables l); [reflexivity|].
    destruct (first_match ps l); [apply push_if_named_shift|reflexivity].
  - unfold extractTypes. destruct (typePatterns language) as [ps|]; [|reflexivity].
    apply line_loop_join. intros l n k. unfold type_line.
    destruct (first_match ps l); [apply push_if_named_shift|reflexivity].
Qed.

(* ================================================================= *)
(** ** Languages *)

Lemma not_supported (language s : jsstring) :
  ~ In language supported_languages -> In s supported_languages ->
  streq language s = false.
Proof.
  intros Hn Hs. apply streq_false_iff. intros ->. contradiction.
Qed.

Ltac unsupported H :=
  repeat match goal with
         | |- context [streq ?language (js ?s)] =>
             rewrite (@not_supported language (js s) H) by (simpl; tauto)
         end.

(** X13. For a language other than the five supported ones (the test is
    case-sensitive), every extractor returns the empty list, whatever the
    text: an unknown language is not an error. *)
Theorem unsupported_language_yields_nothing (content language : jsstring) :
  ~ In language supported_languages ->
  extractComments content language = [] /\
  extractFunctions content language = [] /\
  extractClasses content language = [] /\
  extractImports content language = [] /\
  extractVariables content language = [] /\
  extractTypes content language = [].
Proof.
  intro H.
  unfold extractComments, extractFunctions, extractClasses, extractImports,
    extractVariables, extractTypes, commentPatterns, functionPatterns, classPatterns,
    importPatterns, variablePatterns, typePatterns.
  unsupported H. cbn [orb]. repeat split.
Qed.

(** X14. Javascript and typescript are extracted alike for comments,
    functions, classes, imports and variables (they differ for types
    only), and java and go share the comment extraction of javascript. *)
Theorem languages_that_agree (content : jsstring) :
  extractComments content "typescript" = extractComments content "javascript" /\
  extractComments content "java" = extractComments content "javascript" /\
  extractComments content "go" = extractComments content "javascript" /\
  extractFunctions content "typescript" = extractFunctions content "javascript" /\
  extractClasses content "typescript" = extractClasses content "javascript" /\
  extractImports content "typescript" = extractImports content "javascript" /\
  extractVariables content "typescript" = extractVariables content "javascript".
Proof.
  refine (conj eq_refl (conj eq_refl (conj eq_refl (conj eq_refl (conj eq_refl
            (conj eq_refl eq_refl)))))).
Qed.

Section Choices.

Variable config : Config.



(** X16. The two [switch] statements of [execute] fall back silently: a
    [format] that is absent, empty or not one of [json], [tree] and
    [summary] (the test is case-sensitive) gives the list format, and a
    [type] that is not one of the six kinds gives no element. *)
Theorem unknown_format_and_type (params : ExtractToolParams) :
  ((forall f, Params.format params = Some f ->
              f <> js "json" /\ f <> js "tree" /\ f <> js "summary") ->
   forall results, format_output config params results = formatAsList config results) /\
  (~ In (Params.type params)
        [js "comments"; js "functions"; js "classes"; js "imports"; js "variables";
         js "types"] ->
   forall content language, extract_by_type (Params.type params) content language = []).
Proof.
  split.
  - intros H results. unfold format_output.
    destruct (Params.format params) as [[|c f]|]; [reflexivity| |reflexivity].
    destruct (H (c :: f) eq_refl) as (H1 & H2 & H3). cbn [or_else truthy].
    apply streq_false_iff in H1, H2, H3. rewrite H1, H2, H3. reflexivity.
  - intros H content language. unfold extract_by_type.
    repeat match goal with
           | |- context [streq (Params.type params) ?s] =>
               let E := fresh "E" in
               destruct (streq (Params.type params) s) eqn:E;
               [apply streq_true_iff in E; exfalso; apply H; rewrite E; simpl; tauto|]
           end.
    reflexivity.
Qed.

(** X17. In the list format, a file without elements is shown as its
    header and the line "No elements found", with no trailing line
    break. *)
Theorem list_format_of_no_elements (path : jsstring) :
  formatAsList config [MkFileResult path []] =
  js "--- " ++ makeRelative config path (getTargetDir config) ++ js " ---" ++ nl ++
  js "No elements found".
Proof.
  unfold formatAsList, relativePath. cbn [fold_left elements filePath length Nat.eqb].
  set (rel := makeRelative config path (getTargetDir config)).
  replace ((([] ++ js "--- " ++ rel ++ js " ---" ++ nl) ++ js "No elements found" ++ nl) ++ nl)
    with (("-"%char :: js "-- " ++ rel ++ js " ---" ++ nl ++ js "No elements foun") ++
          "d"%char :: (nl ++ nl)).
  - rewrite trim_visible_app by reflexivity.
    change (trimEnd (nl ++ nl)) with (@nil ascii).
    cbn [app js list_ascii_of_string]. rewrite <- !app_assoc. reflexivity.
  - cbn [app js list_ascii_of_string]. rewrite <- !app_assoc. cbn [app].
    repeat (rewrite <- !app_assoc; cbn [app]). reflexivity.
Qed.

End Choices.

(* ================================================================= *)
(** ** What python blocks hold *)

Lemma python_start_at (q : jsstring) (bef t' : list ascii) (k : cont) :
  (forall y, k y <> None) ->
  exists z g,
    m (Group 2 (Star Dot)) k
      (set_cap 1 (consumed (MState bef (q ++ t') []) (MState (rev q ++ bef) t' []))
               (MState (rev q ++ bef) t' [])) = k z /\
    caps z = [(2, g); (1, q)].
Proof.
  intro Hk.
  rewrite (@consumed_advances (MState bef (q ++ t') []) (MState (rev q ++ bef) t' []) q)
    by (split; reflexivity).
  unfold set_cap at 1. cbn [before rest caps filter m groups_of].
  rewrite greedy_run by (intro y; exact (Hk _)) || lia.
  eexists. eexists. split; [reflexivity|]. reflexivity.
Qed.

Lemma python_start_here (bef t : list ascii) (y : mstate) :
  m (multiLineCommentStart python_comments) (fun y => Some y) (MState bef t []) = Some y ->
  exists q g, (q = [squote; squote; squote] \/ q = [dquote; dquote; dquote]) /\
              caps y = [(2, g); (1, q)].
Proof.
  set (k1 := fun y0 : mstate =>
               m (Group 2 (Star Dot)) (fun y => Some y)
                 (set_cap 1 (consumed (MState bef t []) y0) y0)).
  change (m (multiLineCommentStart python_comments) (fun y => Some y) (MState bef t []))
    with (orelse (m (lit [squote; squote; squote]) k1 (MState bef t []))
                 (fun _ => m (lit [dquote; dquote; dquote]) k1 (MState bef t []))).
  rewrite !m_lit.
  destruct (startsWith t [squote; squote; squote]) eqn:S1.
  - apply startsWith_iff in S1 as [t' ->]. unfold k1.
    change (skipn (length [squote; squote; squote]) ([squote; squote; squote] ++ t'))
      with t'.
    destruct (@python_start_at [squote; squote; squote] bef t' (fun y => Some y))
      as (z & g & E & Hc); [discriminate|].
    rewrite E. cbn [orelse]. intros [= <-]. exists [squote; squote; squote], g.
    split; [left; reflexivity|exact Hc].
  - cbn [orelse]. destruct (startsWith t [dquote; dquote; dquote]) eqn:S2; [|discriminate].
    apply startsWith_iff in S2 as [t' ->]. unfold k1.
    change (skipn (length [dquote; dquote; dquote]) ([dquote; dquote; dquote] ++ t'))
      with t'.
    destruct (@python_start_at [dquote; dquote; dquote] bef t' (fun y => Some y))
      as (z & g & E & Hc); [discriminate|].
    rewrite E. intros [= <-]. exists [dquote; dquote; dquote], g.
    split; [right; reflexivity|exact Hc].
Qed.

Lemma python_start_search (l bef : list ascii) (mt : match_result) :
  search (multiLineCommentStart python_comments) bef l = Some mt ->
  group mt 1 = Some [squote; squote; squote] \/
  group mt 1 = Some [dquote; dquote; dquote].
Proof.
  revert bef. induction l as [|c l IH]; intros bef H.
  - cbn [search] in H.
    destruct (m _ _ (MState bef [] [])) as [y|] eqn:E; [|discriminate].
    injection H as <-. apply python_start_here in E as (q & g & Hq & Hc).
    unfold group. cbn [groups]. rewrite Hc. cbn.
    destruct Hq as [-> | ->]; [left|right]; reflexivity.
  - cbn [search] in H.
    destruct (m _ _ (MState bef (c :: l) [])) as [y|] eqn:E.
    + injection H as <-. apply python_start_here in E as (q & g & Hq & Hc).
      unfold group. cbn [groups]. rewrite Hc. cbn.
      destruct Hq as [-> | ->]; [left|right]; reflexivity.
    + exact (IH _ H).
Qed.

(** The first group of a match of the block-start pattern of python is
    the triple quote, not the text that follows it. *)
Lemma python_start_group (l : jsstring) (mt : match_result) :
  exec (multiLineCommentStart python_comments) l = Some mt ->
  group mt 1 = Some [squote; squote; squote] \/
  group mt 1 = Some [dquote; dquote; dquote].
Proof.
  exact (@python_start_search l [] mt).
Qed.

Lemma python_step_blocks (st : comment_state) (l : jsstring) (n : nat) :
  inMultiLineComment st = false ->
  Forall (fun e => Element.type e = MultiLineComment ->
                   Element.content e = [squote; squote; squote] \/
                   Element.content e = [dquote; dquote; dquote]) (comments st) ->
  Forall (fun e => Element.type e = MultiLineComment ->
                   Element.content e = [squote; squote; squote] \/
                   Element.content e = [dquote; dquote; dquote])
         (comments (comment_step python_comments st l n)).
Proof.
  intros Hin H. unfold comment_step. rewrite Hin.
  set (comments1 := match exec (singleLineComment python_comments) l with
                    | Some _ => _
                    | None => comments st
                    end).
  assert (H1 : Forall (fun e => Element.type e = MultiLineComment ->
                   Element.content e = [squote; squote; squote] \/
                   Element.content e = [dquote; dquote; dquote]) comments1).
  { unfold comments1. destruct (exec (singleLineComment python_comments) l); [|exact H].
    apply Forall_app; split; [exact H|]. constructor; [|constructor].
    cbn [Element.type]. discriminate. }
  destruct (exec (multiLineCommentStart python_comments) l) as [ms|] eqn:Es; [|exact H1].
  destruct (exec (multiLineCommentEnd python_comments) l); cbn [comments]; [|exact H1].
  apply Forall_app; split; [exact H1|]. constructor; [|constructor].
  cbn [Element.content]. intros _.
  destruct (@python_start_group l ms Es) as [-> | ->]; [left|right]; reflexivity.
Qed.

(** X18. In python, [extractComments] never gathers the text of a block:
    every multi-line element it returns, for any text, has a triple quote
    as its whole content (the marker of the line it was found on), because
    a line that opens a block also closes it. *)
Theorem python_blocks_hold_only_quotes (content : jsstring) :
  Forall (fun e => Element.type e = MultiLineComment ->
                   Element.content e = [squote; squote; squote] \/
                   Element.content e = [dquote; dquote; dquote])
         (extractComments content "python").
Proof.
  unfold extractComments. change (commentPatterns "python") with (Some python_comments).
  assert (G : forall lines st i,
             inMultiLineComment st = false ->
             Forall (fun e => Element.type e = MultiLineComment ->
                   Element.content e = [squote; squote; squote] \/
                   Element.content e = [dquote; dquote; dquote]) (comments st) ->
             Forall (fun e => Element.type e = MultiLineComment ->
                   Element.content e = [squote; squote; squote] \/
                   Element.content e = [dquote; dquote; dquote])
                    (comments (comment_loop python_comments st lines i))).
  { induction lines as [|l lines IH]; intros st i Hin H; [exact H|].
    cbn [comment_loop]. apply IH.
    - exact (@python_never_in_block [l] st i Hin).
    - apply python_step_blocks; assumption. }
  apply G; [reflexivity|constructor].
Qed.

(* ================================================================= *)
(** ** Instances of the further properties *)

Lemma c_style_unterminated_block_is_dropped_witness :
  In (js "go") [js "javascript"; js "typescript"; js "java"; js "go"] /\
  Forall well_formed_item sample_layout /\
  extractComments unterminated_text "go" =
  expected sample_layout 1 ++
  [Element.Build SingleLineComment (comment_name 7) 7 (js "four /* open")].
Proof.
  assert (H1 : In (js "go") [js "javascript"; js "typescript"; js "java"; js "go"])
    by (right; right; right; left; reflexivity).
  assert (H2 : Forall well_formed_item sample_layout)
    by (repeat constructor; reflexivity).
  assert (H3 : Forall (fun l => includes l "*/" = false) [js "never closed"])
    by (repeat constructor).
  exact (conj H1 (conj H2
           (@c_style_unterminated_block_is_dropped unterminated_text "go" sample_layout
              "x -= 1; // four /* open" [js "never closed"]
              H1 eq_refl H2 eq_refl eq_refl H3))).
Defined.

Lemma outside_workspace_stops_before_reading_witness :
  all_in_workspace guarded_config [js "a.js"] /\
  execute guarded_config (files_params [js "a.js"; js "../secret"; js "b.py"]) =
    Ret (outside_result "../secret") /\
  forall fs, run fs (execute guarded_config
                       (files_params [js "a.js"; js "../secret"; js "b.py"])) =
             (outside_result "../secret", []).
Proof.
  assert (H : all_in_workspace guarded_config [js "a.js"])
    by (constructor; [reflexivity|constructor]).
  exact (conj H
           (@outside_workspace_stops_before_reading guarded_config
              (files_params [js "a.js"; js "../secret"; js "b.py"])
              [js "a.js"] [js "b.py"] "../secret" eq_refl H eq_refl)).
Defined.

Lemma execute_reads_in_order_and_formats_witness :
  all_in_workspace sample_config [js "a.js"; js "b.py"] /\
  Forall (read_succeeds sample_config sample_fs) [js "/ws/a.js"; js "/ws/b.py"] /\
  run sample_fs (execute sample_config (files_params [js "a.js"; js "b.py"])) =
  (success_result sample_config (files_params [js "a.js"; js "b.py"]) sample_fs
                  [js "/ws/a.js"; js "/ws/b.py"],
   [js "/ws/a.js"; js "/ws/b.py"]).
Proof.
  assert (H1 : all_in_workspace sample_config [js "a.js"; js "b.py"])
    by (repeat constructor).
  assert (H2 : Forall (read_succeeds sample_config sample_fs) [js "/ws/a.js"; js "/ws/b.py"]).
  { constructor; [|constructor; [|constructor]];
      (eexists; split; [reflexivity|reflexivity]). }
  assert (H0 : requested_files (files_params [js "a.js"; js "b.py"]) <> [])
    by discriminate.
  exact (conj H1 (conj H2
           (@execute_reads_in_order_and_formats sample_config
              (files_params [js "a.js"; js "b.py"]) sample_fs H0 H1 H2))).
Defined.

Lemma read_error_is_propagated_witness :
  all_in_workspace sample_config [js "a.js"; js "c.js"; js "b.py"] /\
  Forall (read_succeeds sample_config sample_fs) [js "/ws/a.js"] /\
  run sample_fs (execute sample_config (files_params [js "a.js"; js "c.js"; js "b.py"])) =
  (MkToolResult (TextPart "missing") "Not found"
                (Some (MkToolError "File not found" (Some (OtherError "FILE_NOT_FOUND")))),
   [js "/ws/a.js"; js "/ws/c.js"]).
Proof.
  assert (H1 : all_in_workspace sample_config [js "a.js"; js "c.js"; js "b.py"])
    by (repeat constructor).
  assert (H2 : Forall (read_succeeds sample_config sample_fs) [js "/ws/a.js"]).
  { constructor; [|constructor]. eexists; split; reflexivity. }
  exact (conj H1 (conj H2
           (proj1 (@read_error_is_propagated sample_config
                     (files_params [js "a.js"; js "c.js"; js "b.py"]) sample_fs
                     [js "/ws/a.js"] [js "/ws/b.py"] "/ws/c.js"
                     (MkRead (TextPart (js "missing")) (Some (js "Not found"))
                             (Some (js "File not found"))
                             (Some (OtherError "FILE_NOT_FOUND")))
                     H1 eq_refl H2 eq_refl eq_refl)))).
Defined.

Lemma rejected_read_is_caught_witness :
  all_in_workspace sample_config [js "a.js"; js "b.py"] /\
  run broken_fs (execute sample_config (files_params [js "a.js"; js "b.py"])) =
  (caught "EIO", [js "/ws/a.js"]).
Proof.
  assert (H1 : all_in_workspace sample_config [js "a.js"; js "b.py"])
    by (repeat constructor).
  exact (conj H1
           (proj1 (@rejected_read_is_caught sample_config
                     (files_params [js "a.js"; js "b.py"]) broken_fs
                     [] [js "/ws/b.py"] "/ws/a.js" "EIO"
                     H1 eq_refl (Forall_nil (read_succeeds sample_config broken_fs))
                     eq_refl))).
Defined.

Lemma validated_request_without_files_witness :
  validateToolParamValues empty_files_params = None /\
  execute sample_config empty_files_params = Ret no_files_result.
Proof.
  assert (H : validateToolParamValues empty_files_params = None) by reflexivity.
  exact (conj H
           (proj2 (@validated_request_without_files sample_config empty_files_params H)
                  eq_refl)).
Defined.

Lemma declaration_lines_are_not_variables_witness :
  nth_error (split_lines exported_text) 1 = Some (js "  export const b = 2;") /\
  skipped_by_variables "  export const b = 2;" = true /\
  at_line 2 (extractVariables exported_text "javascript") = [].
Proof.
  assert (H1 : nth_error (split_lines exported_text) 1 = Some (js "  export const b = 2;"))
    by reflexivity.
  assert (H2 : skipped_by_variables "  export const b = 2;" = true) by reflexivity.
  exact (conj H1 (conj H2
           (@declaration_lines_are_not_variables exported_text "javascript"
              "  export const b = 2;" 1 H1 H2))).
Defined.

Lemma blank_text_yields_nothing_witness :
  Forall (fun l => blank l = true) (split_lines blank_text) /\
  extractComments blank_text "python" = [] /\
  extractFunctions blank_text "python" = [] /\
  extractClasses blank_text "python" = [] /\
  extractImports blank_text "python" = [] /\
  extractVariables blank_text "python" = [] /\
  extractTypes blank_text "python" = [].
Proof.
  assert (H : Forall (fun l => blank l = true) (split_lines blank_text))
    by (repeat constructor).
  exact (conj H (@blank_text_yields_nothing blank_text "python" H)).
Defined.

Lemma unsupported_language_yields_nothing_witness :
  ~ In (js "ruby") supported_languages /\
  extractComments test_comments "ruby" = [] /\
  extractFunctions test_comments "ruby" = [] /\
  extractClasses test_comments "ruby" = [] /\
  extractImports test_comments "ruby" = [] /\
  extractVariables test_comments "ruby" = [] /\
  extractTypes test_comments "ruby" = [].
Proof.
  assert (H : ~ In (js "ruby") supported_languages)
    by (intros [E | [E | [E | [E | [E | []]]]]]; discriminate).
  exact (conj H (@unsupported_language_yields_nothing test_comments "ruby" H)).
Defined.


Lemma unknown_format_and_type_witness :
  (forall results, format_output sample_config odd_params results =
                   formatAsList sample_config results) /\
  (forall content language, extract_by_type (Params.type odd_params) content language = []).
Proof.
  assert (H1 : forall f, Params.format odd_params = Some f ->
                         f <> js "json" /\ f <> js "tree" /\ f <> js "summary").
  { intros f [= <-]. repeat split; discriminate. }
  assert (H2 : ~ In (Params.type odd_params)
                    [js "comments"; js "functions"; js "classes"; js "imports";
                     js "variables"; js "types"])
    by (intros [E | [E | [E | [E | [E | [E | []]]]]]]; discriminate).
  exact (conj (proj1 (@unknown_format_and_type sample_config odd_params) H1)
              (proj2 (@unknown_format_and_type sample_config odd_params) H2)).
Defined.

(* ================================================================= *)
(** ** What a match captures *)












(* ================================================================= *)
(** ** The name groups of the pattern tables *)
















(* ================================================================= *)
(** ** Names of the elements (C3) *)


